(** * News MCP server (Naver news search): a shallow embedding of
    [server.py] and the properties of its text cleaning, parameter
    clamping, category lookup, report aggregation and tool dispatch. *)

From Stdlib Require Import ZArith Lia Ascii String DecimalString.
From Stdlib Require DecimalPos DecimalZ.
From stdpp Require Import gmap strings list.

Local Open Scope string_scope.
Local Open Scope Z_scope.
Local Open Scope list_scope.

(** ** Python strings

    A Python [str] is embedded as a [string] holding its UTF-8 bytes.  Every
    pattern the program searches for is ASCII, and an ASCII byte never occurs
    inside the encoding of another code point, so matching on bytes and
    matching on code points find the same spans. *)

Module Str.

Definition empty : string := EmptyString.

(** The one-character strings that cannot be written inside a literal. *)
Definition dquote : string := String "034"%char EmptyString.
Definition newline : string := String "010"%char EmptyString.

(** [text[n:]] for [0 <= n]. *)
Fixpoint drop (n : nat) (s : string) : string :=
  match n, s with
  | O, _ => s
  | S _, EmptyString => EmptyString
  | S k, String _ s' => drop k s'
  end.

(** [sep.join(parts)]. *)
Fixpoint join (sep : string) (parts : list string) : string :=
  match parts with
  | [] => EmptyString
  | [p] => p
  | p :: rest => p +:+ sep +:+ join sep rest
  end.

(** [bool(text)]: a string is truthy when it is not empty. *)
Definition truthy (s : string) : bool :=
  match s with EmptyString => false | String _ _ => true end.

(** [c in text] for a single character [c]. *)
Fixpoint mem (c : ascii) (s : string) : bool :=
  match s with
  | EmptyString => false
  | String d s' => if Ascii.eqb d c then true else mem c s'
  end.

(** Replacement of the non-overlapping matches of a pattern, scanning from
    the left, as both [re.sub] and [str.replace] do it.  [match_len s]
    says whether the pattern matches at the start of [s] and how many
    characters the match takes; after a match the scan resumes behind it:
    [skip] counts the characters of the current match that are still to be
    passed over. *)
Fixpoint subst_matches (match_len : string -> option nat) (repl : string)
    (skip : nat) (s : string) : string :=
  match s with
  | EmptyString => EmptyString
  | String c s' =>
      match skip with
      | S k => subst_matches match_len repl k s'
      | O =>
          match match_len s with
          | Some (S k) => repl +:+ subst_matches match_len repl k s'
          | _ => String c (subst_matches match_len repl 0 s')
          end
      end
  end.

(** Does the pattern match at some position of [s]? *)
Fixpoint matches_somewhere (match_len : string -> option nat) (s : string) : bool :=
  match s with
  | EmptyString => false
  | String _ s' =>
      match match_len s with
      | Some (S _) => true
      | _ => matches_somewhere match_len s'
      end
  end.

(** The literal pattern of [text.replace(old, new)]. *)
Definition literal (old : string) (s : string) : option nat :=
  if String.prefix old s then Some (String.length old) else None.

(** [text.replace(old, new)] for a non-empty [old]. *)
Definition replace (old new : string) (s : string) : string :=
  subst_matches (literal old) new 0 s.

(** [old in text]. *)
Definition occurs (old : string) (s : string) : bool :=
  matches_somewhere (literal old) s.

(** The length of the longest prefix of [s] without the character [c],
    when [c] follows it ([None] when [c] does not occur in [s]). *)
Fixpoint span_until (c : ascii) (s : string) : option nat :=
  match s with
  | EmptyString => None
  | String d s' =>
      if Ascii.eqb d c then Some O
      else match span_until c s' with
           | Some n => Some (S n)
           | None => None
           end
  end.

(** The regular expression [<[^>]+>] at the start of [s]: a ["<"], then the
    longest run of characters other than [">"], which must not be empty,
    then a [">"].  The run is greedy; giving characters back never helps,
    since the character after a shorter run is not a [">"]. *)
Definition match_tag (s : string) : option nat :=
  match s with
  | EmptyString => None
  | String c s' =>
      if Ascii.eqb c "<" then
        match span_until ">" s' with
        | Some (S n) => Some (S (S (S n)))
        | _ => None
        end
      else None
  end.

(** [re.sub(r'<[^>]+>', '', text)]. *)
Definition re_sub_tags (s : string) : string :=
  subst_matches match_tag EmptyString 0 s.

(** A [<...>] span is left somewhere in [s]. *)
Definition has_tag (s : string) : bool := matches_somewhere match_tag s.

End Str.

(** ** Text cleaning: [NewsMCPServer._clean_html_tags] *)

Definition _clean_html_tags (text : string) : string :=
  let clean_text := Str.re_sub_tags text in
  let clean_text := Str.replace "&quot;" Str.dquote clean_text in
  let clean_text := Str.replace "&amp;" "&" clean_text in
  let clean_text := Str.replace "&lt;" "<" clean_text in
  let clean_text := Str.replace "&gt;" ">" clean_text in
  let clean_text := Str.replace "&apos;" "'" clean_text in
  clean_text.

(** The five entities, in the order in which they are decoded. *)
Definition entities : list (string * string) :=
  [("&quot;", Str.dquote); ("&amp;", "&"); ("&lt;", "<"); ("&gt;", ">"); ("&apos;", "'")].

(** A string with no tag span and none of the five entities. *)
Definition is_clean (s : string) : bool :=
  negb (Str.has_tag s) && forallb (fun e => negb (Str.occurs e.1 s)) entities.


(** ** Exceptions and results

    [ClientError] stands for [aiohttp.ClientError] and its subclasses,
    [OtherError] for any other error an outside call raises (a JSON decoding
    error, an error of the completion client).  These and [TypeError],
    [ValueError] and [IndexError] are subclasses of [Exception].
    [CancelledError] stands for [asyncio.CancelledError] and the other
    exceptions that derive from [BaseException] only ([KeyboardInterrupt],
    [SystemExit]): an outside call that is awaited may raise them, and
    [except Exception] does not catch them. *)

Inductive exn : Type :=
  | ClientError (msg : string)
  | TypeError (msg : string)
  | ValueError (msg : string)
  | IndexError (msg : string)
  | OtherError (msg : string)
  | CancelledError (msg : string).

(** [str(e)]. *)
Definition str_exn (e : exn) : string :=
  match e with
  | ClientError m | TypeError m | ValueError m | IndexError m | OtherError m
  | CancelledError m => m
  end.

(** [isinstance(e, aiohttp.ClientError)] and [isinstance(e, Exception)]. *)
Definition is_ClientError (e : exn) : bool :=
  match e with ClientError _ => true | _ => false end.

Definition is_Exception (e : exn) : bool :=
  match e with CancelledError _ => false | _ => true end.

Inductive result (A : Type) : Type :=
  | Ok (a : A)
  | Raise (e : exn).
Arguments Ok {A} a.
Arguments Raise {A} e.

(** ** Data *)

Record TextContent : Type := mkTextContent { type : string; text : string }.

(** [TextContent(type="text", text=t)]. *)
Definition text_content (t : string) : TextContent :=
  {| type := "text"; text := t |}.

(** One element of the [items] array of a search response: a JSON object
    whose values are strings, as the list of its keys and values. *)
Abbreviation item := (list (string * string)).

(** [item.get(key, default)]. *)
Fixpoint item_get (it : item) (key default : string) : string :=
  match it with
  | [] => default
  | (k, v) :: rest => if String.eqb k key then v else item_get rest key default
  end.

(** The decoded body of a search response. *)
Record news_json : Type := mkNewsJson {
  j_total : option Z;
  j_start : option Z;
  j_display : option Z;
  j_items : option (list item)
}.

Record response : Type := mkResponse {
  status : Z;
  body_text : string;            (* [await response.text()] *)
  body_json : result news_json   (* [await response.json()] *)
}.

Record headers : Type := mkHeaders {
  X_Naver_Client_Id : option string;
  X_Naver_Client_Secret : option string
}.

(** The values that the arguments of a tool call hold, as the interpreter
    has them: [None], a truth value, an integer, a string or a list of
    strings.  A function is handed the values as they are, whatever the
    types its parameters are annotated with. *)
Inductive pyval : Type :=
  | PNone
  | PBool (b : bool)
  | PInt (n : Z)
  | PStr (s : string)
  | PStrList (l : list string).

(** A string, an integer or a truth value is read as the value that holds
    it where a value is expected. *)
Coercion PStr : string >-> pyval.
Coercion PInt : Z >-> pyval.
Coercion PBool : bool >-> pyval.
#[warnings="-uniform-inheritance"] Coercion PStrList : list >-> pyval.

(** The [params] of a request: [query] is the value the handler was given,
    the others are computed by the handler. *)
Record params : Type := mkParams {
  query : pyval;
  display : Z;
  start : Z;
  sort : string
}.

(** The request of [client.messages.create]. *)
Record completion_request : Type := mkCompletionRequest {
  model : string;
  max_tokens : Z;
  system : string;
  user_content : string
}.

(** What the process sends out. *)
Inductive event : Type :=
  | HttpGet (url : string) (h : headers) (p : params)
  | MessagesCreate (r : completion_request).

Definition is_HttpGet (e : event) : bool :=
  match e with HttpGet _ _ _ => true | MessagesCreate _ => false end.

(** An entry of [all_articles] in [_generate_news_report]; [search_query]
    is the query as the handler has it. *)
Record article : Type := mkArticle {
  title : string;
  description : string;
  originallink : string;
  link : string;
  pubDate : string;
  search_query : pyval
}.

(** An entry of [all_news_data] in [_search_and_summarize_news]; [nd_title]
    and [nd_body] are the keys ["제목"] and ["본문"]. *)
Record news_datum : Type := mkNewsDatum {
  nd_id : string;
  nd_keyword : string;
  nd_title : string;
  nd_body : string;
  nd_link : string;
  nd_pubDate : string
}.

Record category_info : Type := mkCategory {
  name : string;
  keywords : list string;
  description_ : string
}.

(** [NewsMCPServer.NEWS_CATEGORIES], in the order of the literal. *)
Definition NEWS_CATEGORIES : list (string * category_info) :=
  [ ("politics", mkCategory "정치" ["정치"; "국회"; "대통령"; "정당"; "선거"]
                   "정치, 국회, 정당 관련 뉴스");
    ("economy", mkCategory "경제" ["경제"; "주식"; "부동산"; "금융"; "기업"]
                  "경제, 금융, 증시, 부동산 관련 뉴스");
    ("society", mkCategory "사회" ["사회"; "사건"; "사고"; "교육"; "환경"]
                  "사회, 교육, 환경, 사건사고 관련 뉴스");
    ("culture", mkCategory "생활/문화" ["문화"; "여행"; "음식"; "건강"; "패션"]
                  "생활, 문화, 여행, 건강 관련 뉴스");
    ("tech", mkCategory "IT/과학" ["IT"; "과학"; "기술"; "AI"; "스마트폰"]
               "IT, 과학, 기술, 인공지능 관련 뉴스");
    ("world", mkCategory "세계" ["국제"; "세계"; "미국"; "중국"; "일본"]
                "국제, 세계 각국 관련 뉴스");
    ("sports", mkCategory "스포츠" ["스포츠"; "축구"; "야구"; "농구"; "올림픽"]
                 "스포츠, 프로야구, 축구, 올림픽 관련 뉴스");
    ("entertainment", mkCategory "연예" ["연예"; "드라마"; "영화"; "K-POP"; "아이돌"]
                        "연예, 드라마, 영화, K-POP 관련 뉴스") ].

(** [NEWS_CATEGORIES[category]], [None] when the key is absent. *)
Fixpoint lookup_category (reg : list (string * category_info)) (cat_id : string)
    : option category_info :=
  match reg with
  | [] => None
  | (k, info) :: rest => if String.eqb k cat_id then Some info else lookup_category rest cat_id
  end.

Definition NAVER_API_BASE_URL : string := "https://openapi.naver.com/v1/search/news.json".

(** ** The server object *)

Record server : Type := mkServer {
  client_id : option string;
  client_secret : option string;
  claude_api_key : option string;
  claude_client : option string;   (* the client, holding its key *)
  summary_prompt : string
}.

(** [not value] for an optional string: [None] and the empty string are
    falsy. *)
Definition falsy (o : option string) : bool :=
  match o with
  | Some s => negb (Str.truthy s)
  | None => true
  end.

(** [NewsMCPServer.__init__], from the process environment and the loaded
    summary prompt. *)
Definition new_server (environ : gmap string string) (prompt : string) : server :=
  let client_id := environ !! "news_client_id" in
  let client_secret := environ !! "news_client_secret" in
  let claude_api_key := environ !! "claude_api_key" in
  {| client_id := client_id;
     client_secret := client_secret;
     claude_api_key := claude_api_key;
     claude_client := if falsy claude_api_key then None else claude_api_key;
     summary_prompt := prompt |}.

(** ** State and effects

    The state of a running server: its [aiohttp] session and the requests it
    has sent out so far, oldest first.  What the handlers write to the log
    of the process is left out: nothing they return depends on it. *)

Inductive session_state : Type := NoSession | SessionClosed | SessionOpen.

Record state : Type := mkState {
  session : session_state;
  calls : list event
}.

(** A computation that may raise and that reads and updates the state. *)
Definition M (A : Type) : Type := state -> result A * state.

Definition ret {A} (a : A) : M A := fun st => (Ok a, st).

Definition raise {A} (e : exn) : M A := fun st => (Raise e, st).

Definition bind {A B} (m : M A) (k : A -> M B) : M B :=
  fun st =>
    match m st with
    | (Ok a, st') => k a st'
    | (Raise e, st') => (Raise e, st')
    end.

Definition lift {A} (r : result A) : M A := fun st => (r, st).

(** [try: body except <class>: handler]: the handler runs for the
    exceptions of the class, the others go on. *)
Definition try_except {A} (body : M A) (caught : exn -> bool) (handler : exn -> M A) : M A :=
  fun st =>
    match body st with
    | (Ok a, st') => (Ok a, st')
    | (Raise e, st') => if caught e then handler e st' else (Raise e, st')
    end.

Declare Scope py_scope.
Delimit Scope py_scope with py.
Notation "x <- m ;; k" := (bind m (fun x => k))
  (at level 100, m at next level, right associativity) : py_scope.
Notation "m ;; k" := (bind m (fun _ => k))
  (at level 100, right associativity) : py_scope.

(** [for x in xs: acc = body(acc, x)], where the body may raise. *)
Fixpoint for_each {A S} (xs : list A) (body : S -> A -> M S) (acc : S) : M S :=
  match xs with
  | [] => ret acc
  | x :: rest => bind (body acc x) (for_each rest body)
  end.

(** [str(n)] for an integer. *)
Definition str_of_Z (n : Z) : string := NilZero.string_of_int (Z.to_int n).

(** [s * n] for a string [s]. *)
Fixpoint str_repeat (s : string) (n : nat) : string :=
  match n with
  | O => EmptyString
  | S k => s +:+ str_repeat s k
  end.

(** The digits of [format(n, ',')]: a comma before every group of three
    digits, counted from the right. *)
Fixpoint group_digits (digits : list ascii) : string :=
  match digits with
  | [] => EmptyString
  | d :: rest =>
      String d ((if (0 <? List.length rest)%nat && (List.length rest mod 3 =? 0)%nat
                 then "," else EmptyString) +:+ group_digits rest)
  end.

(** [f"{n:,}"] for an integer. *)
Definition str_of_Z_grouped (n : Z) : string :=
  (if n <? 0 then "-" else EmptyString)
  +:+ group_digits (list_ascii_of_string (str_of_Z (Z.abs n))).

(** [x in xs] for strings. *)
Definition str_in (x : string) (xs : list string) : bool := existsb (String.eqb x) xs.

(** [a or b] for strings. *)
Definition str_or (a b : string) : string := if Str.truthy a then a else b.

Definition credentials_missing_text : string :=
  "오류: 네이버 API 자격 증명이 설정되지 않았습니다. "
  +:+ "환경 변수 news_client_id와 news_client_secret을 설정해주세요.".

(** The answer of [_generate_news_report] when no article was collected. *)
Definition not_found_text (topic : string) : string :=
  "'" +:+ topic +:+ "'에 대한 뉴스 기사를 찾을 수 없습니다.".

Definition claude_key_missing_text : string :=
  "오류: Claude API 키가 설정되지 않았습니다. "
  +:+ "환경 변수 claude_api_key를 설정해주세요.".

(** ** Formatting *)

(** The lines of one search result in [_format_news_results]. *)
Definition format_news_item (i : Z) (it : item) : list string :=
  let title := _clean_html_tags (item_get it "title" "제목 없음") in
  let description := _clean_html_tags (item_get it "description" "내용 없음") in
  let original_link := item_get it "originallink" EmptyString in
  let naver_link := item_get it "link" EmptyString in
  let pub_date := item_get it "pubDate" "알 수 없음" in
  ["### " +:+ str_of_Z i +:+ ". " +:+ title;
   "**발행일:** " +:+ pub_date;
   "**요약:** " +:+ description]
  ++ (if Str.truthy original_link then ["**원문 링크:** " +:+ original_link] else [])
  ++ (if Str.truthy naver_link && negb (String.eqb naver_link original_link)
      then ["**네이버 뉴스:** " +:+ naver_link] else [])
  ++ [EmptyString].

(** [for i, x in enumerate(xs, first): lines.extend(f(i, x))]. *)
Fixpoint enumerate_lines {A} (f : Z -> A -> list string) (first : Z) (xs : list A)
    : list string :=
  match xs with
  | [] => []
  | x :: rest => f first x ++ enumerate_lines f (first + 1) rest
  end.

Definition _format_news_results (data : news_json) (query : string) : list TextContent :=
  let total := default 0 (j_total data) in
  let start := default 1 (j_start data) in
  let items := default [] (j_items data) in
  match items with
  | [] => [text_content ("'" +:+ query +:+ "'에 대한 검색 결과가 없습니다.")]
  | _ =>
      let result_lines :=
        ["## 📰 '" +:+ query +:+ "' 뉴스 검색 결과";
         "총 " +:+ str_of_Z_grouped total +:+ "개의 결과 중 " +:+ str_of_Z start +:+ "~"
           +:+ str_of_Z (start + Z.of_nat (List.length items) - 1) +:+ "번째 결과";
         EmptyString]
        ++ enumerate_lines format_news_item start items in
      [text_content (Str.join Str.newline result_lines)]
  end.

(** The lines of one category in [_list_categories]. *)
Definition list_category_lines (entry : string * category_info) : list string :=
  let '(cat_id, cat_info) := entry in
  ["### " +:+ name cat_info +:+ " (`" +:+ cat_id +:+ "`)";
   "- **설명:** " +:+ description_ cat_info;
   "- **관련 키워드:** " +:+ Str.join ", " (keywords cat_info);
   EmptyString].

Definition _list_categories : list TextContent :=
  let lines :=
    ["## 📂 뉴스 카테고리 목록";
     EmptyString;
     "다음 카테고리로 뉴스를 검색할 수 있습니다:";
     EmptyString]
    ++ concat (map list_category_lines NEWS_CATEGORIES)
    ++ ["---";
        "💡 **사용법:** `get_category_news` 도구에서 category 파라미터에 카테고리 ID를 사용하세요.";
        "예: `get_category_news(category='tech')` → IT/과학 뉴스 검색"] in
  [text_content (Str.join Str.newline lines)].

(** The lines of one article in [_build_report]. *)
Definition report_article_lines (include_links : bool) (i : Z) (a : article) : list string :=
  ["### " +:+ str_of_Z i +:+ ". " +:+ title a;
   "📅 **발행일:** " +:+ pubDate a;
   EmptyString;
   "**내용 요약:**";
   "> " +:+ description a;
   EmptyString]
  ++ (if include_links
      then (if Str.truthy (originallink a)
            then ["🔗 [원문 보기](" +:+ originallink a +:+ ")"] else [])
           ++ (if Str.truthy (link a) && negb (String.eqb (link a) (originallink a))
               then ["🔗 [네이버 뉴스](" +:+ link a +:+ ")"] else [])
      else [])
  ++ [EmptyString; "---"; EmptyString].

(** [_build_report]; [now] is
    [datetime.now().strftime('%Y년 %m월 %d일 %H:%M')]. *)
Definition _build_report (now : string) (topic : string) (search_queries : list string)
    (articles : list article) (include_links : bool) : string :=
  let lines :=
    [str_repeat "=" 60;
     "# 📊 뉴스 리서치 레포트: " +:+ topic;
     str_repeat "=" 60;
     EmptyString;
     "**생성일시:** " +:+ now;
     "**분석 기사 수:** " +:+ str_of_Z (Z.of_nat (List.length articles)) +:+ "개";
     "**검색 키워드:** " +:+ Str.join ", " search_queries;
     EmptyString;
     "---";
     EmptyString;
     "## 📋 레포트 개요";
     EmptyString;
     "본 레포트는 '" +:+ topic +:+ "'에 관한 최신 뉴스 기사를 수집하여 정리한 것입니다.";
     "아래에서 주요 뉴스 내용과 핵심 포인트를 확인하실 수 있습니다.";
     EmptyString;
     "---";
     EmptyString;
     "## 📰 주요 뉴스 요약";
     EmptyString]
    ++ enumerate_lines (report_article_lines include_links) 1 articles
    ++ [EmptyString;
        "---";
        "*본 레포트는 네이버 뉴스 검색 API를 통해 자동 생성되었습니다.*"] in
  Str.join Str.newline lines.

(** [keywords_seen] of [_format_summary_result]: the items of each keyword,
    the keywords in the order in which they are first seen. *)
Fixpoint group_append (keyword : string) (it : news_datum)
    (groups : list (string * list news_datum)) : list (string * list news_datum) :=
  match groups with
  | [] => [(keyword, [it])]
  | (k, its) :: rest =>
      if String.eqb k keyword then (k, its ++ [it]) :: rest
      else (k, its) :: group_append keyword it rest
  end.

Definition group_by_keyword (original_news : list news_datum)
    : list (string * list news_datum) :=
  fold_left (fun groups it => group_append (nd_keyword it) it groups) original_news [].

Definition summary_link_lines (it : news_datum) : list string :=
  ["- [" +:+ nd_title it +:+ "](" +:+ nd_link it +:+ ")";
   "  📅 " +:+ nd_pubDate it].

Definition summary_group_lines (group : string * list news_datum) : list string :=
  ["### 🏷️ " +:+ group.1]
  ++ concat (map summary_link_lines group.2)
  ++ [EmptyString].

Definition _format_summary_result (now : string) (claude_response : string)
    (original_news : list news_datum) : string :=
  let lines :=
    [str_repeat "=" 60;
     "# 📰 AI 뉴스 요약 리포트";
     str_repeat "=" 60;
     EmptyString;
     "**생성일시:** " +:+ now;
     "**분석 기사 수:** " +:+ str_of_Z (Z.of_nat (List.length original_news)) +:+ "개";
     EmptyString;
     "---";
     EmptyString;
     "## 📋 Claude AI 분석 결과";
     EmptyString]
    ++ [claude_response; EmptyString; "---"; EmptyString]
    ++ ["## 🔗 원문 링크"; EmptyString]
    ++ concat (map summary_group_lines (group_by_keyword original_news))
    ++ ["---";
        "*본 요약은 Claude AI를 활용하여 자동 생성되었습니다.*"] in
  Str.join Str.newline lines.

(** ** What the handlers do with the values they are given

    The [arguments] of a tool call are a JSON object.  The handlers do not
    check the types of the values: each operation below works or raises as
    the interpreter makes it, with the message the interpreter gives. *)

(** [type(v).__name__]. *)
Definition type_name (v : pyval) : string :=
  match v with
  | PNone => "NoneType"
  | PBool _ => "bool"
  | PInt _ => "int"
  | PStr _ => "str"
  | PStrList _ => "list"
  end.

(** [bool(v)], which [if v:] tests. *)
Definition py_truthy (v : pyval) : bool :=
  match v with
  | PNone => false
  | PBool b => b
  | PInt n => negb (n =? 0)
  | PStr s => Str.truthy s
  | PStrList l => match l with [] => false | _ => true end
  end.

(** The number that [min(v, hi)] compares with the integer [hi]: the
    comparison raises [TypeError] unless [v] is a number; a truth value is
    the number 0 or 1, which [max(lo, ...)] with [1 <= lo] replaces by the
    integer [lo]. *)
Definition py_number (v : pyval) : result Z :=
  match v with
  | PInt n => Ok n
  | PBool b => Ok (Z.b2z b)
  | _ => Raise (TypeError ("'<' not supported between instances of 'int' and '"
                           +:+ type_name v +:+ "'"))
  end.

(** [v in xs] for a list of strings [xs]. *)
Definition py_in (v : pyval) (xs : list string) : bool :=
  match v with
  | PStr s => str_in s xs
  | _ => false
  end.

(** The characters of a string, each as a string: a character is a byte
    that is not a continuation byte of the UTF-8 encoding, with the
    continuation bytes that follow it. *)
Definition is_continuation (c : ascii) : bool :=
  ((128 <=? nat_of_ascii c) && (nat_of_ascii c <? 192))%nat.

(** The byte [c] before the characters [following]: it is the first byte of
    the first of them when that one lacks its first byte, and a character
    of its own, or the first byte of one, otherwise. *)
Definition chars_cons (c : ascii) (following : list string) : list string :=
  match following with
  | String d h :: t =>
      if is_continuation d then String c (String d h) :: t
      else String c EmptyString :: String d h :: t
  | _ => String c EmptyString :: following
  end.

Fixpoint chars (s : string) : list string :=
  match s with
  | EmptyString => []
  | String c rest => chars_cons c (chars rest)
  end.

(** The elements of [v[:n]] for any [n]: those of a list, the characters
    of a string; another value cannot be sliced. *)
Definition py_sequence (v : pyval) : result (list string) :=
  match v with
  | PStrList l => Ok l
  | PStr s => Ok (chars s)
  | _ => Raise (TypeError ("'" +:+ type_name v +:+ "' object is not subscriptable"))
  end.

(** [v[:n]] for a list or a string. *)
Definition py_take (n : nat) (v : pyval) : pyval :=
  match v with
  | PStrList l => PStrList (take n l)
  | PStr s => PStr (String.concat EmptyString (take n (chars s)))
  | _ => v
  end.

(** [keywords] as [_generate_news_report] reads it, [if keywords:] and then
    [keywords[:3]]: nothing for a value that is not truthy, the elements
    otherwise. *)
Definition py_optional_sequence (v : pyval) : result (option (list string)) :=
  if py_truthy v then
    match py_sequence v with
    | Ok l => Ok (Some l)
    | Raise e => Raise e
    end
  else Ok None.

(** The strings [sep.join(xs)] joins: [join] raises [TypeError] at the first
    element, counted from [i], that is not a string. *)
Fixpoint py_strs (i : Z) (xs : list pyval) : result (list string) :=
  match xs with
  | [] => Ok []
  | PStr s :: rest =>
      match py_strs (i + 1) rest with
      | Ok l => Ok (s :: l)
      | Raise e => Raise e
      end
  | v :: _ => Raise (TypeError ("sequence item " +:+ str_of_Z i
                                +:+ ": expected str instance, " +:+ type_name v +:+ " found"))
  end.

(** The value of an optional list of strings, which is read as that value
    where a value is expected. *)
Definition optional_list (o : option (list string)) : pyval :=
  match o with
  | Some l => PStrList l
  | None => PNone
  end.
#[warnings="-uniform-inheritance"] Coercion optional_list : option >-> pyval.

(** ** The handlers of [NewsMCPServer] *)

Section Handlers.

(** The server object [self]. *)
Variable self : server.

(** The remote ends: what [session.get] and [client.messages.create]
    answer or raise, which may depend on the calls made before. *)
Variable session_get : list event -> string -> headers -> params -> result response.

(** [repr(l)] for a list of strings, which is [str(l)]. *)
Variable py_repr : list string -> string.

Variable messages_create : list event -> completion_request -> result (list string).

(** [json.dumps(value, ensure_ascii=False)] for the list of id, title and
    body triples and for the keywords given for curation, a list of strings
    or a string. *)
Variable json_dumps_news : list (string * string * string) -> string.
Variable json_dumps_keywords : pyval -> string.

(** [datetime.now().strftime('%Y년 %m월 %d일 %H:%M')]. *)
Variable now : string.

(** The message of the [TypeError] the interpreter raises when the
    arguments of a call do not fit the function. *)
Variable call_error_text : string -> gmap string pyval -> string.

(** [str(v)], which [f"{v}"] is. *)
Definition py_str (v : pyval) : string :=
  match v with
  | PNone => "None"
  | PBool b => if b then "True" else "False"
  | PInt n => str_of_Z n
  | PStr s => s
  | PStrList l => py_repr l
  end.

Definition _ensure_session : M unit :=
  fun st =>
    match session st with
    | SessionOpen => (Ok tt, st)
    | _ => (Ok tt, {| session := SessionOpen; calls := calls st |})
    end.

(** [async with self.session.get(url, headers=headers, params=params)]. *)
Definition get (url : string) (h : headers) (p : params) : M response :=
  fun st =>
    (session_get (calls st) url h p,
     {| session := session st; calls := calls st ++ [HttpGet url h p] |}).

(** [self.claude_client.messages.create(...)]. *)
Definition create (r : completion_request) : M (list string) :=
  fun st =>
    (messages_create (calls st) r,
     {| session := session st; calls := calls st ++ [MessagesCreate r] |}).

Definition credentials_missing : bool :=
  falsy (client_id self) || falsy (client_secret self).

Definition naver_headers : headers :=
  {| X_Naver_Client_Id := client_id self;
     X_Naver_Client_Secret := client_secret self |}.

Definition _search_news (query display start sort : pyval) : M (list TextContent) :=
  (_ensure_session ;;
   if credentials_missing then
     ret [text_content credentials_missing_text]
   else
     display <- lift (py_number display) ;;
     let display := Z.max 1 (Z.min display 100) in
     start <- lift (py_number start) ;;
     let start := Z.max 1 (Z.min start 1000) in
     let sort := if negb (py_in sort ["sim"; "date"]) then "sim" else py_str sort in
     let headers := naver_headers in
     let params := {| query := query; display := display; start := start; sort := sort |} in
     try_except
       (response <- get NAVER_API_BASE_URL headers params ;;
        if negb (status response =? 200) then
          ret [text_content ("API 오류 (상태 코드: " +:+ str_of_Z (status response)
                             +:+ "): " +:+ body_text response)]
        else
          data <- lift (body_json response) ;;
          ret (_format_news_results data (py_str query)))
       is_ClientError
       (fun e => ret [text_content ("네트워크 오류: " +:+ str_exn e)]))%py.

(** [category in self.NEWS_CATEGORIES] and then
    [self.NEWS_CATEGORIES[category]]: the keys of the registry are strings,
    and a list cannot be hashed for the test. *)
Definition registry_get (category : pyval) : result (option category_info) :=
  match category with
  | PStr c => Ok (lookup_category NEWS_CATEGORIES c)
  | PStrList _ => Raise (TypeError "unhashable type: 'list'")
  | _ => Ok None
  end.

Definition _get_category_news (category display sort : pyval) : M (list TextContent) :=
  (found <- lift (registry_get category) ;;
   match found with
   | None =>
       let available := Str.join ", " (map fst NEWS_CATEGORIES) in
       ret [text_content ("오류: 알 수 없는 카테고리 '" +:+ py_str category
                          +:+ "'. 사용 가능한 카테고리: " +:+ available)]
   | Some cat_info =>
       match keywords cat_info with
       | [] => raise (IndexError "list index out of range")
       | query :: _ => _search_news query display 1 sort
       end
   end)%py.

(** *** Report aggregation *)

(** The body of the loop over the items of one response. *)
Definition add_article (query : pyval) (acc : list article * gset string) (it : item)
    : list article * gset string :=
  let '(all_articles, seen_titles) := acc in
  let title := _clean_html_tags (item_get it "title" EmptyString) in
  if Str.truthy title && bool_decide (title ∉ seen_titles) then
    (all_articles ++ [ {| title := title;
                          description := _clean_html_tags (item_get it "description" EmptyString);
                          originallink := item_get it "originallink" EmptyString;
                          link := item_get it "link" EmptyString;
                          pubDate := item_get it "pubDate" EmptyString;
                          search_query := query |} ],
     seen_titles ∪ {[ title ]})
  else acc.

(** The body of the loop over the search queries. *)
Definition report_query (articles_per_query : Z) (acc : list article * gset string)
    (query : pyval) : M (list article * gset string) :=
  (let params := {| query := query; display := Z.min articles_per_query 100;
                    start := 1; sort := "date" |} in
   try_except
     (response <- get NAVER_API_BASE_URL naver_headers params ;;
      if status response =? 200 then
        data <- lift (body_json response) ;;
        let items := default [] (j_items data) in
        ret (fold_left (add_article query) items acc)
      else ret acc)
     is_ClientError
     (fun _ => ret acc))%py.

(** The keywords added to the topic: at most three. *)
Definition report_keywords (keywords : option (list string)) : list string :=
  match keywords with
  | Some ((_ :: _) as ks) => take 3 ks
  | _ => []
  end.

(** [search_queries]: the topic and at most three more keywords. *)
Definition report_search_queries (topic : pyval) (keywords : option (list string))
    : list pyval :=
  topic :: map PStr (report_keywords keywords).

(** The clamped [num_articles]. *)
Definition report_num_articles (num_articles : Z) : Z := Z.max 5 (Z.min num_articles 50).

Definition report_articles_per_query (num_articles : Z) (search_queries : list pyval) : Z :=
  Z.max 5 (num_articles / Z.of_nat (length search_queries)).

(** [all_articles] and [seen_titles] when the loop over the queries ends. *)
Definition report_collect (topic : pyval) (keywords : option (list string))
    (num_articles : Z) : M (list article * gset string) :=
  let num_articles := report_num_articles num_articles in
  let search_queries := report_search_queries topic keywords in
  let articles_per_query := report_articles_per_query num_articles search_queries in
  for_each search_queries (report_query articles_per_query) ([], ∅).

(** [all_articles[:num_articles]], with the clamped [num_articles]. *)
Definition report_result (num_articles : Z) (all_articles : list article) : list article :=
  take (Z.to_nat (report_num_articles num_articles)) all_articles.

(** [num_articles] has to be a number for the comparison in [min], and
    [keywords], when it is truthy, a list or a string for the slice
    [keywords[:3]]; the [', '.join(search_queries)] of [_build_report]
    has to find strings only, the topic among them. *)
Definition _generate_news_report (topic keywords num_articles include_links : pyval)
    : M (list TextContent) :=
  (_ensure_session ;;
   if credentials_missing then
     ret [text_content credentials_missing_text]
   else
     num_articles <- lift (py_number num_articles) ;;
     keywords <- lift (py_optional_sequence keywords) ;;
     acc <- report_collect topic keywords num_articles ;;
     let all_articles := acc.1 in
     match all_articles with
     | [] => ret [text_content (not_found_text (py_str topic))]
     | _ =>
         let all_articles := report_result num_articles all_articles in
         search_queries <- lift (py_strs 0 (report_search_queries topic keywords)) ;;
         let report := _build_report now (py_str topic) search_queries
                         all_articles (py_truthy include_links) in
         ret [text_content report]
     end)%py.

(** *** Search and summary *)

(** [[f(i, x) for i, x in enumerate(xs, first)]]. *)
Fixpoint enumerate_map {A B} (f : Z -> A -> B) (first : Z) (xs : list A) : list B :=
  match xs with
  | [] => []
  | x :: rest => f first x :: enumerate_map f (first + 1) rest
  end.

(** The entry appended for the item number [idx] of a keyword. *)
Definition news_entry (keyword : string) (idx : Z) (it : item) : news_datum :=
  {| nd_id := keyword +:+ "_" +:+ str_of_Z idx;
     nd_keyword := keyword;
     nd_title := _clean_html_tags (item_get it "title" EmptyString);
     nd_body := _clean_html_tags (item_get it "description" EmptyString);
     nd_link := str_or (item_get it "originallink" EmptyString)
                       (item_get it "link" EmptyString);
     nd_pubDate := item_get it "pubDate" EmptyString |}.

(** The body of the loop over the keywords. *)
Definition summary_query (num_articles : Z) (all_news_data : list news_datum)
    (keyword : string) : M (list news_datum) :=
  (let params := {| query := keyword; display := num_articles;
                    start := 1; sort := "date" |} in
   try_except
     (response <- get NAVER_API_BASE_URL naver_headers params ;;
      if status response =? 200 then
        data <- lift (body_json response) ;;
        let items := default [] (j_items data) in
        ret (all_news_data ++ enumerate_map (news_entry keyword) 1 items)
      else ret all_news_data)
     is_ClientError
     (fun _ => ret all_news_data))%py.

(** The clamped [num_articles] and the kept [keywords]. *)
Definition summary_num_articles (num_articles : Z) : Z := Z.max 1 (Z.min num_articles 10).
Definition summary_keywords (keywords : list string) : list string := take 5 keywords.

(** [all_news_data] when the loop over the keywords ends. *)
Definition summary_collect (keywords : list string) (num_articles : Z)
    : M (list news_datum) :=
  for_each (summary_keywords keywords)
           (summary_query (summary_num_articles num_articles)) [].

(** [keywords_for_curation] is [None], or the keywords the handler kept. *)
Definition _summarize_with_claude (news_data : list news_datum)
    (keywords_for_curation : pyval) : M string :=
  (let news_list := map (fun it => (nd_id it, nd_title it, nd_body it)) news_data in
   let user_message_parts :=
     ["다음 뉴스 기사들을 분석하고 요약해주세요." +:+ Str.newline;
      "news_list: " +:+ json_dumps_news news_list +:+ Str.newline]
     ++ (if py_truthy keywords_for_curation
         then [Str.newline +:+ "keywords: " +:+ json_dumps_keywords keywords_for_curation]
         else []) in
   let user_message := Str.join Str.newline user_message_parts in
   content <- create {| model := "claude-haiku-4-5-20251001";
                        max_tokens := 20000;
                        system := summary_prompt self;
                        user_content := user_message |} ;;
   match content with
   | [] => raise (IndexError "list index out of range")
   | result_text :: _ => ret (_format_summary_result now result_text news_data)
   end)%py.

(** [num_articles] has to be a number for the comparison in [min], and
    [keywords] a list or a string for the slice [keywords[:5]]: the loop
    runs over the elements of the slice, and the slice itself is what is
    given for curation. *)
Definition _search_and_summarize_news (keywords num_articles include_keyword_curation : pyval)
    : M (list TextContent) :=
  (_ensure_session ;;
   if credentials_missing then
     ret [text_content credentials_missing_text]
   else
     match claude_client self with
     | None => ret [text_content claude_key_missing_text]
     | Some _ =>
         num_articles <- lift (py_number num_articles) ;;
         elements <- lift (py_sequence keywords) ;;
         let keywords := py_take 5 keywords in
         all_news_data <- summary_collect elements num_articles ;;
         match all_news_data with
         | [] => ret [text_content ("검색된 뉴스가 없습니다. 키워드: "
                                    +:+ Str.join ", " (summary_keywords elements))]
         | _ =>
             try_except
               (summary_result <- _summarize_with_claude all_news_data
                                    (if py_truthy include_keyword_curation
                                     then keywords else PNone) ;;
                ret [text_content summary_result])
               is_Exception
               (fun e => ret [text_content ("요약 생성 중 오류가 발생했습니다: " +:+ str_exn e)])
         end
     end)%py.

(** *** The tool dispatcher

    Calling a handler with [arguments] as its keyword arguments raises
    [TypeError] when a keyword is not a parameter of the handler or a
    parameter without default is missing.  Otherwise each parameter is
    bound to the value given for it, of whatever type, or to the default of
    the signature, and the handler runs. *)

Definition call_error {A} (handler : string) (arguments : gmap string pyval) : result A :=
  Raise (TypeError (call_error_text handler arguments)).

Definition accepts (parameters : list string) (arguments : gmap string pyval) : bool :=
  bool_decide (dom arguments ⊆ (list_to_set parameters : gset string)).

(** The value of a parameter without default. *)
Definition required (handler : string) (arguments : gmap string pyval) (key : string)
    : result pyval :=
  match arguments !! key with
  | Some v => Ok v
  | None => call_error handler arguments
  end.

(** The value of a parameter with a default. *)
Definition optional (arguments : gmap string pyval) (key : string) (default : pyval)
    : pyval :=
  match arguments !! key with
  | Some v => v
  | None => default
  end.

Definition call_search_news (arguments : gmap string pyval) : M (list TextContent) :=
  (let f := "_search_news" in
   if negb (accepts ["query"; "display"; "start"; "sort"] arguments)
   then lift (call_error f arguments)
   else
     query <- lift (required f arguments "query") ;;
     let display := optional arguments "display" 10 in
     let start := optional arguments "start" 1 in
     let sort := optional arguments "sort" "sim" in
     _search_news query display start sort)%py.

Definition call_get_category_news (arguments : gmap string pyval) : M (list TextContent) :=
  (let f := "_get_category_news" in
   if negb (accepts ["category"; "display"; "sort"] arguments)
   then lift (call_error f arguments)
   else
     category <- lift (required f arguments "category") ;;
     let display := optional arguments "display" 10 in
     let sort := optional arguments "sort" "date" in
     _get_category_news category display sort)%py.

Definition call_generate_news_report (arguments : gmap string pyval)
    : M (list TextContent) :=
  (let f := "_generate_news_report" in
   if negb (accepts ["topic"; "keywords"; "num_articles"; "include_links"] arguments)
   then lift (call_error f arguments)
   else
     topic <- lift (required f arguments "topic") ;;
     let keywords := optional arguments "keywords" PNone in
     let num_articles := optional arguments "num_articles" 15 in
     let include_links := optional arguments "include_links" true in
     _generate_news_report topic keywords num_articles include_links)%py.

Definition call_search_and_summarize_news (arguments : gmap string pyval)
    : M (list TextContent) :=
  (let f := "_search_and_summarize_news" in
   if negb (accepts ["keywords"; "num_articles"; "include_keyword_curation"] arguments)
   then lift (call_error f arguments)
   else
     keywords <- lift (required f arguments "keywords") ;;
     let num_articles := optional arguments "num_articles" 5 in
     let include_keyword_curation := optional arguments "include_keyword_curation" true in
     _search_and_summarize_news keywords num_articles include_keyword_curation)%py.

(** The body of the [try] of [handle_call_tool]. *)
Definition call_tool_body (name : string) (arguments : gmap string pyval)
    : M (list TextContent) :=
  if String.eqb name "search_news" then call_search_news arguments
  else if String.eqb name "get_category_news" then call_get_category_news arguments
  else if String.eqb name "list_categories" then ret _list_categories
  else if String.eqb name "generate_news_report" then call_generate_news_report arguments
  else if String.eqb name "search_and_summarize_news"
       then call_search_and_summarize_news arguments
  else raise (ValueError ("Unknown tool: " +:+ name)).

(** [try: ... except Exception as e: return [TextContent(type="text",
    text=f"Error: {str(e)}")]]. *)
Definition handle_call_tool (name : string) (arguments : gmap string pyval)
    : M (list TextContent) :=
  try_except
    (call_tool_body name arguments)
    is_Exception
    (fun e => ret [text_content ("Error: " +:+ str_exn e)]).

(** *** What the queries of a run return

    The aggregation is described from the answers the search API gives to
    the queries of a run, taken in the order of the queries. *)

(** What one answer contributes: the items of a response with status 200,
    nothing for another status or a [ClientError], and the error itself
    when it is not one the loop catches. *)
Definition returned_items (r : result response) : result (list item) :=
  match r with
  | Raise e => if is_ClientError e then Ok [] else Raise e
  | Ok resp =>
      if status resp =? 200 then
        match body_json resp with
        | Ok data => Ok (default [] (j_items data))
        | Raise e => if is_ClientError e then Ok [] else Raise e
        end
      else Ok []
  end.

(** The answers to the requests [mk q] for the queries [qs], sent one after
    the other when [cs] are the calls made before. *)
Fixpoint answers {Q} (mk : Q -> params) (cs : list event) (qs : list Q)
    : list (Q * result response) :=
  match qs with
  | [] => []
  | q :: rest =>
      (q, session_get cs NAVER_API_BASE_URL naver_headers (mk q))
      :: answers mk (cs ++ [HttpGet NAVER_API_BASE_URL naver_headers (mk q)]) rest
  end.

(** The items returned, each with the query that returned it, up to the
    first error that is not caught. *)
Fixpoint candidates {Q} (ans : list (Q * result response))
    : result (list (Q * item)) :=
  match ans with
  | [] => Ok []
  | (q, r) :: rest =>
      match returned_items r with
      | Raise e => Raise e
      | Ok items =>
          match candidates rest with
          | Raise e => Raise e
          | Ok more => Ok (map (pair q) items ++ more)
          end
      end
  end.

Definition report_params (articles_per_query : Z) (q : pyval) : params :=
  {| query := q; display := Z.min articles_per_query 100; start := 1; sort := "date" |}.

Definition summary_params (num_articles : Z) (q : string) : params :=
  {| query := q; display := num_articles; start := 1; sort := "date" |}.

(** The answers to the queries of a report. *)
Definition report_answers (cs : list event) (topic : pyval)
    (keywords : option (list string)) (num_articles : Z)
    : list (pyval * result response) :=
  let qs := report_search_queries topic keywords in
  answers (report_params (report_articles_per_query (report_num_articles num_articles) qs))
          cs qs.

End Handlers.

(** The parameters [_search_news] sends for its arguments. *)
Definition search_params (q : string) (d s : Z) (so : string) : params :=
  {| query := q;
     display := Z.max 1 (Z.min d 100);
     start := Z.max 1 (Z.min s 1000);
     sort := if negb (str_in so ["sim"; "date"]) then "sim" else so |}.

(** The answer of [_get_category_news] for a category that is not in the
    registry. *)
Definition unknown_category_text (c : string) : string :=
  "오류: 알 수 없는 카테고리 '" +:+ c +:+ "'. 사용 가능한 카테고리: "
  +:+ Str.join ", " (map fst NEWS_CATEGORIES).

(** The cleaned title of a returned item. *)
Definition item_title (it : item) : string :=
  _clean_html_tags (item_get it "title" EmptyString).

(** The article made of an item that the query [q] returned. *)
Definition article_of (q : pyval) (it : item) : article :=
  {| title := item_title it;
     description := _clean_html_tags (item_get it "description" EmptyString);
     originallink := item_get it "originallink" EmptyString;
     link := item_get it "link" EmptyString;
     pubDate := item_get it "pubDate" EmptyString;
     search_query := q |}.

(** Deduplication by cleaned title, first occurrence wins: an item is kept
    when its cleaned title is not empty and no item before it has the same
    cleaned title ([seen] are the titles kept so far). *)
Fixpoint first_seen (seen : list string) (cands : list (pyval * item)) : list article :=
  match cands with
  | [] => []
  | (q, it) :: rest =>
      if Str.truthy (item_title it) && negb (str_in (item_title it) seen)
      then article_of q it :: first_seen (item_title it :: seen) rest
      else first_seen seen rest
  end.

(** The body of the loop over the items, for an item with its query. *)
Definition add_candidate (acc : list article * gset string) (c : pyval * item)
    : list article * gset string :=
  add_article c.1 acc c.2.

(** How many articles of a sequence have the title [t]. *)
Definition count_title (t : string) (arts : list article) : nat :=
  length (filter (fun a => title a = t) arts).

(** The names of the tools the dispatcher knows. *)
Definition tool_names : list string :=
  ["search_news"; "get_category_news"; "list_categories";
   "generate_news_report"; "search_and_summarize_news"].

(** The state of a server that has made no call yet. *)
Definition initial_state : state := {| session := NoSession; calls := [] |}.

(** ** A small world to run the handlers in *)

Module Demo.

Definition environ : gmap string string :=
  {[ "news_client_id" := "id"; "news_client_secret" := "secret";
     "claude_api_key" := "key" ]}.

(** A server with all three credentials, and one with none. *)
Definition server_ : server := new_server environ "prompt".
Definition bare_server : server := new_server ∅ "prompt".

(** An item that has a title only. *)
Definition titled (t : string) : item := [("title", t)].

Definition ok_response (items : list item) : result response :=
  Ok {| status := 200;
        body_text := EmptyString;
        body_json := Ok {| j_total := Some (Z.of_nat (length items));
                           j_start := Some 1;
                           j_display := Some (Z.of_nat (length items));
                           j_items := Some items |} |}.

(** A search API that answers every query from a table of titles. *)
Fixpoint lookup_titles (table : list (string * list string)) (q : string) : list string :=
  match table with
  | [] => []
  | (k, ts) :: rest => if String.eqb k q then ts else lookup_titles rest q
  end.

Definition serve (table : list (string * list string))
    : list event -> string -> headers -> params -> result response :=
  fun _ _ _ p =>
    ok_response (map titled match query p with
                            | PStr q => lookup_titles table q
                            | _ => []
                            end).

(** A [repr] for the lists of strings that need no escape. *)
Definition repr (l : list string) : string :=
  "[" +:+ Str.join ", " (map (fun s => "'" +:+ s +:+ "'") l) +:+ "]".

(** The items the queries [qs] return from the table, each with its query. *)
Definition returned (table : list (string * list string)) (qs : list string)
    : list (pyval * item) :=
  flat_map (fun q => map (fun t => (PStr q, titled t)) (lookup_titles table q)) qs.

(** A search API that is out of reach. *)
Definition unreachable : list event -> string -> headers -> params -> result response :=
  fun _ _ _ _ => Raise (ClientError "Cannot connect to host").

(** A completion API that answers every request with the same text. *)
Definition complete (answer : string) : list event -> completion_request -> result (list string) :=
  fun _ _ => Ok [answer].

(** Two queries that both return the title ["X"], the first one after five
    other titles. *)
Definition shared_title : list (string * list string) :=
  [("경제", ["A1"; "A2"; "A3"; "A4"; "A5"; "X"]); ("주식", ["X"; "B1"])].

(** The titles [prefix 1], ..., [prefix k]. *)
Definition numbered (prefix : string) (k : nat) : list string :=
  map (fun i => prefix +:+ str_of_Z (Z.of_nat i)) (seq 1 k).

(** Two queries that return twenty-five different titles. *)
Definition twenty_five : list (string * list string) :=
  [("경제", numbered "a" 13); ("주식", numbered "b" 12)].

(** A query that returns an item without title and an item whose title is
    only markup. *)
Definition untitled : list (string * list string) :=
  [("경제", [EmptyString; "<b></b>"; "금리 <b>동결</b>"])].

End Demo.

(** ** [credential.py] *)

(** [r] and then [k], when [r] does not raise. *)
Definition and_then {A B} (r : result A) (k : A -> result B) : result B :=
  match r with
  | Ok a => k a
  | Raise e => Raise e
  end.

(** [os.environ[key] = value]: the value has to be a string. *)
Definition environ_set (key : string) (value : option string)
    (environ : gmap string string) : result (gmap string string) :=
  match value with
  | Some v => Ok (<[key := v]> environ)
  | None => Raise (TypeError "str expected, not NoneType")
  end.

(** The statements of the module, run on the environment of the process. *)
Definition credential_module (environ : gmap string string)
    : result (gmap string string) :=
  let anthropic_api_key := environ !! "ANTHROPIC_API_KEY" in
  let naver_client_id := environ !! "NAVER_CLIENT_ID" in
  let naver_client_secret := environ !! "NAVER_CLIENT_SECRET" in
  and_then (environ_set "ANTHROPIC_API_KEY" anthropic_api_key environ) (fun environ =>
  and_then (environ_set "NAVER_CLIENT_ID" naver_client_id environ) (fun environ =>
  environ_set "NAVER_CLIENT_SECRET" naver_client_secret environ)).

(** The variables [credential.py] reads and the ones [NewsMCPServer] reads. *)
Definition credential_variables : list string :=
  ["ANTHROPIC_API_KEY"; "NAVER_CLIENT_ID"; "NAVER_CLIENT_SECRET"].

Definition server_variables : list string :=
  ["news_client_id"; "news_client_secret"; "claude_api_key"].

(** ** Resources *)

Record Resource : Type := mkResource {
  uri : string;
  resource_name : string;
  resource_description : string;
  mimeType : string
}.

Definition handle_list_resources : list Resource :=
  [ {| uri := "news://search";
       resource_name := "News Search";
       resource_description := "Search for news articles";
       mimeType := "application/json" |};
    {| uri := "news://categories";
       resource_name := "News Categories";
       resource_description := "사용 가능한 뉴스 카테고리 목록 (Available news categories)";
       mimeType := "application/json" |} ].

(** An entry of the list [_get_categories] returns. *)
Record category_entry : Type := mkCategoryEntry {
  entry_id : string;
  entry_name : string;
  entry_description : string;
  sample_keywords : list string
}.

Definition _get_categories : list category_entry :=
  map (fun entry : string * category_info =>
         let '(cat_id, cat_info) := entry in
         {| entry_id := cat_id;
            entry_name := name cat_info;
            entry_description := description_ cat_info;
            sample_keywords := keywords cat_info |})
      NEWS_CATEGORIES.

(** The address [handle_read_resource] is called with.  The parameter is
    annotated [str], and a caller may give a string; the server framework,
    for which the handler is registered with [read_resource()], calls it
    with its URL object ([pydantic.AnyUrl]), which is not a string:
    [AnyUrl(text)] stands for the URL object whose [str] is [text]. *)
Inductive address : Type :=
  | StrUri (s : string)
  | AnyUrl (text : string).

(** [uri == literal] for a string literal: a URL object is equal to no
    string. *)
Definition uri_eq (uri : address) (literal : string) : bool :=
  match uri with
  | StrUri s => String.eqb s literal
  | AnyUrl _ => false
  end.

(** [str(uri)]. *)
Definition str_uri (uri : address) : string :=
  match uri with
  | StrUri s => s
  | AnyUrl text => text
  end.

Section Resources.

(** [json.dumps(value, ensure_ascii=False)] for an object of strings and for
    the object [_get_categories] returns. *)
Variable json_dumps_object : list (string * string) -> string.
Variable json_dumps_categories : list category_entry -> string.

Definition handle_read_resource (uri : address) : result string :=
  if uri_eq uri "news://search" then
    Ok (json_dumps_object
          [("description", "Use the search_news tool to find news articles");
           ("example", "search_news with query='technology'")])
  else if uri_eq uri "news://categories" then
    Ok (json_dumps_categories _get_categories)
  else Raise (ValueError ("Unknown resource: " +:+ str_uri uri)).

End Resources.

(** ** The tool catalogue *)

(** The types the input schemas use. *)
Inductive json_type : Type := TString | TInteger | TBoolean | TStringArray.

(** One entry of the [properties] of an input schema. *)
Record schema_property : Type := mkProperty {
  property_name : string;
  property_type : json_type;
  property_enum : option (list string);
  property_description : string;
  property_default : option pyval
}.

(** A [Tool], with its input schema of type [object]. *)
Record Tool : Type := mkTool {
  tool_name : string;
  tool_description : string;
  properties : list schema_property;
  required_properties : list string
}.

(** [category_ids] and [category_desc] of [handle_list_tools]. *)
Definition category_ids : list string := map fst NEWS_CATEGORIES.

Definition category_desc : string :=
  Str.join ", " (map (fun entry : string * category_info =>
                        entry.1 +:+ "(" +:+ name entry.2 +:+ ")") NEWS_CATEGORIES).

Definition search_news_tool : Tool :=
  {| tool_name := "search_news";
     tool_description :=
       "네이버 뉴스에서 키워드로 뉴스 기사를 검색합니다 (Search for news articles by keyword using Naver News API)";
     properties :=
       [ mkProperty "query" TString None "검색어 (Search query keywords)" None;
         mkProperty "display" TInteger None
           "한 번에 표시할 검색 결과 개수 (기본값: 10, 최댓값: 100)" (Some (PInt 10));
         mkProperty "start" TInteger None
           "검색 시작 위치 (기본값: 1, 최댓값: 1000)" (Some (PInt 1));
         mkProperty "sort" TString (Some ["sim"; "date"])
           "검색 결과 정렬 방법 - sim: 정확도순(기본값), date: 날짜순" (Some (PStr "sim")) ];
     required_properties := ["query"] |}.

Definition get_category_news_tool : Tool :=
  {| tool_name := "get_category_news";
     tool_description :=
       "특정 카테고리의 최신 뉴스를 가져옵니다. 사용 가능한 카테고리: " +:+ category_desc;
     properties :=
       [ mkProperty "category" TString (Some category_ids)
           ("뉴스 카테고리 ID: " +:+ category_desc) None;
         mkProperty "display" TInteger None
           "한 번에 표시할 검색 결과 개수 (기본값: 10, 최댓값: 100)" (Some (PInt 10));
         mkProperty "sort" TString (Some ["sim"; "date"])
           "검색 결과 정렬 방법 - sim: 정확도순, date: 날짜순(기본값)" (Some (PStr "date")) ];
     required_properties := ["category"] |}.

Definition list_categories_tool : Tool :=
  {| tool_name := "list_categories";
     tool_description :=
       "사용 가능한 모든 뉴스 카테고리 목록과 설명을 반환합니다 (List all available news categories)";
     properties := [];
     required_properties := [] |}.

Definition generate_news_report_tool : Tool :=
  {| tool_name := "generate_news_report";
     tool_description :=
       "특정 주제에 대해 뉴스를 검색하고 종합적인 리서치 레포트를 생성합니다. 주제를 입력하면 관련 뉴스를 수집하여 트렌드, 주요 이슈, 핵심 내용을 정리한 레포트를 만들어줍니다.";
     properties :=
       [ mkProperty "topic" TString None
           "레포트를 생성할 주제 (예: '인공지능 산업 동향', '부동산 시장', '전기차 시장')" None;
         mkProperty "keywords" TStringArray None
           "추가 검색 키워드 (선택사항, 기본: 주제를 기반으로 자동 생성)" None;
         mkProperty "num_articles" TInteger None
           "수집할 뉴스 기사 수 (기본값: 15, 최대: 50)" (Some (PInt 15));
         mkProperty "include_links" TBoolean None
           "레포트에 원문 링크 포함 여부 (기본값: true)" (Some (PBool true)) ];
     required_properties := ["topic"] |}.

Definition search_and_summarize_news_tool : Tool :=
  {| tool_name := "search_and_summarize_news";
     tool_description :=
       "키워드로 뉴스를 검색하고 Claude AI를 활용하여 전문적인 요약을 제공합니다. 뉴스 유형(사실/분석/예측/혼합)을 분류하고, 핵심 팩트와 수치를 중심으로 간결하게 요약합니다.";
     properties :=
       [ mkProperty "keywords" TStringArray None
           "검색할 키워드 목록 (예: ['AI 반도체', '삼성전자'])" None;
         mkProperty "num_articles" TInteger None
           "키워드당 검색할 뉴스 기사 수 (기본값: 5, 최대: 10)" (Some (PInt 5));
         mkProperty "include_keyword_curation" TBoolean None
           "각 키워드별 신뢰할 수 있는 3개 뉴스 소스 큐레이션 포함 여부 (기본값: true)"
           (Some (PBool true)) ];
     required_properties := ["keywords"] |}.

Definition handle_list_tools : list Tool :=
  [search_news_tool; get_category_news_tool; list_categories_tool;
   generate_news_report_tool; search_and_summarize_news_tool].

(** A value has the type a property declares, and is one of the values its
    [enum] lists when it has one. *)
Definition has_type (ty : json_type) (v : pyval) : bool :=
  match ty, v with
  | TString, PStr _ | TInteger, PInt _ | TBoolean, PBool _ | TStringArray, PStrList _ => true
  | _, _ => false
  end.

Definition property_valid (p : schema_property) (v : pyval) : bool :=
  has_type (property_type p) v
  && match property_enum p, v with
     | Some allowed, PStr s => str_in s allowed
     | Some _, _ => false
     | None, _ => true
     end.

(** The arguments fit the input schema of a tool and name no property the
    schema does not declare. *)
Definition schema_valid (t : Tool) (arguments : gmap string pyval) : bool :=
  forallb (fun key => bool_decide (is_Some (arguments !! key))) (required_properties t)
  && forallb (fun p => match arguments !! property_name p with
                       | Some v => property_valid p v
                       | None => true
                       end) (properties t)
  && bool_decide (dom arguments ⊆ (list_to_set (map property_name (properties t))
                                   : gset string)).

(** The value a call gives for a property, or else the default the schema
    documents for it. *)
Definition schema_argument (t : Tool) (arguments : gmap string pyval) (key : string)
    : option pyval :=
  match arguments !! key with
  | Some v => Some v
  | None =>
      match find (fun p => String.eqb (property_name p) key) (properties t) with
      | Some p => property_default p
      | None => None
      end
  end.

(** The values behind a typed argument: the empty string, zero, false and the
    empty list stand for a value of another type. *)
Definition str_value (o : option pyval) : string :=
  match o with Some (PStr s) => s | _ => EmptyString end.
Definition int_value (o : option pyval) : Z :=
  match o with Some (PInt n) => n | _ => 0 end.
Definition bool_value (o : option pyval) : bool :=
  match o with Some (PBool b) => b | _ => false end.
Definition str_list_value (o : option pyval) : list string :=
  match o with Some (PStrList l) => l | _ => [] end.
Definition optional_str_list_value (o : option pyval) : option (list string) :=
  match o with Some (PStrList l) => Some l | _ => None end.

(** ** Orders and subsequences, to state what the formatters keep *)

(** The elements of [l] that are not in [seen], each once, in the order in
    which they first occur. *)
Fixpoint distinct_in_order (seen : list string) (l : list string) : list string :=
  match l with
  | [] => []
  | x :: rest =>
      if str_in x seen then distinct_in_order seen rest
      else x :: distinct_in_order (x :: seen) rest
  end.

(** The items of a keyword, in their order. *)
Definition items_of_keyword (k : string) (news : list news_datum) : list news_datum :=
  filter (fun it => nd_keyword it = k) news.

(** The entries the keywords of a summary yield: for each answer in turn,
    one entry for each item it returns, numbered from 1, up to the first
    error that is not caught. *)
Fixpoint collected_entries (ans : list (string * result response))
    : result (list news_datum) :=
  match ans with
  | [] => Ok []
  | (k, r) :: rest =>
      match returned_items r with
      | Raise e => Raise e
      | Ok items =>
          match collected_entries rest with
          | Raise e => Raise e
          | Ok more => Ok (enumerate_map (news_entry k) 1 items ++ more)
          end
      end
  end.

(** * Properties *)

(** ** Replacement of matches *)

Lemma str_length_app (a b : string) :
  String.length (a +:+ b) = (String.length a + String.length b)%nat.
Proof. induction a as [|c a IH]; simpl; [reflexivity|]. now rewrite IH. Qed.

Section SubstMatches.

Variable match_len : string -> option nat.
Variable repl : string.

(** A match lies within the text and is longer than what replaces it. *)
Hypothesis match_fits :
  forall s k, match_len s = Some (S k) ->
    (S k <= String.length s)%nat /\ (String.length repl <= k)%nat.

Lemma subst_matches_skip k s :
  Str.subst_matches match_len repl k s
  = Str.subst_matches match_len repl 0 (Str.drop k s).
Proof using Type.
  revert k. induction s as [|c s IH]; intros [|k]; simpl; try reflexivity.
  apply IH.
Qed.

Lemma subst_matches_length k s :
  (String.length (Str.subst_matches match_len repl k s) <= String.length s - k)%nat.
Proof using match_fits.
  revert k. induction s as [|c s IH]; intros k; simpl; [lia|].
  destruct k as [|k].
  - destruct (match_len (String c s)) as [[|j]|] eqn:E; simpl.
    + specialize (IH 0%nat). lia.
    + apply match_fits in E. simpl in E. specialize (IH j).
      rewrite str_length_app. lia.
    + specialize (IH 0%nat). lia.
  - apply IH.
Qed.

Lemma subst_matches_shrinks s :
  Str.matches_somewhere match_len s = true ->
  (String.length (Str.subst_matches match_len repl 0 s) < String.length s)%nat.
Proof using match_fits.
  induction s as [|c s IH]; simpl; [discriminate|].
  destruct (match_len (String c s)) as [[|j]|] eqn:E; simpl; intros H.
  - apply IH in H. lia.
  - apply match_fits in E. simpl in E.
    pose proof (subst_matches_length j s). rewrite str_length_app. lia.
  - apply IH in H. lia.
Qed.

Lemma subst_matches_none s :
  Str.matches_somewhere match_len s = false ->
  Str.subst_matches match_len repl 0 s = s.
Proof using Type.
  induction s as [|c s IH]; simpl; [reflexivity|].
  destruct (match_len (String c s)) as [[|j]|] eqn:E; intros H;
    try discriminate; f_equal; auto.
Qed.

Lemma subst_matches_fixed s :
  Str.subst_matches match_len repl 0 s = s
  <-> Str.matches_somewhere match_len s = false.
Proof using match_fits.
  split; [|apply subst_matches_none].
  intros H. destruct (Str.matches_somewhere match_len s) eqn:E; [|reflexivity].
  apply subst_matches_shrinks in E. rewrite H in E. lia.
Qed.

End SubstMatches.

Lemma str_prefix_length (a s : string) :
  String.prefix a s = true -> (String.length a <= String.length s)%nat.
Proof.
  revert s. induction a as [|c a IH]; intros [|d s]; simpl; try lia; try discriminate.
  destruct (ascii_dec c d); [|discriminate]. intros H. apply IH in H. lia.
Qed.

Lemma literal_fits (old new : string) :
  (String.length new < String.length old)%nat ->
  forall s k, Str.literal old s = Some (S k) ->
    (S k <= String.length s)%nat /\ (String.length new <= k)%nat.
Proof.
  intros Hlen s k. unfold Str.literal.
  destruct (String.prefix old s) eqn:E; [|discriminate].
  intros [= Hk]. apply str_prefix_length in E. lia.
Qed.

Lemma span_until_length (c : ascii) (s : string) (n : nat) :
  Str.span_until c s = Some n -> (n < String.length s)%nat.
Proof.
  revert n. induction s as [|d s IH]; simpl; intros n; [discriminate|].
  destruct (Ascii.eqb d c).
  - intros [= <-]. lia.
  - destruct (Str.span_until c s) as [m|]; [|discriminate].
    intros [= <-]. specialize (IH m eq_refl). lia.
Qed.

Lemma match_tag_fits :
  forall s k, Str.match_tag s = Some (S k) ->
    (S k <= String.length s)%nat /\ (String.length EmptyString <= k)%nat.
Proof.
  intros [|c s] k; simpl; [discriminate|].
  destruct (Ascii.eqb c "<"); [|discriminate].
  destruct (Str.span_until ">" s) as [[|n]|] eqn:E; try discriminate.
  intros [= <-]. apply span_until_length in E. lia.
Qed.

(** ** Tag stripping *)

Lemma span_until_mem (c : ascii) (s : string) :
  Str.span_until c s = None <-> Str.mem c s = false.
Proof.
  induction s as [|d s IH]; simpl; [tauto|].
  destruct (Ascii.eqb d c); [split; discriminate|].
  destruct (Str.span_until c s); split; intros H; try discriminate.
  - apply IH in H. discriminate.
  - now apply IH.
  - reflexivity.
Qed.

(** Removing matches adds no character. *)
Lemma mem_subst_matches (match_len : string -> option nat) (c : ascii) (k : nat) (s : string) :
  Str.mem c s = false ->
  Str.mem c (Str.subst_matches match_len EmptyString k s) = false.
Proof.
  revert k. induction s as [|d s IH]; intros k; simpl; [reflexivity|].
  destruct (Ascii.eqb d c) eqn:E; [discriminate|]. intros H.
  destruct k as [|k]; [|now apply IH].
  destruct (match_len (String d s)) as [[|j]|]; simpl; rewrite ?E; now apply IH.
Qed.

Lemma re_sub_tags_match (c : ascii) (s : string) (j : nat) :
  Str.match_tag (String c s) = Some (S j) ->
  Str.re_sub_tags (String c s) = Str.re_sub_tags (Str.drop j s).
Proof.
  intros H. unfold Str.re_sub_tags at 1. cbn [Str.subst_matches]. rewrite H.
  cbn [String.append]. apply subst_matches_skip.
Qed.

Lemma re_sub_tags_no_match (c : ascii) (s : string) :
  Str.match_tag (String c s) = None ->
  Str.re_sub_tags (String c s) = String c (Str.re_sub_tags s).
Proof.
  intros H. unfold Str.re_sub_tags. cbn [Str.subst_matches]. now rewrite H.
Qed.

Lemma drop_length (k : nat) (s : string) :
  (String.length (Str.drop k s) <= String.length s)%nat.
Proof.
  revert s. induction k as [|k IH]; intros [|c s]; simpl; try lia.
  specialize (IH s). lia.
Qed.

(** The pattern matches nowhere in what [re.sub] returns. *)
Lemma re_sub_tags_no_tag (s : string) : Str.has_tag (Str.re_sub_tags s) = false.
Proof.
  remember (String.length s) as n eqn:Hn.
  assert (Hle : (String.length s <= n)%nat) by lia. clear Hn.
  revert s Hle. induction n as [|n IH]; intros [|c s] Hle; simpl in Hle;
    try reflexivity; try lia.
  destruct (Str.match_tag (String c s)) as [[|j]|] eqn:E.
  - simpl in E. destruct (Ascii.eqb c "<"); [|discriminate].
    destruct (Str.span_until ">" s) as [[|?]|]; discriminate.
  - rewrite (re_sub_tags_match _ _ _ E). apply IH.
    pose proof (drop_length j s). lia.
  - rewrite (re_sub_tags_no_match _ _ E).
    unfold Str.has_tag. cbn [Str.matches_somewhere].
    assert (Hno : Str.match_tag (String c (Str.re_sub_tags s)) = None).
    { simpl in E |- *. destruct (Ascii.eqb c "<"); [|reflexivity].
      destruct (Str.span_until ">" s) as [[|m]|] eqn:Es; try discriminate.
      - destruct s as [|d s]; simpl in Es; [discriminate|].
        destruct (Ascii.eqb d ">") eqn:Ed.
        + apply Ascii.eqb_eq in Ed. subst d.
          rewrite re_sub_tags_no_match by reflexivity. reflexivity.
        + destruct (Str.span_until ">" s); discriminate.
      - apply span_until_mem in Es.
        apply (mem_subst_matches Str.match_tag _ 0%nat) in Es.
        apply span_until_mem in Es. unfold Str.re_sub_tags. now rewrite Es. }
    rewrite Hno. apply IH. lia.
Qed.

Lemma re_sub_tags_length (s : string) :
  (String.length (Str.re_sub_tags s) <= String.length s)%nat.
Proof.
  pose proof (subst_matches_length _ _ match_tag_fits 0 s) as H.
  unfold Str.re_sub_tags. lia.
Qed.

Lemma re_sub_tags_shrinks (s : string) :
  Str.has_tag s = true ->
  (String.length (Str.re_sub_tags s) < String.length s)%nat.
Proof. apply (subst_matches_shrinks _ _ match_tag_fits). Qed.

Lemma re_sub_tags_none (s : string) :
  Str.has_tag s = false -> Str.re_sub_tags s = s.
Proof. apply subst_matches_none. Qed.

(** [re.sub] with this pattern changes nothing in its own result. *)
Lemma re_sub_tags_idempotent (s : string) :
  Str.re_sub_tags (Str.re_sub_tags s) = Str.re_sub_tags s.
Proof. apply re_sub_tags_none, re_sub_tags_no_tag. Qed.

(** ** Entity decoding *)

Section Replace.

Variables old new : string.
Hypothesis shorter : (String.length new < String.length old)%nat.

Lemma replace_length s :
  (String.length (Str.replace old new s) <= String.length s)%nat.
Proof using shorter.
  pose proof (subst_matches_length _ _ (literal_fits old new shorter) 0 s) as H.
  unfold Str.replace. lia.
Qed.

Lemma replace_shrinks s :
  Str.occurs old s = true ->
  (String.length (Str.replace old new s) < String.length s)%nat.
Proof using shorter. apply (subst_matches_shrinks _ _ (literal_fits old new shorter)). Qed.

Lemma replace_none s : Str.occurs old s = false -> Str.replace old new s = s.
Proof using Type. apply subst_matches_none. Qed.

End Replace.

(** A text without the first character of [old] does not contain [old]. *)
Lemma occurs_first_char (c : ascii) (old s : string) :
  Str.mem c s = false -> Str.occurs (String c old) s = false.
Proof.
  unfold Str.occurs. induction s as [|d s IH]; simpl; [reflexivity|].
  destruct (Ascii.eqb d c) eqn:E; [discriminate|]. intros H.
  unfold Str.literal at 1. simpl.
  destruct (ascii_dec c d) as [->|]; [rewrite Ascii.eqb_refl in E; discriminate|].
  now apply IH.
Qed.

Ltac shorter := vm_compute; lia.

Lemma clean_fixed_iff (x : string) : _clean_html_tags x = x <-> is_clean x = true.
Proof.
  unfold is_clean, _clean_html_tags; simpl forallb.
  split.
  - intros H.
    remember (Str.re_sub_tags x) as y0 eqn:Y0.
    remember (Str.replace "&quot;" Str.dquote y0) as y1 eqn:Y1.
    remember (Str.replace "&amp;" "&" y1) as y2 eqn:Y2.
    remember (Str.replace "&lt;" "<" y2) as y3 eqn:Y3.
    remember (Str.replace "&gt;" ">" y3) as y4 eqn:Y4.
    pose proof (re_sub_tags_length x) as L0. rewrite <- Y0 in L0.
    pose proof (replace_length "&quot;" Str.dquote ltac:(shorter) y0) as L1.
    rewrite <- Y1 in L1.
    pose proof (replace_length "&amp;" "&" ltac:(shorter) y1) as L2. rewrite <- Y2 in L2.
    pose proof (replace_length "&lt;" "<" ltac:(shorter) y2) as L3. rewrite <- Y3 in L3.
    pose proof (replace_length "&gt;" ">" ltac:(shorter) y3) as L4. rewrite <- Y4 in L4.
    pose proof (replace_length "&apos;" "'" ltac:(shorter) y4) as L5. rewrite H in L5.
    destruct (Str.has_tag x) eqn:T.
    { apply re_sub_tags_shrinks in T. rewrite <- Y0 in T. lia. }
    rewrite (re_sub_tags_none _ T) in Y0. subst y0.
    destruct (Str.occurs "&quot;" x) eqn:O1.
    { apply (replace_shrinks "&quot;" Str.dquote ltac:(shorter)) in O1.
      rewrite <- Y1 in O1. lia. }
    rewrite (replace_none _ _ _ O1) in Y1. subst y1.
    destruct (Str.occurs "&amp;" x) eqn:O2.
    { apply (replace_shrinks "&amp;" "&" ltac:(shorter)) in O2. rewrite <- Y2 in O2. lia. }
    rewrite (replace_none _ _ _ O2) in Y2. subst y2.
    destruct (Str.occurs "&lt;" x) eqn:O3.
    { apply (replace_shrinks "&lt;" "<" ltac:(shorter)) in O3. rewrite <- Y3 in O3. lia. }
    rewrite (replace_none _ _ _ O3) in Y3. subst y3.
    destruct (Str.occurs "&gt;" x) eqn:O4.
    { apply (replace_shrinks "&gt;" ">" ltac:(shorter)) in O4. rewrite <- Y4 in O4. lia. }
    rewrite (replace_none _ _ _ O4) in Y4. subst y4.
    destruct (Str.occurs "&apos;" x) eqn:O5.
    { apply (replace_shrinks "&apos;" "'" ltac:(shorter)) in O5. rewrite H in O5. lia. }
    reflexivity.
  - intros H.
    destruct (Str.has_tag x) eqn:T; [discriminate|].
    destruct (Str.occurs "&quot;" x) eqn:O1; [discriminate|].
    destruct (Str.occurs "&amp;" x) eqn:O2; [discriminate|].
    destruct (Str.occurs "&lt;" x) eqn:O3; [discriminate|].
    destruct (Str.occurs "&gt;" x) eqn:O4; [discriminate|].
    destruct (Str.occurs "&apos;" x) eqn:O5; [discriminate|].
    rewrite (re_sub_tags_none _ T).
    rewrite (replace_none _ _ _ O1), (replace_none _ _ _ O2), (replace_none _ _ _ O3),
      (replace_none _ _ _ O4).
    now apply replace_none.
Qed.

(** A text without ["&"] is only stripped of its tags. *)
Lemma clean_no_ampersand (s : string) :
  Str.mem "&" s = false ->
  _clean_html_tags s = Str.re_sub_tags s /\ is_clean (Str.re_sub_tags s) = true.
Proof.
  intros H.
  assert (Hm : Str.mem "&" (Str.re_sub_tags s) = false)
    by now apply mem_subst_matches.
  assert (Ho : forall old, Str.occurs (String "&" old) (Str.re_sub_tags s) = false)
    by (intros old; now apply occurs_first_char).
  split.
  - unfold _clean_html_tags.
    rewrite (replace_none "&quot;") by apply Ho.
    rewrite (replace_none "&amp;") by apply Ho.
    rewrite (replace_none "&lt;") by apply Ho.
    rewrite (replace_none "&gt;") by apply Ho.
    now rewrite (replace_none "&apos;") by apply Ho.
  - unfold is_clean. rewrite re_sub_tags_no_tag. simpl.
    now rewrite !Ho.
Qed.

(** The pattern [<[^>]+>] matches at the start of a text exactly when the
    text begins with ["<"], a non-empty body without [">"], and [">"]. *)
Lemma span_until_spec (c : ascii) (s : string) (n : nat) :
  Str.span_until c s = Some n
  <-> exists pre rest, s = pre +:+ String c rest
                       /\ Str.mem c pre = false /\ n = String.length pre.
Proof.
  revert n. induction s as [|d s IH]; intros n; simpl.
  - split; [discriminate|]. intros (pre & rest & H & _). destruct pre; discriminate.
  - destruct (Ascii.eqb d c) eqn:E.
    + apply Ascii.eqb_eq in E. subst d. split.
      * intros [= <-]. now exists EmptyString, s.
      * intros (pre & rest & H & Hm & ->). destruct pre as [|e pre]; [reflexivity|].
        simpl in H, Hm. injection H as <- _. now rewrite Ascii.eqb_refl in Hm.
    + split.
      * destruct (Str.span_until c s) as [m|]; [|discriminate]. intros [= <-].
        destruct (proj1 (IH m) eq_refl) as (pre & rest & -> & Hm & ->).
        exists (String d pre), rest. simpl. now rewrite E.
      * intros (pre & rest & H & Hm & ->). destruct pre as [|e pre]; simpl in H.
        { injection H as -> _. now rewrite Ascii.eqb_refl in E. }
        injection H as <- ->. simpl in Hm. rewrite E in Hm.
        rewrite (proj2 (IH (String.length pre))); [reflexivity|]. now exists pre, rest.
Qed.

Lemma match_tag_spec (s : string) (n : nat) :
  Str.match_tag s = Some n
  <-> exists body rest, s = "<" +:+ body +:+ ">" +:+ rest
                        /\ body <> EmptyString /\ Str.mem ">" body = false
                        /\ n = (String.length body + 2)%nat.
Proof.
  destruct s as [|c s]; simpl.
  - split; [discriminate|]. intros (? & ? & ? & _). discriminate.
  - destruct (Ascii.eqb c "<") eqn:E.
    + apply Ascii.eqb_eq in E. subst c. split.
      * destruct (Str.span_until ">" s) as [[|m]|] eqn:Es; try discriminate.
        intros [= <-]. apply span_until_spec in Es.
        destruct Es as (pre & rest & -> & Hm & Hl).
        exists pre, rest. repeat split; trivial; [|lia].
        intros ->. discriminate.
      * intros (body & rest & H & Hne & Hm & ->). injection H as ->.
        rewrite (proj2 (span_until_spec ">" _ (String.length body)))
          by now exists body, rest.
        destruct body; [congruence|]. simpl. do 2 f_equal. lia.
    + split; [discriminate|]. intros (body & rest & H & _).
      injection H as -> _. discriminate.
Qed.

(** ** Text cleaning *)

(** C4: cleaning a text removes the [<...>] spans with [re.sub], after
    which no such span is left, and then decodes the five entities, each
    with one [replace] over the whole text, in the order [&quot;], [&amp;],
    [&lt;], [&gt;], [&apos;]; what a replacement puts in is not decoded
    again by the replacements that ran before it. *)
Theorem clean_html_tags_spec :
  (forall text,
      _clean_html_tags text
      = Str.replace "&apos;" "'"
          (Str.replace "&gt;" ">"
             (Str.replace "&lt;" "<"
                (Str.replace "&amp;" "&"
                   (Str.replace "&quot;" Str.dquote (Str.re_sub_tags text))))))
  /\ (forall text, Str.has_tag (Str.re_sub_tags text) = false)
  /\ (forall s n,
         Str.match_tag s = Some n
         <-> exists body rest, s = "<" +:+ body +:+ ">" +:+ rest
                               /\ body <> EmptyString /\ Str.mem ">" body = false
                               /\ n = (String.length body + 2)%nat)
  /\ _clean_html_tags "<b>삼성전자</b> 실적 &quot;호조&quot;"
     = "삼성전자 실적 " +:+ Str.dquote +:+ "호조" +:+ Str.dquote
  /\ _clean_html_tags "&amp;quot;" = "&quot;"
  /\ _clean_html_tags "&amp;amp;" = "&amp;".
Proof.
  split; [reflexivity|].
  split; [apply re_sub_tags_no_tag|].
  split; [apply match_tag_spec|].
  repeat split; reflexivity.
Qed.

Example clean_amp_lt : _clean_html_tags "&amp;lt;" = "<".
Proof. reflexivity. Qed.

Example clean_empty_tag : _clean_html_tags "a<>b<<i>c" = "a<>bc".
Proof. reflexivity. Qed.

(** C5, as stated: cleaning twice is cleaning once.  It fails on an escaped
    tag, which the first pass decodes and the second pass strips. *)
Lemma clean_html_tags_not_idempotent :
  _clean_html_tags (_clean_html_tags "&lt;b&gt;") <> _clean_html_tags "&lt;b&gt;".
Proof. vm_compute. discriminate. Qed.

(** C5, amended: cleaning leaves a text unchanged exactly when the text has
    no tag span and none of the five entities; so cleaning twice is cleaning
    once exactly when the first pass leaves no tag span and no entity, as it
    does for every text without ["&"]. *)
Theorem clean_html_tags_idempotent_iff :
  (forall x, _clean_html_tags x = x <-> is_clean x = true)
  /\ (forall s, _clean_html_tags (_clean_html_tags s) = _clean_html_tags s
                <-> is_clean (_clean_html_tags s) = true)
  /\ (forall s, Str.mem "&" s = false ->
                _clean_html_tags (_clean_html_tags s) = _clean_html_tags s).
Proof.
  split; [apply clean_fixed_iff|].
  split; [intros s; apply clean_fixed_iff|].
  intros s H. apply clean_fixed_iff.
  destruct (clean_no_ampersand s H) as [-> Hc]. exact Hc.
Qed.

Lemma clean_html_tags_idempotent_iff_witness :
  Str.mem "&" "<b>뉴스</b> 속보" = false
  /\ _clean_html_tags (_clean_html_tags "<b>뉴스</b> 속보") = _clean_html_tags "<b>뉴스</b> 속보".
Proof.
  split; [reflexivity|].
  apply (proj2 (proj2 clean_html_tags_idempotent_iff)). reflexivity.
Defined.

(** ** Report aggregation *)

Section Aggregation.

Context (self : server)
        (session_get : list event -> string -> headers -> params -> result response).

Local Abbreviation sent st p :=
  {| session := session st;
     calls := calls st ++ [HttpGet NAVER_API_BASE_URL (naver_headers self) p] |}.

(** One turn of the loop over the queries: the request goes out, and what
    it returns is added item by item. *)
Lemma report_query_spec apq acc q st :
  report_query self session_get apq acc q st
  = (match returned_items
             (session_get (calls st) NAVER_API_BASE_URL (naver_headers self)
                          (report_params apq q)) with
     | Ok items => Ok (fold_left (add_article q) items acc)
     | Raise e => Raise e
     end,
     sent st (report_params apq q)).
Proof.
  unfold report_query, try_except, bind, get, lift, ret, returned_items, report_params.
  destruct (session_get _ _ _ _) as [resp|e]; simpl.
  - destruct (status resp =? 200); simpl; [|reflexivity].
    destruct (body_json resp) as [data|e]; simpl; [reflexivity|].
    destruct (is_ClientError e); reflexivity.
  - destruct (is_ClientError e); reflexivity.
Qed.

Lemma fold_add_article q items acc :
  fold_left (add_article q) items acc
  = fold_left add_candidate (map (pair q) items) acc.
Proof.
  revert acc. induction items as [|it items IH]; intros acc; simpl; [reflexivity|].
  apply IH.
Qed.

Lemma report_loop_spec apq qs acc st :
  (for_each qs (report_query self session_get apq) acc st).1
  = match candidates (answers self session_get (report_params apq) (calls st) qs) with
    | Ok cands => Ok (fold_left add_candidate cands acc)
    | Raise e => Raise e
    end.
Proof.
  revert acc st. induction qs as [|q qs IH]; intros acc st; simpl; [reflexivity|].
  unfold bind. rewrite report_query_spec.
  destruct (returned_items _) as [items|e]; simpl; [|reflexivity].
  rewrite IH. simpl.
  destruct (candidates _) as [more|e]; [|reflexivity].
  now rewrite fold_left_app, fold_add_article.
Qed.

End Aggregation.

(** ** Deduplication by title *)

Lemma str_in_elem_of (x : string) (xs : list string) : str_in x xs = true <-> x ∈ xs.
Proof.
  unfold str_in. induction xs as [|y xs IH]; simpl.
  - split; [discriminate|]. intros H. inversion H.
  - rewrite orb_true_iff, IH, elem_of_cons, String.eqb_eq. tauto.
Qed.

Lemma str_in_not_elem_of (x : string) (xs : list string) : str_in x xs = false <-> x ∉ xs.
Proof.
  rewrite <- str_in_elem_of. destruct (str_in x xs); split; congruence.
Qed.

Lemma add_candidate_eq arts (seen : gset string) q it :
  add_candidate (arts, seen) (q, it)
  = if Str.truthy (item_title it) && bool_decide (item_title it ∉ seen)
    then (arts ++ [article_of q it], seen ∪ {[ item_title it ]})
    else (arts, seen).
Proof. reflexivity. Qed.

(** The loop of the program, with its set of seen titles, keeps the articles
    that [first_seen] keeps. *)
Lemma fold_add_candidate cands arts (seen : gset string) (l : list string) :
  (forall t, t ∈ seen <-> t ∈ l) ->
  (fold_left add_candidate cands (arts, seen)).1 = arts ++ first_seen l cands.
Proof.
  revert arts seen l. induction cands as [|[q it] cands IH]; intros arts seen l Hl.
  - simpl. now rewrite app_nil_r.
  - cbn [fold_left first_seen]. rewrite add_candidate_eq.
    destruct (Str.truthy (item_title it)); simpl; [|now apply IH].
    destruct (str_in (item_title it) l) eqn:E; simpl.
    + apply str_in_elem_of, Hl in E.
      rewrite bool_decide_eq_false_2 by (intros Hn; now apply Hn).
      now apply IH.
    + apply str_in_not_elem_of in E.
      rewrite bool_decide_eq_true_2 by (now rewrite Hl).
      rewrite (IH _ _ (item_title it :: l)).
      * now rewrite <- app_assoc.
      * intros t. rewrite elem_of_union, elem_of_singleton, elem_of_cons, Hl. tauto.
Qed.

Lemma first_seen_titles l cands a :
  a ∈ first_seen l cands -> Str.truthy (title a) = true /\ title a ∉ l.
Proof.
  revert l. induction cands as [|[q it] cands IH]; intros l; simpl.
  - intros H. inversion H.
  - destruct (Str.truthy (item_title it)) eqn:T; simpl; [|apply IH].
    destruct (str_in (item_title it) l) eqn:E; simpl; [apply IH|].
    rewrite elem_of_cons. intros [->|H].
    + simpl. split; [exact T|]. now apply str_in_not_elem_of.
    + apply IH in H. destruct H as [H1 H2]. split; [exact H1|].
      intros Hin. apply H2. now apply elem_of_cons; right.
Qed.

Lemma first_seen_NoDup l cands : NoDup (map title (first_seen l cands)).
Proof.
  revert l. induction cands as [|[q it] cands IH]; intros l; simpl; [constructor|].
  destruct (Str.truthy (item_title it) && negb (str_in (item_title it) l)); [|apply IH].
  simpl. constructor; [|apply IH].
  change (map title ?x) with (title <$> x). rewrite list_elem_of_fmap.
  intros (a & Ha & Hin). apply first_seen_titles in Hin. destruct Hin as [_ Hin].
  apply Hin. rewrite <- Ha. now apply elem_of_cons; left.
Qed.

(** Every kept article is made of the first candidate that has its title. *)
Lemma first_seen_origin l cands a :
  a ∈ first_seen l cands ->
  exists pre it post,
    cands = pre ++ (search_query a, it) :: post
    /\ a = article_of (search_query a) it
    /\ forall c, c ∈ pre -> item_title c.2 <> title a.
Proof.
  revert l. induction cands as [|[q it] cands IH]; intros l; simpl.
  - intros H. inversion H.
  - destruct (Str.truthy (item_title it)) eqn:T; simpl.
    + destruct (str_in (item_title it) l) eqn:E; simpl.
      * intros H. pose proof (first_seen_titles _ _ _ H) as [_ Hl].
        destruct (IH _ H) as (pre & it' & post & -> & Ha & Hpre).
        exists ((q, it) :: pre), it', post. repeat split; trivial.
        intros c [->|Hc]%elem_of_cons; [|now apply Hpre].
        simpl. intros Heq. apply Hl. rewrite <- Heq. now apply str_in_elem_of.
      * rewrite elem_of_cons. intros [->|H].
        { exists [], it, cands. repeat split. intros c Hc. inversion Hc. }
        pose proof (first_seen_titles _ _ _ H) as [_ Hl].
        destruct (IH _ H) as (pre & it' & post & -> & Ha & Hpre).
        exists ((q, it) :: pre), it', post. repeat split; trivial.
        intros c [->|Hc]%elem_of_cons; [|now apply Hpre].
        simpl. intros Heq. apply Hl. rewrite <- Heq. now apply elem_of_cons; left.
    + intros H. pose proof (first_seen_titles _ _ _ H) as [Ht _].
      destruct (IH _ H) as (pre & it' & post & -> & Ha & Hpre).
      exists ((q, it) :: pre), it', post. repeat split; trivial.
      intros c [->|Hc]%elem_of_cons; [|now apply Hpre].
      simpl. intros Heq. rewrite Heq in T. congruence.
Qed.

(** Every returned title that is not empty is the title of a kept article. *)
Lemma first_seen_complete l cands c :
  c ∈ cands -> Str.truthy (item_title c.2) = true -> item_title c.2 ∉ l ->
  exists a, a ∈ first_seen l cands /\ title a = item_title c.2.
Proof.
  revert l. induction cands as [|[q it] cands IH]; intros l Hc Ht Hl; simpl.
  - inversion Hc.
  - apply elem_of_cons in Hc.
    destruct (Str.truthy (item_title it)) eqn:T; simpl.
    + destruct (str_in (item_title it) l) eqn:E; simpl.
      * destruct Hc as [->|Hc]; [|now apply IH].
        simpl in Hl. apply str_in_elem_of in E. contradiction.
      * destruct (decide (item_title it = item_title c.2)) as [Heq|Hne].
        { exists (article_of q it). split; [now apply elem_of_cons; left|exact Heq]. }
        destruct Hc as [->|Hc]; [contradiction|].
        destruct (IH (item_title it :: l) Hc Ht) as (a & Ha & Hta).
        { intros [?|?]%elem_of_cons; [congruence|contradiction]. }
        exists a. split; [now apply elem_of_cons; right|exact Hta].
    + destruct Hc as [->|Hc]; [simpl in Ht; congruence|]. now apply IH.
Qed.

Lemma count_title_cons t a arts :
  count_title t (a :: arts)
  = ((if decide (title a = t) then 1 else 0) + count_title t arts)%nat.
Proof.
  unfold count_title. rewrite filter_cons. destruct (decide (title a = t)); reflexivity.
Qed.

Lemma count_title_absent t arts :
  t ∉ map title arts -> count_title t arts = 0%nat.
Proof.
  induction arts as [|a arts IH]; [reflexivity|].
  simpl. rewrite count_title_cons, not_elem_of_cons. intros [Hne H].
  destruct (decide (title a = t)); [congruence|]. now apply IH.
Qed.

Lemma count_title_NoDup t arts :
  NoDup (map title arts) ->
  count_title t arts = if bool_decide (t ∈ map title arts) then 1%nat else 0%nat.
Proof.
  induction arts as [|a arts IH]; cbn [map].
  - intros _. case_bool_decide as H; [inversion H|reflexivity].
  - rewrite NoDup_cons. intros [Hnotin Hnd]. rewrite count_title_cons.
    destruct (decide (title a = t)) as [<-|Hne].
    + rewrite count_title_absent by exact Hnotin.
      rewrite bool_decide_eq_true_2; [reflexivity|]. now apply elem_of_cons; left.
    + rewrite (IH Hnd). cbn [Nat.add].
      repeat case_bool_decide; try reflexivity.
      * exfalso. match goal with H : ¬ _ |- _ => apply H end. now apply elem_of_cons; right.
      * exfalso. match goal with H : _ ∈ _ :: _ |- _ => apply elem_of_cons in H; destruct H end;
          [congruence|contradiction].
Qed.

Lemma NoDup_titles_take k arts :
  NoDup (map title arts) -> NoDup (map title (take k arts)).
Proof.
  change (map title ?x) with (title <$> x).
  rewrite fmap_take. intros H. exact (sublist_NoDup _ _ H (sublist_take _ _)).
Qed.

Section AggregationResult.

Context (self : server)
        (session_get : list event -> string -> headers -> params -> result response).

(** The loop over the queries returns the deduplicated accumulation of what
    the queries return, or raises the first error it does not catch. *)
Lemma report_collect_spec topic keywords n st :
  (report_collect self session_get topic keywords n st).1
  = match candidates (report_answers self session_get (calls st) topic keywords n) with
    | Ok cands => Ok (fold_left add_candidate cands ([], ∅))
    | Raise e => Raise e
    end.
Proof. unfold report_collect, report_answers. apply report_loop_spec. Qed.

Lemma report_collect_first_seen topic keywords n st acc st' :
  report_collect self session_get topic keywords n st = (Ok acc, st') ->
  exists cands,
    candidates (report_answers self session_get (calls st) topic keywords n) = Ok cands
    /\ acc.1 = first_seen [] cands.
Proof.
  intros H. pose proof (report_collect_spec topic keywords n st) as Hs.
  rewrite H in Hs. cbn [fst] in Hs.
  destruct (candidates _) as [cands|e]; [|discriminate].
  exists cands. split; [reflexivity|]. injection Hs as ->.
  apply (fold_add_candidate cands [] ∅ []). intros t. set_solver.
Qed.

(** C2, amended: when queries return items with the same cleaned title and
    the title is not empty, the deduplicated accumulation holds exactly one
    article with that title, made of the first item that has it, so of the
    first query that returned it; the final sequence holds that article
    when it is among the first [num_articles] accumulated ones and no
    article with that title otherwise; titles are unique in the final
    sequence. *)
Theorem report_titles_unique topic keywords n st acc st' :
  report_collect self session_get topic keywords n st = (Ok acc, st') ->
  exists cands,
    candidates (report_answers self session_get (calls st) topic keywords n) = Ok cands
    /\ NoDup (map title (report_result n acc.1))
    /\ (forall c, c ∈ cands -> Str.truthy (item_title c.2) = true ->
          count_title (item_title c.2) acc.1 = 1%nat
          /\ (count_title (item_title c.2) (report_result n acc.1) <= 1)%nat
          /\ (count_title (item_title c.2) (report_result n acc.1) = 1%nat
              <-> exists i a, (i < Z.to_nat (report_num_articles n))%nat
                              /\ acc.1 !! i = Some a /\ title a = item_title c.2))
    /\ (forall a, a ∈ acc.1 ->
          exists pre it post,
            cands = pre ++ (search_query a, it) :: post
            /\ a = article_of (search_query a) it
            /\ forall c, c ∈ pre -> item_title c.2 <> title a)
    /\ (forall a, a ∈ report_result n acc.1 -> a ∈ acc.1).
Proof.
  intros H. destruct (report_collect_first_seen _ _ _ _ _ _ H) as (cands & Hc & Hacc).
  exists cands. split; [exact Hc|].
  assert (Hnd : NoDup (map title acc.1)) by (rewrite Hacc; apply first_seen_NoDup).
  assert (Hndr : NoDup (map title (report_result n acc.1)))
    by now apply NoDup_titles_take.
  split; [exact Hndr|].
  split; [|split].
  - intros c Hin Ht.
    destruct (first_seen_complete [] cands c Hin Ht) as (a & Ha & Hta).
    { intros Hx; inversion Hx. }
    rewrite <- Hacc in Ha.
    rewrite !count_title_NoDup by assumption.
    split; [|split].
    + rewrite bool_decide_eq_true_2; [reflexivity|].
      change (map title ?x) with (title <$> x). apply list_elem_of_fmap. eauto.
    + case_bool_decide; lia.
    + unfold report_result. change (map title ?x) with (title <$> x).
      case_bool_decide as Hb.
      * split; [intros _|reflexivity].
        apply list_elem_of_fmap in Hb. destruct Hb as (b & Hb & Hbin).
        apply elem_of_take in Hbin. destruct Hbin as (i & Hi & Hlt).
        exists i, b. auto.
      * split; [discriminate|]. intros (i & b & Hlt & Hi & Hb'). exfalso. apply Hb.
        apply list_elem_of_fmap. exists b. split; [now symmetry|].
        apply elem_of_take. eauto.
  - intros a Ha. rewrite Hacc in Ha. now apply first_seen_origin in Ha.
  - intros a. unfold report_result. apply subseteq_take.
Qed.

(** C9: no article of the deduplicated accumulation, hence none of the
    final sequence, has an empty title: the items whose cleaned title is
    empty are left out. *)
Theorem report_titles_not_empty topic keywords n st acc st' :
  report_collect self session_get topic keywords n st = (Ok acc, st') ->
  (forall a, a ∈ acc.1 -> title a <> EmptyString)
  /\ (forall a, a ∈ report_result n acc.1 -> title a <> EmptyString)
  /\ exists cands,
       candidates (report_answers self session_get (calls st) topic keywords n) = Ok cands
       /\ forall c a, c ∈ cands -> item_title c.2 = EmptyString ->
                      a ∈ acc.1 -> title a <> item_title c.2.
Proof.
  intros H. destruct (report_collect_first_seen _ _ _ _ _ _ H) as (cands & Hc & Hacc).
  assert (Hne : forall a, a ∈ acc.1 -> title a <> EmptyString).
  { intros a Ha. rewrite Hacc in Ha. apply first_seen_titles in Ha.
    destruct Ha as [Ht _]. intros Heq. rewrite Heq in Ht. discriminate. }
  split; [exact Hne|]. split.
  - intros a Ha. apply Hne. revert Ha. unfold report_result. apply subseteq_take.
  - exists cands. split; [exact Hc|]. intros c a _ Hempty Ha. rewrite Hempty. now apply Hne.
Qed.

End AggregationResult.

Section Report.

Context (self : server)
        (session_get : list event -> string -> headers -> params -> result response)
        (py_repr : list string -> string)
        (now : string).

Lemma ensure_session_calls st : calls (_ensure_session st).2 = calls st.
Proof. unfold _ensure_session. now destruct (session st). Qed.

Lemma ensure_session_ok st : (_ensure_session st).1 = Ok tt.
Proof. unfold _ensure_session. now destruct (session st). Qed.

Lemma ensure_session_open st : session (_ensure_session st).2 = SessionOpen.
Proof. unfold _ensure_session. now destruct (session st) eqn:E. Qed.

Lemma ensure_session_run st :
  _ensure_session st = (Ok tt, {| session := SessionOpen; calls := calls st |}).
Proof. unfold _ensure_session. destruct st as [[] cs]; reflexivity. Qed.

Lemma py_strs_strs i (l : list string) : py_strs i (map PStr l) = Ok l.
Proof.
  revert i. induction l as [|x l IH]; intros i; cbn [map py_strs]; [reflexivity|].
  now rewrite IH.
Qed.

(** What [_generate_news_report] reads in a list of keywords, or in [None],
    is that list. *)
Lemma py_optional_sequence_list (keywords : option (list string)) :
  exists kept,
    py_optional_sequence keywords = Ok kept
    /\ report_keywords kept = report_keywords keywords.
Proof. destruct keywords as [[|k ks]|]; eexists; split; reflexivity. Qed.

(** With credentials, the report is built from the truncated accumulation. *)
Lemma generate_news_report_unfold (topic : string) (keywords : option (list string))
    (n : Z) (links : bool) st :
  credentials_missing self = false ->
  _generate_news_report self session_get py_repr now topic keywords n links st
  = match report_collect self session_get topic keywords n (_ensure_session st).2 with
    | (Ok acc, st') =>
        (Ok [text_content
               match acc.1 with
               | [] => not_found_text topic
               | _ => _build_report now topic (topic :: report_keywords keywords)
                                    (report_result n acc.1) links
               end], st')
    | (Raise e, st') => (Raise e, st')
    end.
Proof.
  intros Hc. unfold _generate_news_report, bind. rewrite Hc.
  destruct (_ensure_session st) as [[[]|e] st1] eqn:E.
  - cbn [lift py_number fst snd].
    destruct (py_optional_sequence_list keywords) as (kept & -> & Hk).
    assert (Hq : report_search_queries topic kept = report_search_queries topic keywords)
      by (unfold report_search_queries; now rewrite Hk).
    assert (Hr : report_collect self session_get topic kept n st1
                 = report_collect self session_get topic keywords n st1)
      by (unfold report_collect; now rewrite Hq).
    rewrite Hr, Hq. clear Hr Hq Hk kept.
    destruct (report_collect _ _ _ _ _ st1) as [[acc|e] st']; [|reflexivity].
    unfold ret, report_search_queries. cbn [py_strs py_str py_truthy].
    rewrite py_strs_strs. now destruct acc.1.
  - pose proof (ensure_session_ok st) as H. rewrite E in H. discriminate.
Qed.


(** C3, amended: the report is built from the first [max(5, min(num_articles,
    50))] articles of the deduplicated accumulation, which holds the items
    in first-seen order across the queries taken in the order of the query
    list; these are the first [num_articles] ones when [num_articles] lies
    between 5 and 50, so ten of twenty-five when [num_articles] is 10. *)
Theorem generate_news_report_result (topic : string) (keywords : option (list string))
    (n : Z) (links : bool) st :
  credentials_missing self = false ->
  match candidates (report_answers self session_get (calls st) topic keywords n) with
  | Raise e =>
      (_generate_news_report self session_get py_repr now topic keywords n links st).1 = Raise e
  | Ok cands =>
      let all_articles := first_seen [] cands in
      let result := take (Z.to_nat (Z.max 5 (Z.min n 50))) all_articles in
      (_generate_news_report self session_get py_repr now topic keywords n links st).1
      = Ok [text_content
              match all_articles with
              | [] => not_found_text topic
              | _ => _build_report now topic (topic :: report_keywords keywords)
                                   result links
              end]
      /\ (5 <= n <= 50 -> result = take (Z.to_nat n) all_articles)
      /\ (n = 10 -> length all_articles = 25%nat ->
          length result = 10%nat /\ result = take 10 all_articles)
  end.
Proof.
  intros Hc. rewrite generate_news_report_unfold by exact Hc.
  pose proof (report_collect_spec self session_get topic keywords n (_ensure_session st).2)
    as Hs.
  rewrite ensure_session_calls in Hs.
  destruct (candidates _) as [cands|e].
  - destruct (report_collect _ _ _ _ _ _) as [[acc|e] st']; [|discriminate].
    cbn [fst] in Hs. injection Hs as ->.
    rewrite (fold_add_candidate cands [] ∅ []) by (intros t; set_solver).
    cbn [app]. split; [reflexivity|]. split.
    + intros Hn. do 2 f_equal. lia.
    + intros -> Hlen. split; [|reflexivity].
      rewrite length_take. change (Z.to_nat (Z.max 5 (Z.min 10 50))) with 10%nat. lia.
  - destruct (report_collect _ _ _ _ _ _) as [[acc|e'] st']; [discriminate|].
    cbn [fst] in Hs |- *. now injection Hs as ->.
Qed.

End Report.

Lemma generate_news_report_result_witness :
  credentials_missing Demo.server_ = false
  /\ candidates (report_answers Demo.server_ (Demo.serve Demo.twenty_five)
                                (calls initial_state) "경제" (Some ["주식"]) 10)
     = Ok (Demo.returned Demo.twenty_five ["경제"; "주식"])
  /\ length (first_seen [] (Demo.returned Demo.twenty_five ["경제"; "주식"])) = 25%nat
  /\ length (take (Z.to_nat (Z.max 5 (Z.min 10 50)))
                  (first_seen [] (Demo.returned Demo.twenty_five ["경제"; "주식"])))
     = 10%nat
  /\ take (Z.to_nat (Z.max 5 (Z.min 10 50)))
          (first_seen [] (Demo.returned Demo.twenty_five ["경제"; "주식"]))
     = take 10 (first_seen [] (Demo.returned Demo.twenty_five ["경제"; "주식"])).
Proof.
  assert (Hc : credentials_missing Demo.server_ = false) by (vm_compute; reflexivity).
  assert (E : candidates (report_answers Demo.server_ (Demo.serve Demo.twenty_five)
                                         (calls initial_state) "경제" (Some ["주식"]) 10)
              = Ok (Demo.returned Demo.twenty_five ["경제"; "주식"]))
    by (vm_compute; reflexivity).
  assert (Hlen : length (first_seen [] (Demo.returned Demo.twenty_five ["경제"; "주식"]))
                 = 25%nat) by (vm_compute; reflexivity).
  pose proof (generate_news_report_result Demo.server_ (Demo.serve Demo.twenty_five) Demo.repr "오늘"
                "경제" (Some ["주식"]) 10 true initial_state Hc) as H.
  rewrite E in H. cbv beta iota zeta in H.
  destruct H as (_ & _ & H25). destruct (H25 eq_refl Hlen) as [Hl Ht].
  repeat split; assumption.
Defined.

(** C3, as stated, with a requested count of 3: the report holds five
    articles, not the first three. *)
Lemma generate_news_report_not_target_count :
  let cands := Demo.returned Demo.shared_title ["경제"] in
  let run := _generate_news_report Demo.server_ (Demo.serve Demo.shared_title) Demo.repr "오늘"
                                   "경제" None 3 true initial_state in
  candidates (report_answers Demo.server_ (Demo.serve Demo.shared_title) []
                             "경제" None 3) = Ok cands
  /\ run.1 = Ok [text_content (_build_report "오늘" "경제" ["경제"]
                                             (take 5 (first_seen [] cands)) true)]
  /\ run.1 <> Ok [text_content (_build_report "오늘" "경제" ["경제"]
                                              (take (Z.to_nat 3) (first_seen [] cands)) true)]
  /\ length (take 5 (first_seen [] cands)) = 5%nat
  /\ length (take (Z.to_nat 3) (first_seen [] cands)) = 3%nat.
Proof.
  cbv zeta.
  split; [vm_compute; reflexivity|].
  split; [vm_compute; reflexivity|].
  split; [vm_compute; discriminate|].
  split; vm_compute; reflexivity.
Qed.

(** A run with two queries that both return the title ["X"]. *)
Lemma report_titles_unique_witness :
  let all_articles := first_seen [] (Demo.returned Demo.shared_title ["경제"; "주식"]) in
  let acc := (all_articles, list_to_set (map title all_articles) : gset string) in
  let st' := {| session := NoSession;
                calls := map (fun q : string =>
                                HttpGet NAVER_API_BASE_URL (naver_headers Demo.server_)
                                        (report_params 7 q)) ["경제"; "주식"] |} in
  report_collect Demo.server_ (Demo.serve Demo.shared_title) "경제" (Some ["주식"]) 15
                 initial_state = (Ok acc, st')
  /\ NoDup (map title (report_result 15 acc.1))
  /\ count_title "X" acc.1 = 1%nat
  /\ count_title "X" (report_result 15 acc.1) = 1%nat.
Proof.
  cbv zeta.
  match goal with |- ?hyp /\ _ => assert (H : hyp) by (vm_compute; reflexivity) end.
  split; [exact H|].
  destruct (report_titles_unique _ _ _ _ _ _ _ _ H) as (cands & Hc & Hnd & Hcount & _).
  split; [exact Hnd|].
  assert (E : candidates (report_answers Demo.server_ (Demo.serve Demo.shared_title)
                                         (calls initial_state) "경제" (Some ["주식"]) 15)
              = Ok (Demo.returned Demo.shared_title ["경제"; "주식"]))
    by (vm_compute; reflexivity).
  rewrite E in Hc. injection Hc as <-.
  destruct (Hcount (PStr "경제", Demo.titled "X")) as (H1 & _ & H2).
  - apply list_elem_of_In. vm_compute. tauto.
  - vm_compute. reflexivity.
  - split; [exact H1|]. apply H2. exists 5%nat. eexists. split; [vm_compute; lia|].
    split; vm_compute; reflexivity.
Defined.

(** C2, as stated: two queries both return the title ["X"], which the first
    one returns after five other titles; the final sequence of a report of
    five articles holds no article with that title. *)
Lemma report_shared_title_dropped :
  let answers := report_answers Demo.server_ (Demo.serve Demo.shared_title)
                                (calls initial_state) "경제" (Some ["주식"]) 5 in
  let run := report_collect Demo.server_ (Demo.serve Demo.shared_title)
                            "경제" (Some ["주식"]) 5 initial_state in
  (exists r1 r2 items1 items2,
      answers = [(PStr "경제", r1); (PStr "주식", r2)]
      /\ returned_items r1 = Ok items1 /\ returned_items r2 = Ok items2
      /\ Demo.titled "X" ∈ items1 /\ Demo.titled "X" ∈ items2
      /\ item_title (Demo.titled "X") = "X")
  /\ exists acc, run.1 = Ok acc
                 /\ map title acc.1 = ["A1"; "A2"; "A3"; "A4"; "A5"; "X"; "B1"]
                 /\ map title (report_result 5 acc.1) = ["A1"; "A2"; "A3"; "A4"; "A5"]
                 /\ count_title "X" (report_result 5 acc.1) = 0%nat.
Proof.
  cbv zeta. split.
  - exists (Demo.ok_response (map Demo.titled ["A1"; "A2"; "A3"; "A4"; "A5"; "X"])),
           (Demo.ok_response (map Demo.titled ["X"; "B1"])),
           (map Demo.titled ["A1"; "A2"; "A3"; "A4"; "A5"; "X"]),
           (map Demo.titled ["X"; "B1"]).
    split; [vm_compute; reflexivity|].
    split; [vm_compute; reflexivity|].
    split; [vm_compute; reflexivity|].
    split; [apply list_elem_of_In; vm_compute; tauto|].
    split; [apply list_elem_of_In; vm_compute; tauto|].
    vm_compute; reflexivity.
  - exists (first_seen [] (Demo.returned Demo.shared_title ["경제"; "주식"]),
            list_to_set ["A1"; "A2"; "A3"; "A4"; "A5"; "X"; "B1"]).
    split; [vm_compute; reflexivity|].
    split; [vm_compute; reflexivity|].
    split; vm_compute; reflexivity.
Qed.

(** A run whose only query returns an item without title and an item whose
    title is only markup. *)
Lemma report_titles_not_empty_witness :
  let all_articles := first_seen [] (Demo.returned Demo.untitled ["경제"]) in
  let acc := (all_articles, list_to_set (map title all_articles) : gset string) in
  let st' := {| session := NoSession;
                calls := [HttpGet NAVER_API_BASE_URL (naver_headers Demo.server_)
                                  (report_params 15 "경제")] |} in
  report_collect Demo.server_ (Demo.serve Demo.untitled) "경제" None 15 initial_state
  = (Ok acc, st')
  /\ map title acc.1 = ["금리 동결"]
  /\ (forall a, a ∈ report_result 15 acc.1 -> title a <> EmptyString).
Proof.
  cbv zeta.
  match goal with |- ?hyp /\ _ => assert (H : hyp) by (vm_compute; reflexivity) end.
  split; [exact H|]. split; [vm_compute; reflexivity|].
  exact (proj1 (proj2 (report_titles_not_empty _ _ _ _ _ _ _ _ H))).
Defined.

(** ** Search, category lookup and credentials *)

Section Search.

Context (self : server)
        (session_get : list event -> string -> headers -> params -> result response)
        (py_repr : list string -> string).

Lemma search_news_missing q d s so st :
  credentials_missing self = true ->
  _search_news self session_get py_repr q d s so st
  = (Ok [text_content credentials_missing_text], (_ensure_session st).2).
Proof.
  intros Hc. unfold _search_news, bind, ret. rewrite Hc.
  unfold _ensure_session. now destruct (session st).
Qed.

(** With credentials, [_search_news] sends one request, with the clamped
    parameters, and answers from what comes back. *)
Lemma search_news_unfold (q : string) (d s : Z) (so : string) st :
  credentials_missing self = false ->
  _search_news self session_get py_repr q d s so st
  = (match session_get (calls st) NAVER_API_BASE_URL (naver_headers self)
                       (search_params q d s so) with
     | Ok resp =>
         if negb (status resp =? 200) then
           Ok [text_content ("API 오류 (상태 코드: " +:+ str_of_Z (status resp)
                             +:+ "): " +:+ body_text resp)]
         else match body_json resp with
              | Ok data => Ok (_format_news_results data q)
              | Raise e => if is_ClientError e
                           then Ok [text_content ("네트워크 오류: " +:+ str_exn e)]
                           else Raise e
              end
     | Raise e => if is_ClientError e
                  then Ok [text_content ("네트워크 오류: " +:+ str_exn e)]
                  else Raise e
     end,
     {| session := SessionOpen;
        calls := calls st ++ [HttpGet NAVER_API_BASE_URL (naver_headers self)
                                      (search_params q d s so)] |}).
Proof.
  intros Hc. unfold _search_news, bind. rewrite Hc.
  assert (He : _ensure_session st = (Ok tt, {| session := SessionOpen; calls := calls st |})).
  { unfold _ensure_session. destruct st as [[] cs]; reflexivity. }
  rewrite He. unfold try_except, bind, get, lift, ret, search_params.
  cbn [session calls py_number py_in py_str].
  destruct (session_get _ _ _ _) as [resp|e].
  - destruct (negb (status resp =? 200)); [reflexivity|].
    destruct (body_json resp) as [data|e]; [reflexivity|].
    destruct (is_ClientError e); reflexivity.
  - destruct (is_ClientError e); reflexivity.
Qed.

(** C6: whatever integers and sort value [_search_news] is given, the one
    request it sends carries a [display] between 1 and 100 and a [start]
    between 1 and 1000, which are the given ones when these are in range,
    and the given sort value when it is [sim] (relevance) or [date], [sim]
    otherwise. *)
Theorem search_news_clamps (q : string) (d s : Z) (so : string) st :
  credentials_missing self = false ->
  exists p,
    calls (_search_news self session_get py_repr q d s so st).2
    = calls st ++ [HttpGet NAVER_API_BASE_URL (naver_headers self) p]
    /\ query p = q
    /\ display p = Z.max 1 (Z.min d 100) /\ 1 <= display p <= 100
    /\ start p = Z.max 1 (Z.min s 1000) /\ 1 <= start p <= 1000
    /\ (1 <= d <= 100 -> display p = d)
    /\ (1 <= s <= 1000 -> start p = s)
    /\ (so = "sim" \/ so = "date" -> sort p = so)
    /\ (so <> "sim" -> so <> "date" -> sort p = "sim").
Proof.
  intros Hc. exists (search_params q d s so).
  rewrite search_news_unfold by exact Hc. cbn [snd calls search_params query display start sort].
  split; [reflexivity|]. split; [reflexivity|].
  split; [reflexivity|]. split; [lia|].
  split; [reflexivity|]. split; [lia|].
  split; [lia|]. split; [lia|]. split.
  - intros [->| ->]; reflexivity.
  - intros H1 H2. unfold str_in. cbn [existsb].
    apply String.eqb_neq in H1, H2. now rewrite H1, H2.
Qed.

(** Every category of the registry has a first keyword. *)
Lemma lookup_category_keywords c info :
  lookup_category NEWS_CATEGORIES c = Some info ->
  exists q rest, keywords info = q :: rest.
Proof.
  unfold NEWS_CATEGORIES. cbn [lookup_category].
  repeat (destruct (String.eqb _ c); [intros [= <-]; eexists _, _; reflexivity|]).
  discriminate.
Qed.

(** The two cases of [_get_category_news]. *)
Lemma get_category_news_cases c d so st :
  match lookup_category NEWS_CATEGORIES c with
  | None =>
      _get_category_news self session_get py_repr c d so st
      = (Ok [text_content (unknown_category_text c)], st)
  | Some info =>
      exists q rest,
        keywords info = q :: rest
        /\ _get_category_news self session_get py_repr c d so st
           = _search_news self session_get py_repr q d 1 so st
  end.
Proof.
  unfold _get_category_news, bind, lift. cbn [registry_get].
  destruct (lookup_category NEWS_CATEGORIES c) as [info|] eqn:E; [|reflexivity].
  destruct (lookup_category_keywords c info E) as (q & rest & Hk).
  exists q, rest. split; [exact Hk|]. now rewrite Hk.
Qed.

End Search.

Section Credentials.

Context (self : server)
        (session_get : list event -> string -> headers -> params -> result response)
        (py_repr : list string -> string)
        (messages_create : list event -> completion_request -> result (list string))
        (json_dumps_news : list (string * string * string) -> string)
        (json_dumps_keywords : pyval -> string)
        (now : string)
        (call_error_text : string -> gmap string pyval -> string).

Lemma generate_news_report_missing topic kws n links st :
  credentials_missing self = true ->
  _generate_news_report self session_get py_repr now topic kws n links st
  = (Ok [text_content credentials_missing_text], (_ensure_session st).2).
Proof.
  intros Hc. unfold _generate_news_report, bind, ret. rewrite Hc.
  unfold _ensure_session. now destruct (session st).
Qed.

Lemma search_and_summarize_news_missing kws n curation st :
  credentials_missing self = true ->
  _search_and_summarize_news self session_get messages_create json_dumps_news
                             json_dumps_keywords now kws n curation st
  = (Ok [text_content credentials_missing_text], (_ensure_session st).2).
Proof.
  intros Hc. unfold _search_and_summarize_news, bind, ret. rewrite Hc.
  unfold _ensure_session. now destruct (session st).
Qed.

Lemma search_and_summarize_news_no_client kws n curation st :
  credentials_missing self = false -> claude_client self = None ->
  _search_and_summarize_news self session_get messages_create json_dumps_news
                             json_dumps_keywords now kws n curation st
  = (Ok [text_content claude_key_missing_text], (_ensure_session st).2).
Proof.
  intros Hc Hk. unfold _search_and_summarize_news, bind, ret. rewrite Hc, Hk.
  unfold _ensure_session. now destruct (session st).
Qed.

(** The binding of the arguments of [get_category_news] when only the
    category is given: ten results, sorted by date. *)
Lemma call_get_category_news_default c st :
  call_get_category_news self session_get py_repr call_error_text {[ "category" := PStr c ]} st
  = _get_category_news self session_get py_repr c 10 "date" st.
Proof.
  unfold call_get_category_news.
  assert (Ha : accepts ["category"; "display"; "sort"] {[ "category" := PStr c ]} = true).
  { unfold accepts. apply bool_decide_eq_true_2. rewrite dom_singleton_L. set_solver. }
  rewrite Ha. cbn [negb]. unfold bind, lift, required, optional.
  rewrite lookup_singleton_eq.
  rewrite !lookup_singleton_ne by discriminate. reflexivity.
Qed.

Lemma handle_call_tool_calls name arguments st :
  calls (handle_call_tool self session_get py_repr messages_create json_dumps_news
                          json_dumps_keywords now call_error_text name arguments st).2
  = calls (call_tool_body self session_get py_repr messages_create json_dumps_news
                          json_dumps_keywords now call_error_text name arguments st).2.
Proof.
  unfold handle_call_tool, try_except.
  destruct (call_tool_body _ _ _ _ _ _ _ _ _ _ _) as [[out|e] st']; [reflexivity|].
  now destruct (is_Exception e).
Qed.

(** C7: [_get_category_news] answers a category that is not in the
    registry with the unknown-category message, sending nothing; for a
    category of the registry it searches for the first keyword of the
    category, with the sort value it is given, which is [date] when the
    call gives none: a call for the category [tech] alone sends a search
    for ["IT"] sorted by date. *)
Theorem get_category_news_spec :
  (forall c d so st,
      match lookup_category NEWS_CATEGORIES c with
      | None =>
          _get_category_news self session_get py_repr c d so st
          = (Ok [text_content (unknown_category_text c)], st)
      | Some info =>
          exists q rest,
            keywords info = q :: rest
            /\ _get_category_news self session_get py_repr c d so st
               = _search_news self session_get py_repr q d 1 so st
      end)
  /\ (forall c st,
         call_tool_body self session_get py_repr messages_create json_dumps_news json_dumps_keywords
                        now call_error_text "get_category_news"
                        {[ "category" := PStr c ]} st
         = _get_category_news self session_get py_repr c 10 "date" st)
  /\ (exists info, lookup_category NEWS_CATEGORIES "tech" = Some info
                   /\ hd_error (keywords info) = Some "IT")
  /\ (forall st,
         calls (handle_call_tool self session_get py_repr messages_create json_dumps_news
                                 json_dumps_keywords now call_error_text "get_category_news"
                                 {[ "category" := PStr "tech" ]} st).2
         = calls st
           ++ if credentials_missing self then []
              else [HttpGet NAVER_API_BASE_URL (naver_headers self)
                            {| query := "IT"; display := 10; start := 1; sort := "date" |}]).
Proof.
  split; [apply get_category_news_cases|].
  split; [intros c st; apply call_get_category_news_default|].
  split; [eexists; split; reflexivity|].
  intros st. rewrite handle_call_tool_calls.
  change (call_tool_body _ _ _ _ _ _ _ _ "get_category_news" ?a st)
    with (call_get_category_news self session_get py_repr call_error_text a st).
  rewrite call_get_category_news_default.
  change (_get_category_news self session_get py_repr "tech" 10 "date" st)
    with (_search_news self session_get py_repr "IT" 10 1 "date" st).
  destruct (credentials_missing self) eqn:Hc.
  - rewrite search_news_missing by exact Hc. rewrite app_nil_r. apply ensure_session_calls.
  - rewrite search_news_unfold by exact Hc. reflexivity.
Qed.

End Credentials.

(** C8: without the search credentials, [_search_news],
    [_generate_news_report], [_search_and_summarize_news] and, for a category of
    the registry, [_get_category_news] answer with the one text that says the
    credentials are not set, and send nothing; with them but without the
    completion client, which is there only when the environment holds a
    non-empty key, [_search_and_summarize_news] answers with the one text that
    says the key is not set, and sends nothing. *)
Theorem missing_credentials_checked_first :
  forall self session_get py_repr messages_create json_dumps_news json_dumps_keywords now st,
    (credentials_missing self = true ->
     (forall q d s so,
         (_search_news self session_get py_repr q d s so st).1
         = Ok [text_content credentials_missing_text]
         /\ calls (_search_news self session_get py_repr q d s so st).2 = calls st)
     /\ (forall c d so info,
            lookup_category NEWS_CATEGORIES c = Some info ->
            (_get_category_news self session_get py_repr c d so st).1
            = Ok [text_content credentials_missing_text]
            /\ calls (_get_category_news self session_get py_repr c d so st).2 = calls st)
     /\ (forall topic kws n links,
            (_generate_news_report self session_get py_repr now topic kws n links st).1
            = Ok [text_content credentials_missing_text]
            /\ calls (_generate_news_report self session_get py_repr now topic kws n links st).2
               = calls st)
     /\ (forall kws n curation,
            (_search_and_summarize_news self session_get messages_create json_dumps_news
                                        json_dumps_keywords now kws n curation st).1
            = Ok [text_content credentials_missing_text]
            /\ calls (_search_and_summarize_news self session_get messages_create
                        json_dumps_news json_dumps_keywords now kws n curation st).2
               = calls st))
    /\ (credentials_missing self = false -> claude_client self = None ->
        forall kws n curation,
          (_search_and_summarize_news self session_get messages_create json_dumps_news
                                      json_dumps_keywords now kws n curation st).1
          = Ok [text_content claude_key_missing_text]
          /\ calls (_search_and_summarize_news self session_get messages_create
                      json_dumps_news json_dumps_keywords now kws n curation st).2
             = calls st)
    /\ (forall environ prompt,
           (falsy (environ !! "news_client_id") = true
            \/ falsy (environ !! "news_client_secret") = true ->
            credentials_missing (new_server environ prompt) = true)
           /\ (falsy (environ !! "claude_api_key") = true ->
               claude_client (new_server environ prompt) = None)).
Proof.
  intros self session_get py_repr messages_create json_dumps_news json_dumps_keywords now st.
  split; [|split].
  - intros Hc. split; [|split; [|split]].
    + intros q d s so. rewrite search_news_missing by exact Hc.
      split; [reflexivity|apply ensure_session_calls].
    + intros c d so info Hl.
      pose proof (get_category_news_cases self session_get py_repr c d so st) as H.
      rewrite Hl in H. destruct H as (q & rest & _ & ->).
      rewrite search_news_missing by exact Hc.
      split; [reflexivity|apply ensure_session_calls].
    + intros topic kws n links. rewrite generate_news_report_missing by exact Hc.
      split; [reflexivity|apply ensure_session_calls].
    + intros kws n curation. rewrite search_and_summarize_news_missing by exact Hc.
      split; [reflexivity|apply ensure_session_calls].
  - intros Hc Hk kws n curation.
    rewrite search_and_summarize_news_no_client by assumption.
    split; [reflexivity|apply ensure_session_calls].
  - intros environ prompt. unfold credentials_missing, new_server. cbn.
    split.
    + intros [-> | ->]; [reflexivity|apply orb_true_r].
    + intros ->. reflexivity.
Qed.

(** ** Search and summary *)

Section Summary.

Context (self : server)
        (session_get : list event -> string -> headers -> params -> result response)
        (messages_create : list event -> completion_request -> result (list string))
        (json_dumps_news : list (string * string * string) -> string)
        (json_dumps_keywords : pyval -> string)
        (now : string).

Local Abbreviation sent_get p := (HttpGet NAVER_API_BASE_URL (naver_headers self) p).

(** One turn of the loop over the keywords. *)
Lemma summary_query_spec n acc k st :
  summary_query self session_get n acc k st
  = (match returned_items
             (session_get (calls st) NAVER_API_BASE_URL (naver_headers self)
                          (summary_params n k)) with
     | Ok items => Ok (acc ++ enumerate_map (news_entry k) 1 items)
     | Raise e => Raise e
     end,
     {| session := session st; calls := calls st ++ [sent_get (summary_params n k)] |}).
Proof.
  unfold summary_query, try_except, bind, get, lift, ret, returned_items, summary_params.
  destruct (session_get _ _ _ _) as [resp|e]; simpl.
  - destruct (status resp =? 200); simpl; [|now rewrite app_nil_r].
    destruct (body_json resp) as [data|e]; simpl; [reflexivity|].
    destruct (is_ClientError e); simpl; now rewrite ?app_nil_r.
  - destruct (is_ClientError e); simpl; now rewrite ?app_nil_r.
Qed.

(** The loop sends one request for each keyword, in their order, until an
    error ends it. *)
Lemma summary_loop_calls n ks acc st :
  exists sent_for,
    sent_for `prefix_of` ks
    /\ calls (for_each ks (summary_query self session_get n) acc st).2
       = calls st ++ map (fun k => sent_get (summary_params n k)) sent_for
    /\ session (for_each ks (summary_query self session_get n) acc st).2 = session st
    /\ (forall r, (for_each ks (summary_query self session_get n) acc st).1 = Ok r ->
                  sent_for = ks).
Proof.
  revert acc st. induction ks as [|k ks IH]; intros acc st.
  - exists []. simpl. rewrite app_nil_r. repeat split; auto.
  - cbn [for_each]. unfold bind. rewrite summary_query_spec.
    destruct (returned_items _) as [items|e].
    + destruct (IH (acc ++ enumerate_map (news_entry k) 1 items)
                   {| session := session st;
                      calls := calls st ++ [sent_get (summary_params n k)] |})
        as (sent_for & Hp & Hc & Hs & Hall).
      exists (k :: sent_for). split; [now apply prefix_cons|].
      split; [rewrite Hc; cbn [calls map]; now rewrite <- app_assoc|].
      split; [exact Hs|].
      intros r Hr. f_equal. now apply (Hall r).
    + exists [k]. split; [apply prefix_cons, prefix_nil|].
      split; [reflexivity|]. split; [reflexivity|]. discriminate.
Qed.

Lemma enumerate_map_keyword k first items d :
  d ∈ enumerate_map (news_entry k) first items -> nd_keyword d = k.
Proof.
  revert first. induction items as [|it items IH]; intros first; cbn [enumerate_map].
  - intros H. inversion H.
  - intros [->|H]%elem_of_cons; [reflexivity|]. now apply (IH (first + 1)).
Qed.

(** Every collected entry comes from one of the keywords of the loop. *)
Lemma summary_loop_keywords n ks acc st r st' :
  for_each ks (summary_query self session_get n) acc st = (Ok r, st') ->
  forall d, d ∈ r -> d ∈ acc \/ nd_keyword d ∈ ks.
Proof.
  revert acc st. induction ks as [|k ks IH]; intros acc st; cbn [for_each].
  - unfold ret. intros [= <- _] d Hd. now left.
  - unfold bind. rewrite summary_query_spec.
    destruct (returned_items _) as [items|e]; [|discriminate].
    intros H d Hd. destruct (IH _ _ H d Hd) as [Hin|Hin].
    + apply elem_of_app in Hin. destruct Hin as [Hin|Hin]; [now left|].
      right. apply enumerate_map_keyword in Hin. rewrite Hin. now apply elem_of_cons; left.
    + right. now apply elem_of_cons; right.
Qed.

Lemma summarize_with_claude_calls news kws st :
  exists r,
    calls (_summarize_with_claude self messages_create json_dumps_news json_dumps_keywords
                                  now news kws st).2
    = calls st ++ [MessagesCreate r].
Proof.
  unfold _summarize_with_claude, bind, create. eexists.
  destruct (messages_create _ _) as [[|t ts]|e]; reflexivity.
Qed.

(** C10: [_search_and_summarize_news] depends on the first five keywords
    only; it sends one search for each of them, in their order and until an
    error ends the loop, asking for [max(1, min(num_articles, 10))]
    articles, and after these at most one completion request; every entry
    it collects carries one of the first five keywords. *)
Theorem search_and_summarize_news_first_five :
  (forall (kws kws' : list string) (n : Z) (curation : bool) st,
      take 5 kws = take 5 kws' ->
      _search_and_summarize_news self session_get messages_create json_dumps_news
                                 json_dumps_keywords now kws n curation st
      = _search_and_summarize_news self session_get messages_create json_dumps_news
                                   json_dumps_keywords now kws' n curation st)
  /\ (forall (kws : list string) (n : Z) (curation : bool) st,
         exists sent_for rest,
           sent_for `prefix_of` take 5 kws
           /\ calls (_search_and_summarize_news self session_get messages_create
                       json_dumps_news json_dumps_keywords now kws n curation st).2
              = calls st
                ++ map (fun k : string => sent_get {| query := k;
                                                      display := Z.max 1 (Z.min n 10);
                                                      start := 1; sort := "date" |})
                       sent_for
                ++ rest
           /\ (rest = [] \/ exists r, rest = [MessagesCreate r])
           /\ (length sent_for <= 5)%nat
           /\ 1 <= Z.max 1 (Z.min n 10) <= 10)
  /\ (forall kws n st all_news_data st',
         summary_collect self session_get kws n st = (Ok all_news_data, st') ->
         forall d, d ∈ all_news_data -> nd_keyword d ∈ take 5 kws).
Proof.
  split; [|split].
  - intros kws kws' n curation st H.
    unfold _search_and_summarize_news, summary_collect, summary_keywords, bind, lift.
    cbn [py_number py_sequence py_take]. now rewrite H.
  - intros kws n curation st.
    assert (Hlen : forall l : list string, l `prefix_of` take 5 kws -> (length l <= 5)%nat).
    { intros l Hl. apply prefix_length in Hl. rewrite length_take in Hl. lia. }
    unfold _search_and_summarize_news, bind.
    assert (He : _ensure_session st = (Ok tt, (_ensure_session st).2)).
    { unfold _ensure_session. now destruct (session st). }
    rewrite He. pose proof (ensure_session_calls st) as Hc0.
    destruct (credentials_missing self).
    { exists [], []. cbn [snd ret map app]. rewrite app_nil_r.
      repeat split; auto using prefix_nil; simpl; lia. }
    destruct (claude_client self).
    2:{ exists [], []. cbn [snd ret map app]. rewrite app_nil_r.
        repeat split; auto using prefix_nil; simpl; lia. }
    unfold lift. cbn [py_number py_sequence py_take].
    unfold summary_collect, summary_keywords, summary_num_articles.
    destruct (summary_loop_calls (Z.max 1 (Z.min n 10)) (take 5 kws) []
                                 (_ensure_session st).2)
      as (sent_for & Hp & Hc & _ & _).
    rewrite Hc0 in Hc. unfold summary_params in Hc.
    destruct (for_each _ _ _ _) as [[news|e] st1]; cbn [snd] in Hc.
    2:{ exists sent_for, []. cbn [snd]. rewrite app_nil_r.
        repeat split; auto; lia. }
    destruct news as [|d news].
    { exists sent_for, []. cbn [snd ret]. rewrite app_nil_r.
      repeat split; auto; lia. }
    unfold try_except, bind.
    cbn [py_truthy].
    destruct (summarize_with_claude_calls (d :: news)
                (if curation then PStrList (take 5 kws) else PNone) st1) as (r & Hr).
    destruct (_summarize_with_claude _ _ _ _ _ _ _ _) as [[summary|e] st2];
      [|destruct (is_Exception e)];
      cbn [snd ret] in Hr |- *;
      (exists sent_for, [MessagesCreate r]; rewrite Hr, Hc, <- app_assoc;
       repeat split; eauto; try lia).
  - intros kws n st all_news_data st' H d Hd.
    unfold summary_collect, summary_keywords in H.
    destruct (summary_loop_keywords _ _ _ _ _ _ H d Hd) as [Hin|Hin]; [|exact Hin].
    inversion Hin.
Qed.

End Summary.

(** ** The handlers on values of any type *)

Section Runs.

Context (self : server)
        (session_get : list event -> string -> headers -> params -> result response)
        (py_repr : list string -> string)
        (messages_create : list event -> completion_request -> result (list string))
        (json_dumps_news : list (string * string * string) -> string)
        (json_dumps_keywords : pyval -> string)
        (now : string).

(** A state in which the session is open and the searches [gets] and then
    [rest] have been added to the calls of [st]. *)
Local Abbreviation opened st st' gets rest :=
  (session st' = SessionOpen
   /\ calls st' = calls st ++ gets ++ rest
   /\ Forall (fun e => is_HttpGet e = true) gets).

Lemma map_get_Forall {Q} (mk : Q -> params) qs :
  Forall (fun e => is_HttpGet e = true)
         (map (fun q => HttpGet NAVER_API_BASE_URL (naver_headers self) (mk q)) qs).
Proof. induction qs; constructor; auto. Qed.

(** Whatever its arguments are, [_search_news] opens the session and sends
    at most one request. *)
Lemma search_news_run (q d s so : pyval) st :
  exists gets,
    opened st (_search_news self session_get py_repr q d s so st).2 gets []
    /\ (length gets <= 1)%nat.
Proof.
  destruct (credentials_missing self) eqn:Hc.
  - exists []. rewrite search_news_missing by exact Hc. cbn [snd app length].
    rewrite app_nil_r, ensure_session_calls, ensure_session_open. repeat split; auto.
  - unfold _search_news, bind. rewrite Hc, ensure_session_run. unfold lift.
    destruct (py_number d) as [d'|e];
      [|exists []; cbn [snd session calls app length]; rewrite app_nil_r; repeat split; auto].
    destruct (py_number s) as [s'|e];
      [|exists []; cbn [snd session calls app length]; rewrite app_nil_r; repeat split; auto].
    eexists [_]. unfold try_except, bind, get, lift, ret. cbn [session calls].
    destruct (session_get _ _ _ _) as [resp|e].
    + destruct (negb (status resp =? 200));
        [cbn [snd session calls app length]; repeat split; auto; repeat constructor|].
      destruct (body_json resp) as [data|e]; [|destruct (is_ClientError e)];
        cbn [snd session calls app length]; repeat split; auto; repeat constructor.
    + destruct (is_ClientError e);
        cbn [snd session calls app length]; repeat split; auto; repeat constructor.
Qed.

(** [_get_category_news] leaves the state as it is, or does what
    [_search_news] does. *)
Lemma get_category_news_run (c d so : pyval) st :
  (_get_category_news self session_get py_repr c d so st).2 = st
  \/ exists q, _get_category_news self session_get py_repr c d so st
               = _search_news self session_get py_repr (PStr q) d 1 so st.
Proof.
  unfold _get_category_news, bind, lift.
  destruct (registry_get c) as [[info|]|e]; [|now left|now left].
  destruct (keywords info) as [|q rest]; [now left|]. right. now exists q.
Qed.

(** The loop over the queries of a report sends one request for each
    query, in their order, until an error ends it, and leaves the session
    as it is. *)
Lemma report_loop_run apq qs acc st :
  exists sent_for,
    sent_for `prefix_of` qs
    /\ calls (for_each qs (report_query self session_get apq) acc st).2
       = calls st
         ++ map (fun q => HttpGet NAVER_API_BASE_URL (naver_headers self)
                                  (report_params apq q)) sent_for
    /\ session (for_each qs (report_query self session_get apq) acc st).2 = session st.
Proof.
  revert acc st. induction qs as [|x qs IH]; intros acc st.
  - exists []. cbn [for_each ret snd map]. rewrite app_nil_r. repeat split; auto.
  - cbn [for_each]. unfold bind. rewrite report_query_spec.
    destruct (returned_items _) as [items|e].
    + destruct (IH (fold_left (add_article x) items acc)
                   {| session := session st;
                      calls := calls st
                               ++ [HttpGet NAVER_API_BASE_URL (naver_headers self)
                                           (report_params apq x)] |})
        as (sent_for & Hp & Hcalls & Hs).
      exists (x :: sent_for). split; [now apply prefix_cons|].
      split; [rewrite Hcalls; cbn [calls map]; now rewrite <- app_assoc|exact Hs].
    + exists [x]. split; [apply prefix_cons, prefix_nil|]. split; reflexivity.
Qed.

(** Whatever its arguments are, [_generate_news_report] opens the session
    and sends at most four requests. *)
Lemma generate_news_report_run (topic kws n links : pyval) st :
  exists gets,
    opened st (_generate_news_report self session_get py_repr now topic kws n links st).2
           gets []
    /\ (length gets <= 4)%nat.
Proof.
  destruct (credentials_missing self) eqn:Hc.
  - exists []. rewrite generate_news_report_missing by exact Hc. cbn [snd app length].
    rewrite app_nil_r, ensure_session_calls, ensure_session_open. repeat split; auto; lia.
  - unfold _generate_news_report, bind. rewrite Hc, ensure_session_run. unfold lift.
    destruct (py_number n) as [n'|e];
      [|exists []; cbn [snd session calls app length]; rewrite app_nil_r;
        repeat split; auto; lia].
    destruct (py_optional_sequence kws) as [kws'|e];
      [|exists []; cbn [snd session calls app length]; rewrite app_nil_r;
        repeat split; auto; lia].
    unfold report_collect.
    set (qs := report_search_queries topic kws').
    set (apq := report_articles_per_query (report_num_articles n') qs).
    set (st1 := {| session := SessionOpen; calls := calls st |}).
    destruct (report_loop_run apq qs ([], ∅) st1) as (sent_for & Hp & Hcalls & Hs).
    assert (Hlen : (length sent_for <= 4)%nat).
    { apply prefix_length in Hp. subst qs.
      unfold report_search_queries, report_keywords in Hp. cbn [length] in Hp.
      rewrite length_map in Hp.
      destruct kws' as [[|k ks]|]; cbn [length] in Hp; try lia.
      pose proof (length_take (k :: ks) 3). cbn [length] in *. lia. }
    eexists. rewrite app_nil_r.
    destruct (for_each _ _ _ _) as [[acc|e] st'] eqn:E; cbn [snd] in *.
    + destruct acc.1 as [|a arts].
      * cbn [ret snd]. split; [split; [exact Hs|split; [exact Hcalls|apply map_get_Forall]]|].
        now rewrite length_map.
      * destruct (py_strs 0 qs) as [l|e]; cbn [ret snd];
          (split; [split; [exact Hs|split; [exact Hcalls|apply map_get_Forall]]|]);
          now rewrite length_map.
    + split; [split; [exact Hs|split; [exact Hcalls|apply map_get_Forall]]|].
      now rewrite length_map.
Qed.

(** Whatever its arguments are, [_search_and_summarize_news] opens the
    session and sends at most five requests and then at most one completion
    request. *)
Lemma search_and_summarize_news_run (kws n curation : pyval) st :
  exists gets rest,
    opened st (_search_and_summarize_news self session_get messages_create json_dumps_news
                 json_dumps_keywords now kws n curation st).2 gets rest
    /\ (length gets <= 5)%nat
    /\ (rest = [] \/ exists r, rest = [MessagesCreate r]).
Proof.
  destruct (credentials_missing self) eqn:Hc.
  { exists [], []. rewrite search_and_summarize_news_missing by exact Hc.
    cbn [snd app length]. rewrite app_nil_r, ensure_session_calls, ensure_session_open.
    repeat split; auto; lia. }
  unfold _search_and_summarize_news, bind. rewrite Hc, ensure_session_run.
  set (st1 := {| session := SessionOpen; calls := calls st |}).
  destruct (claude_client self).
  2:{ exists [], []. cbn [snd ret app length session calls]. rewrite app_nil_r.
      repeat split; auto; lia. }
  unfold lift.
  destruct (py_number n) as [n'|e].
  2:{ exists [], []. cbn [snd app length session calls]. rewrite app_nil_r.
      repeat split; auto; lia. }
  destruct (py_sequence kws) as [elements|e].
  2:{ exists [], []. cbn [snd app length session calls]. rewrite app_nil_r.
      repeat split; auto; lia. }
  unfold summary_collect.
  destruct (summary_loop_calls self session_get (summary_num_articles n')
              (summary_keywords elements) [] st1) as (sent_for & Hp & Hcalls & Hs & _).
  assert (Hlen : (length (map (fun k => HttpGet NAVER_API_BASE_URL (naver_headers self)
                                           (summary_params (summary_num_articles n') k))
                              sent_for) <= 5)%nat).
  { rewrite length_map. apply prefix_length in Hp. unfold summary_keywords in Hp.
    rewrite length_take in Hp. lia. }
  destruct (for_each _ _ _ _) as [[news|e] st2]; cbn [snd] in Hcalls, Hs.
  2:{ eexists _, []. cbn [snd]. rewrite app_nil_r.
      split; [split; [exact Hs|split; [exact Hcalls|apply map_get_Forall]]|].
      split; [exact Hlen|now left]. }
  destruct news as [|d news].
  { eexists _, []. cbn [snd ret]. rewrite app_nil_r.
    split; [split; [exact Hs|split; [exact Hcalls|apply map_get_Forall]]|].
    split; [exact Hlen|now left]. }
  unfold try_except, _summarize_with_claude, bind, create, ret.
  match goal with |- context [messages_create (calls st2) ?req] =>
    eexists _, [MessagesCreate req] end.
  destruct (messages_create _ _) as [[|t ts]|e]; [| |destruct (is_Exception e)];
    cbn [snd session calls];
    (split; [split; [exact Hs|split; [rewrite Hcalls, <- app_assoc; reflexivity
                                     |apply map_get_Forall]]|];
     split; [exact Hlen|right; eauto]).
Qed.

End Runs.

(** ** The tool dispatcher *)

Section Dispatcher.

Context (self : server)
        (session_get : list event -> string -> headers -> params -> result response)
        (py_repr : list string -> string)
        (messages_create : list event -> completion_request -> result (list string))
        (json_dumps_news : list (string * string * string) -> string)
        (json_dumps_keywords : pyval -> string)
        (now : string)
        (call_error_text : string -> gmap string pyval -> string).

Local Abbreviation call_tool :=
  (handle_call_tool self session_get py_repr messages_create json_dumps_news json_dumps_keywords
                    now call_error_text).
Local Abbreviation tool_body :=
  (call_tool_body self session_get py_repr messages_create json_dumps_news json_dumps_keywords
                  now call_error_text).

Lemma call_tool_body_unknown name arguments st :
  name ∉ tool_names ->
  tool_body name arguments st = (Raise (ValueError ("Unknown tool: " +:+ name)), st).
Proof.
  unfold tool_names. rewrite !not_elem_of_cons. intros (H1 & H2 & H3 & H4 & H5 & _).
  unfold call_tool_body.
  apply String.eqb_neq in H1, H2, H3, H4, H5. now rewrite H1, H2, H3, H4, H5.
Qed.

(** The dispatcher returns what the body of its [try] returns, and turns
    what it raises into a text when it is an [Exception]. *)
Lemma handle_call_tool_unfold name arguments st :
  call_tool name arguments st
  = match tool_body name arguments st with
    | (Ok out, st') => (Ok out, st')
    | (Raise e, st') =>
        if is_Exception e then (Ok [text_content ("Error: " +:+ str_exn e)], st')
        else (Raise e, st')
    end.
Proof. reflexivity. Qed.

(** The binding of the arguments of [search_news] when only the query is
    given, and when a [display] is given too. *)
Lemma call_search_news_query (q : pyval) st :
  tool_body "search_news" {[ "query" := q ]} st
  = _search_news self session_get py_repr q 10 1 "sim" st.
Proof.
  change (tool_body "search_news" ?a st)
    with (call_search_news self session_get py_repr call_error_text a st).
  unfold call_search_news.
  assert (Ha : accepts ["query"; "display"; "start"; "sort"] {[ "query" := q ]} = true).
  { unfold accepts. apply bool_decide_eq_true_2. rewrite dom_singleton_L. set_solver. }
  rewrite Ha. cbn [negb]. unfold bind, lift, required, optional.
  rewrite lookup_singleton_eq.
  rewrite !lookup_singleton_ne by discriminate. reflexivity.
Qed.

Lemma call_search_news_query_display (q d : pyval) st :
  tool_body "search_news" {[ "query" := q; "display" := d ]} st
  = _search_news self session_get py_repr q d 1 "sim" st.
Proof.
  change (tool_body "search_news" ?a st)
    with (call_search_news self session_get py_repr call_error_text a st).
  unfold call_search_news.
  assert (Ha : accepts ["query"; "display"; "start"; "sort"]
                       {[ "query" := q; "display" := d ]} = true).
  { unfold accepts. apply bool_decide_eq_true_2.
    rewrite dom_insert_L, dom_singleton_L. intros x Hx.
    apply elem_of_union in Hx. rewrite !elem_of_singleton in Hx.
    apply elem_of_list_to_set, list_elem_of_In.
    destruct Hx as [->| ->]; cbn; tauto. }
  rewrite Ha. cbn [negb]. unfold bind, lift, required, optional.
  rewrite lookup_insert_eq.
  rewrite (lookup_insert_ne _ "query" "display") by discriminate.
  rewrite lookup_singleton_eq.
  rewrite !lookup_insert_ne by discriminate.
  rewrite !lookup_singleton_ne by discriminate. reflexivity.
Qed.

(** The binding of the arguments of [search_and_summarize_news] when only
    the keywords are given. *)
Lemma call_search_and_summarize_news_keywords (kws : pyval) st :
  tool_body "search_and_summarize_news" {[ "keywords" := kws ]} st
  = _search_and_summarize_news self session_get messages_create json_dumps_news
      json_dumps_keywords now kws 5 true st.
Proof.
  change (tool_body "search_and_summarize_news" ?a st)
    with (call_search_and_summarize_news self session_get messages_create json_dumps_news
            json_dumps_keywords now call_error_text a st).
  unfold call_search_and_summarize_news.
  assert (Ha : accepts ["keywords"; "num_articles"; "include_keyword_curation"]
                       {[ "keywords" := kws ]} = true).
  { unfold accepts. apply bool_decide_eq_true_2. rewrite dom_singleton_L. set_solver. }
  rewrite Ha. cbn [negb]. unfold bind, lift, required, optional.
  rewrite lookup_singleton_eq.
  rewrite !lookup_singleton_ne by discriminate. reflexivity.
Qed.

(** C1, amended: the dispatcher returns what the handler returns as it is,
    turns an [Exception] that leaves the handler into the one text
    ["Error: "] followed by its message, and so the error of a tool name
    that does not exist, and lets through what is not an [Exception]; no
    [Exception] leaves the dispatcher.  An error that a handler answers
    itself does not reach the dispatcher, and its text does not begin with
    ["Error: "]: when the request of [search_news] raises, the answer is the
    network-error text for a client error and the ["Error: "] text for
    another [Exception]; a value that cannot be compared with a number
    raises in the handler, after the session is opened, which gives the
    ["Error: "] text; a category that does not exist is answered with the
    unknown-category text; and an [Exception] of the completion request is
    answered with the text that reports it. *)
Theorem handle_call_tool_catches name arguments st :
  (forall out st',
      tool_body name arguments st = (Ok out, st') ->
      call_tool name arguments st = (Ok out, st'))
  /\ (forall e st',
         tool_body name arguments st = (Raise e, st') ->
         call_tool name arguments st
         = if is_Exception e
           then (Ok [text_content ("Error: " +:+ str_exn e)], st')
           else (Raise e, st'))
  /\ (forall e st', call_tool name arguments st = (Raise e, st') -> is_Exception e = false)
  /\ (name ∉ tool_names ->
      call_tool name arguments st
      = (Ok [text_content ("Error: Unknown tool: " +:+ name)], st))
  /\ (credentials_missing self = false ->
      forall (q : string) e,
        session_get (calls st) NAVER_API_BASE_URL (naver_headers self)
                    (search_params q 10 1 "sim") = Raise e ->
        (call_tool "search_news" {[ "query" := PStr q ]} st).1
        = if is_ClientError e then Ok [text_content ("네트워크 오류: " +:+ str_exn e)]
          else if is_Exception e then Ok [text_content ("Error: " +:+ str_exn e)]
          else Raise e)
  /\ (credentials_missing self = false ->
      forall q v : string,
        call_tool "search_news" {[ "query" := PStr q; "display" := PStr v ]} st
        = (Ok [text_content
                 "Error: '<' not supported between instances of 'int' and 'str'"],
           {| session := SessionOpen; calls := calls st |}))
  /\ (forall c : string,
         lookup_category NEWS_CATEGORIES c = None ->
         call_tool "get_category_news" {[ "category" := PStr c ]} st
         = (Ok [text_content (unknown_category_text c)], st))
  /\ (credentials_missing self = false ->
      claude_client self <> None ->
      forall (kws : list string) d news st1 e,
        summary_collect self session_get kws 5 (_ensure_session st).2 = (Ok (d :: news), st1) ->
        (forall r, messages_create (calls st1) r = Raise e) ->
        (call_tool "search_and_summarize_news" {[ "keywords" := PStrList kws ]} st).1
        = if is_Exception e
          then Ok [text_content ("요약 생성 중 오류가 발생했습니다: " +:+ str_exn e)]
          else Raise e)
  /\ (forall (m c : string),
         String.prefix "Error: " ("네트워크 오류: " +:+ m) = false
         /\ String.prefix "Error: " ("요약 생성 중 오류가 발생했습니다: " +:+ m) = false
         /\ String.prefix "Error: " (unknown_category_text c) = false).
Proof.
  split; [|split; [|split; [|split; [|split; [|split; [|split; [|split]]]]]]].
  - intros out st' H. rewrite handle_call_tool_unfold. now rewrite H.
  - intros e st' H. rewrite handle_call_tool_unfold. now rewrite H.
  - intros e st'. rewrite handle_call_tool_unfold.
    destruct (tool_body name arguments st) as [[out|e'] st1]; [discriminate|].
    destruct (is_Exception e') eqn:E; [discriminate|]. now intros [= <- _].
  - intros H. now rewrite handle_call_tool_unfold, (call_tool_body_unknown name arguments st H).
  - intros Hc q e He.
    rewrite handle_call_tool_unfold, call_search_news_query.
    rewrite search_news_unfold by exact Hc. rewrite He.
    destruct (is_ClientError e); [reflexivity|]. now destruct (is_Exception e).
  - intros Hc q v.
    rewrite handle_call_tool_unfold, call_search_news_query_display.
    unfold _search_news, bind. now rewrite Hc, ensure_session_run.
  - intros c Hn.
    rewrite handle_call_tool_unfold.
    change (tool_body "get_category_news" ?a st)
      with (call_get_category_news self session_get py_repr call_error_text a st).
    rewrite call_get_category_news_default.
    pose proof (get_category_news_cases self session_get py_repr c 10 "date" st) as H.
    rewrite Hn in H. now rewrite H.
  - intros Hc Hk kws d news st1 e Hcollect Hcreate.
    rewrite handle_call_tool_unfold, call_search_and_summarize_news_keywords.
    rewrite ensure_session_run in Hcollect. cbn [snd] in Hcollect.
    unfold _search_and_summarize_news, bind, lift. rewrite Hc, ensure_session_run.
    destruct (claude_client self) as [client|]; [|now exfalso; apply Hk].
    cbn [py_number py_sequence py_take py_truthy]. rewrite Hcollect.
    unfold try_except, _summarize_with_claude, bind, create, ret. rewrite Hcreate.
    destruct (is_Exception e) eqn:E; cbv beta iota; rewrite ?E; reflexivity.
  - intros m c. repeat split; reflexivity.
Qed.

End Dispatcher.

(** A call of a tool that does not exist, a search on a network that is out
    of reach and a search during which the request raises an error that is
    not a client error. *)
Lemma handle_call_tool_catches_witness :
  let timeout := fun (_ : list event) (_ : string) (_ : headers) (_ : params) =>
                   @Raise response (OtherError "Timeout") in
  let call_tool session_get :=
    handle_call_tool Demo.server_ session_get Demo.repr (Demo.complete "요약")
                     (fun _ => "[]") (fun _ => "[]") "오늘"
                     (fun f _ => f +:+ "() got unexpected arguments") in
  ("unknown_tool" ∉ tool_names)
  /\ call_tool timeout "unknown_tool" ∅ initial_state
     = (Ok [text_content "Error: Unknown tool: unknown_tool"], initial_state)
  /\ credentials_missing Demo.server_ = false
  /\ (call_tool Demo.unreachable "search_news" {[ "query" := PStr "경제" ]} initial_state).1
     = Ok [text_content "네트워크 오류: Cannot connect to host"]
  /\ (call_tool timeout "search_news" {[ "query" := PStr "경제" ]} initial_state).1
     = Ok [text_content "Error: Timeout"].
Proof.
  cbv zeta.
  assert (Hn : "unknown_tool" ∉ tool_names).
  { unfold tool_names. rewrite !not_elem_of_cons. repeat split; try discriminate.
    intros H; inversion H. }
  assert (Hc : credentials_missing Demo.server_ = false) by (vm_compute; reflexivity).
  split; [exact Hn|]. split; [|split; [exact Hc|split]].
  - exact (proj1 (proj2 (proj2 (proj2
             (handle_call_tool_catches Demo.server_ _ Demo.repr (Demo.complete "요약")
                (fun _ => "[]") (fun _ => "[]") "오늘"
                (fun f _ => f +:+ "() got unexpected arguments")
                "unknown_tool" ∅ initial_state)))) Hn).
  - exact (proj1 (proj2 (proj2 (proj2 (proj2
             (handle_call_tool_catches Demo.server_ Demo.unreachable Demo.repr
                (Demo.complete "요약") (fun _ => "[]") (fun _ => "[]") "오늘"
                (fun f _ => f +:+ "() got unexpected arguments")
                "search_news" ∅ initial_state))))) Hc "경제"
             (ClientError "Cannot connect to host") eq_refl).
  - exact (proj1 (proj2 (proj2 (proj2 (proj2
             (handle_call_tool_catches Demo.server_
                (fun _ _ _ _ => Raise (OtherError "Timeout")) Demo.repr
                (Demo.complete "요약") (fun _ => "[]") (fun _ => "[]") "오늘"
                (fun f _ => f +:+ "() got unexpected arguments")
                "search_news" ∅ initial_state))))) Hc "경제"
             (OtherError "Timeout") eq_refl).
Defined.

(** C1, as stated: on a network that is out of reach the request of a
    search raises a client error inside the handler, and the answer of the
    tool call is the network-error text of the handler, which does not begin
    with ["Error: "]; and when the request is cancelled, the dispatcher
    raises. *)
Lemma handle_call_tool_not_always_error_text :
  let cancelled := fun (_ : list event) (_ : string) (_ : headers) (_ : params) =>
                     @Raise response (CancelledError EmptyString) in
  let call_tool session_get :=
    handle_call_tool Demo.server_ session_get Demo.repr (Demo.complete "요약")
                     (fun _ => "[]") (fun _ => "[]") "오늘" (fun f _ => f) in
  Demo.unreachable [] NAVER_API_BASE_URL (naver_headers Demo.server_)
                   (search_params "경제" 10 1 "sim")
  = Raise (ClientError "Cannot connect to host")
  /\ (call_tool Demo.unreachable "search_news" {[ "query" := PStr "경제" ]} initial_state).1
     = Ok [text_content "네트워크 오류: Cannot connect to host"]
  /\ String.prefix "Error: " "네트워크 오류: Cannot connect to host" = false
  /\ (call_tool cancelled "search_news" {[ "query" := PStr "경제" ]} initial_state).1
     = Raise (CancelledError EmptyString).
Proof.
  cbv zeta.
  split; [reflexivity|]. split; [vm_compute; reflexivity|].
  split; [reflexivity|]. vm_compute; reflexivity.
Qed.

(** ** The handlers at work *)

(** A search with a [display] of 500, a [start] of -3 and a sort value that
    does not exist. *)
Lemma search_news_clamps_witness :
  credentials_missing Demo.server_ = false
  /\ exists p,
       calls (_search_news Demo.server_ (Demo.serve Demo.shared_title) Demo.repr
                           "경제" 500 (-3) "newest" initial_state).2
       = calls initial_state ++ [HttpGet NAVER_API_BASE_URL (naver_headers Demo.server_) p]
       /\ display p = 100 /\ start p = 1 /\ sort p = "sim".
Proof.
  assert (Hc : credentials_missing Demo.server_ = false) by (vm_compute; reflexivity).
  split; [exact Hc|].
  destruct (search_news_clamps Demo.server_ (Demo.serve Demo.shared_title) Demo.repr
              "경제" 500 (-3) "newest" initial_state Hc)
    as (p & Hcalls & _ & Hd & _ & Hs & _ & _ & _ & _ & Hso).
  exists p. split; [exact Hcalls|]. split; [exact Hd|]. split; [exact Hs|].
  apply Hso; discriminate.
Defined.

(** A server started with an empty environment sends nothing. *)
Lemma missing_credentials_checked_first_witness :
  credentials_missing Demo.bare_server = true
  /\ (_search_and_summarize_news Demo.bare_server (Demo.serve Demo.shared_title)
        (Demo.complete "요약") (fun _ => "[]") (fun _ => "[]") "오늘"
        ["경제"] 5 true initial_state).1
     = Ok [text_content credentials_missing_text]
  /\ calls (_search_and_summarize_news Demo.bare_server (Demo.serve Demo.shared_title)
              (Demo.complete "요약") (fun _ => "[]") (fun _ => "[]") "오늘"
              ["경제"] 5 true initial_state).2
     = calls initial_state.
Proof.
  assert (Hc : credentials_missing Demo.bare_server = true) by (vm_compute; reflexivity).
  split; [exact Hc|].
  apply (proj1 (missing_credentials_checked_first Demo.bare_server
                  (Demo.serve Demo.shared_title) Demo.repr (Demo.complete "요약")
                  (fun _ => "[]") (fun _ => "[]") "오늘" initial_state) Hc).
Defined.

(** Seven keywords and a request for fifty articles each: five searches for
    ten articles, then one completion request. *)
Example search_and_summarize_news_seven_keywords :
  map (fun e => match e with
                | HttpGet _ _ p => (query p, display p)
                | MessagesCreate _ => (PStr "messages.create", 0)
                end)
      (calls (_search_and_summarize_news Demo.server_ (Demo.serve Demo.shared_title)
                (Demo.complete "요약") (fun _ => "[]") (fun _ => "[]") "오늘"
                ["경제"; "주식"; "c"; "d"; "e"; "f"; "g"] 50 true initial_state).2)
  = [(PStr "경제", 10); (PStr "주식", 10); (PStr "c", 10); (PStr "d", 10); (PStr "e", 10);
     (PStr "messages.create", 0)].
Proof. vm_compute. reflexivity. Qed.

(** * Further properties *)

(** ** [credential.py] *)

Lemma environ_set_same key v (environ : gmap string string) :
  environ !! key = Some v -> environ_set key (environ !! key) environ = Ok environ.
Proof. intros H. rewrite H. unfold environ_set. now rewrite insert_id. Qed.

(** X1: loading [credential.py] goes through exactly when the three
    variables it reads are set, and it then leaves the environment as it
    was; otherwise it raises [TypeError]. *)
Theorem credential_module_spec (environ : gmap string string) :
  ((forall k, k ∈ credential_variables -> is_Some (environ !! k)) ->
   credential_module environ = Ok environ)
  /\ (forall k, k ∈ credential_variables -> environ !! k = None ->
                exists m, credential_module environ = Raise (TypeError m))
  /\ (forall environ',
         credential_module environ = Ok environ' ->
         environ' = environ /\ forall k, k ∈ credential_variables -> is_Some (environ !! k)).
Proof.
  unfold credential_module, credential_variables.
  destruct (environ !! "ANTHROPIC_API_KEY") as [a|] eqn:Ea;
    destruct (environ !! "NAVER_CLIENT_ID") as [b|] eqn:Eb;
    destruct (environ !! "NAVER_CLIENT_SECRET") as [c|] eqn:Ec;
    cbn [environ_set and_then];
    rewrite ?(insert_id environ _ _ Ea), ?(insert_id environ _ _ Eb),
      ?(insert_id environ _ _ Ec).
  all: split; [|split].
  all: try (intros H;
            pose proof (H "ANTHROPIC_API_KEY" ltac:(set_solver)) as [? H1];
            pose proof (H "NAVER_CLIENT_ID" ltac:(set_solver)) as [? H2];
            pose proof (H "NAVER_CLIENT_SECRET" ltac:(set_solver)) as [? H3];
            congruence).
  all: try (intros environ' [= <-]; split; [reflexivity|];
            intros k Hk; repeat (apply elem_of_cons in Hk; destruct Hk as [->|Hk]);
            [eauto ..|inversion Hk]).
  all: try (intros environ' ?; discriminate).
  all: try (intros k Hk Hn; repeat (apply elem_of_cons in Hk; destruct Hk as [->|Hk]);
            solve [congruence | inversion Hk | eauto]).
Qed.

(** ** Resources *)

(** X2: called with a string, [handle_read_resource] returns a body exactly
    for the addresses that [handle_list_resources] lists, and raises
    [ValueError] with the address in its message for every other one;
    called with the URL object of the server framework, which is equal to
    no string, it raises that [ValueError] for every address, the listed
    ones included. *)
Theorem read_resource_listed
    (json_dumps_object : list (string * string) -> string)
    (json_dumps_categories : list category_entry -> string) (u : string) :
  (u ∈ map uri handle_list_resources ->
   exists body,
     handle_read_resource json_dumps_object json_dumps_categories (StrUri u) = Ok body)
  /\ (u ∉ map uri handle_list_resources ->
      handle_read_resource json_dumps_object json_dumps_categories (StrUri u)
      = Raise (ValueError ("Unknown resource: " +:+ u)))
  /\ handle_read_resource json_dumps_object json_dumps_categories (AnyUrl u)
     = Raise (ValueError ("Unknown resource: " +:+ u))
  /\ (forall r, r ∈ handle_list_resources ->
        handle_read_resource json_dumps_object json_dumps_categories (AnyUrl (uri r))
        = Raise (ValueError ("Unknown resource: " +:+ uri r))
        /\ exists body,
             handle_read_resource json_dumps_object json_dumps_categories (StrUri (uri r))
             = Ok body).
Proof.
  unfold handle_read_resource. cbn [map handle_list_resources uri uri_eq str_uri].
  split; [|split; [|split]].
  - intros [->|[->|H]%elem_of_cons]%elem_of_cons; [eexists; reflexivity ..|inversion H].
  - rewrite !not_elem_of_cons. intros (H1 & H2 & _).
    apply String.eqb_neq in H1, H2. now rewrite H1, H2.
  - reflexivity.
  - intros r [->|[->|H]%elem_of_cons]%elem_of_cons; [| |inversion H];
      (split; [reflexivity|eexists; reflexivity]).
Qed.

(** ** The tool catalogue and the dispatcher *)

Lemma lookup_category_None_iff reg c :
  lookup_category reg c = None <-> c ∉ map fst reg.
Proof.
  induction reg as [|[k info] reg IH]; cbn [lookup_category map fst].
  - split; [intros _ H; inversion H|reflexivity].
  - rewrite not_elem_of_cons. destruct (String.eqb k c) eqn:E.
    + apply String.eqb_eq in E. split; [discriminate|]. intros [H _]. congruence.
    + apply String.eqb_neq in E. rewrite IH. split; [intros H; split; congruence|tauto].
Qed.

Section Catalogue.

Context (self : server)
        (session_get : list event -> string -> headers -> params -> result response)
        (py_repr : list string -> string)
        (messages_create : list event -> completion_request -> result (list string))
        (json_dumps_news : list (string * string * string) -> string)
        (json_dumps_keywords : pyval -> string)
        (now : string)
        (call_error_text : string -> gmap string pyval -> string).

Local Abbreviation tool_body :=
  (call_tool_body self session_get py_repr messages_create json_dumps_news json_dumps_keywords
                  now call_error_text).
Local Abbreviation call_tool :=
  (handle_call_tool self session_get py_repr messages_create json_dumps_news json_dumps_keywords
                    now call_error_text).

(** What [schema_valid] says, conjunct by conjunct. *)
Ltac split_valid H :=
  unfold schema_valid in H;
  cbn [required_properties properties forallb map property_name
       search_news_tool get_category_news_tool generate_news_report_tool
       search_and_summarize_news_tool] in H;
  repeat match goal with
         | H' : _ && _ = true |- _ =>
             let H1 := fresh "Hv" in apply andb_true_iff in H'; destruct H' as [H' H1]
         end.

Ltac case_argument arguments key :=
  let E := fresh "E" in
  destruct (arguments !! key) as [[| | | |]|] eqn:E;
  repeat match goal with
         | H : context [property_valid] |- _ =>
             progress cbn [property_valid has_type property_type property_enum andb] in H
         | H : false = true |- _ => discriminate H
         | H : bool_decide (is_Some None) = true |- _ =>
             apply bool_decide_eq_true_1 in H; destruct H; discriminate
         end.

Lemma search_news_valid arguments st :
  schema_valid search_news_tool arguments = true ->
  let arg := schema_argument search_news_tool arguments in
  tool_body "search_news" arguments st
  = _search_news self session_get py_repr (str_value (arg "query")) (int_value (arg "display"))
                 (int_value (arg "start")) (str_value (arg "sort")) st.
Proof.
  intros H. cbv zeta.
  change (tool_body "search_news" arguments st)
    with (call_search_news self session_get py_repr call_error_text arguments st).
  unfold call_search_news, accepts, schema_argument.
  split_valid H.
  match goal with Hs : bool_decide (dom arguments ⊆ _) = true |- _ => rewrite Hs end.
  cbn [negb]. unfold bind, lift, required, optional.
  case_argument arguments "query"; case_argument arguments "display";
    case_argument arguments "start"; case_argument arguments "sort"; reflexivity.
Qed.

Lemma get_category_news_valid arguments st :
  schema_valid get_category_news_tool arguments = true ->
  let arg := schema_argument get_category_news_tool arguments in
  tool_body "get_category_news" arguments st
  = _get_category_news self session_get py_repr (str_value (arg "category"))
                       (int_value (arg "display")) (str_value (arg "sort")) st
  /\ lookup_category NEWS_CATEGORIES (str_value (arg "category")) <> None.
Proof.
  intros H. cbv zeta.
  change (tool_body "get_category_news" arguments st)
    with (call_get_category_news self session_get py_repr call_error_text arguments st).
  unfold call_get_category_news, accepts, schema_argument.
  split_valid H.
  match goal with Hs : bool_decide (dom arguments ⊆ _) = true |- _ => rewrite Hs end.
  cbn [negb]. unfold bind, lift, required, optional.
  case_argument arguments "category"; case_argument arguments "display";
    case_argument arguments "sort";
    (split; [reflexivity|]);
    cbn [str_value]; rewrite lookup_category_None_iff;
    match goal with Hc : str_in ?s category_ids = true |- _ =>
      apply str_in_elem_of in Hc; intros Hn; now apply Hn
    end.
Qed.

Lemma generate_news_report_valid arguments st :
  schema_valid generate_news_report_tool arguments = true ->
  let arg := schema_argument generate_news_report_tool arguments in
  tool_body "generate_news_report" arguments st
  = _generate_news_report self session_get py_repr now (str_value (arg "topic"))
                          (optional_str_list_value (arg "keywords"))
                          (int_value (arg "num_articles"))
                          (bool_value (arg "include_links")) st.
Proof.
  intros H. cbv zeta.
  change (tool_body "generate_news_report" arguments st)
    with (call_generate_news_report self session_get py_repr now call_error_text arguments st).
  unfold call_generate_news_report, accepts, schema_argument.
  split_valid H.
  match goal with Hs : bool_decide (dom arguments ⊆ _) = true |- _ => rewrite Hs end.
  cbn [negb]. unfold bind, lift, required, optional.
  case_argument arguments "topic"; case_argument arguments "keywords";
    case_argument arguments "num_articles"; case_argument arguments "include_links";
    reflexivity.
Qed.

Lemma search_and_summarize_news_valid arguments st :
  schema_valid search_and_summarize_news_tool arguments = true ->
  let arg := schema_argument search_and_summarize_news_tool arguments in
  tool_body "search_and_summarize_news" arguments st
  = _search_and_summarize_news self session_get messages_create json_dumps_news
      json_dumps_keywords now (str_list_value (arg "keywords"))
      (int_value (arg "num_articles")) (bool_value (arg "include_keyword_curation")) st.
Proof.
  intros H. cbv zeta.
  change (tool_body "search_and_summarize_news" arguments st)
    with (call_search_and_summarize_news self session_get messages_create json_dumps_news
            json_dumps_keywords now call_error_text arguments st).
  unfold call_search_and_summarize_news, accepts, schema_argument.
  split_valid H.
  match goal with Hs : bool_decide (dom arguments ⊆ _) = true |- _ => rewrite Hs end.
  cbn [negb]. unfold bind, lift, required, optional.
  case_argument arguments "keywords"; case_argument arguments "num_articles";
    case_argument arguments "include_keyword_curation"; reflexivity.
Qed.

(** X3: the tools [handle_list_tools] lists are the tools the dispatcher
    knows, and a call whose arguments fit the input schema of its tool is
    bound without error: the handler runs on the given values, and on the
    defaults the schema documents for the properties the call leaves out; a
    category that fits the schema is one of the registry. *)
Theorem schema_valid_call_binds arguments st :
  map tool_name handle_list_tools = tool_names
  /\ (schema_valid search_news_tool arguments = true ->
      let arg := schema_argument search_news_tool arguments in
      tool_body "search_news" arguments st
      = _search_news self session_get py_repr (str_value (arg "query")) (int_value (arg "display"))
                     (int_value (arg "start")) (str_value (arg "sort")) st)
  /\ (schema_valid get_category_news_tool arguments = true ->
      let arg := schema_argument get_category_news_tool arguments in
      tool_body "get_category_news" arguments st
      = _get_category_news self session_get py_repr (str_value (arg "category"))
                           (int_value (arg "display")) (str_value (arg "sort")) st
      /\ lookup_category NEWS_CATEGORIES (str_value (arg "category")) <> None)
  /\ tool_body "list_categories" arguments st = (Ok _list_categories, st)
  /\ (schema_valid generate_news_report_tool arguments = true ->
      let arg := schema_argument generate_news_report_tool arguments in
      tool_body "generate_news_report" arguments st
      = _generate_news_report self session_get py_repr now (str_value (arg "topic"))
                              (optional_str_list_value (arg "keywords"))
                              (int_value (arg "num_articles"))
                              (bool_value (arg "include_links")) st)
  /\ (schema_valid search_and_summarize_news_tool arguments = true ->
      let arg := schema_argument search_and_summarize_news_tool arguments in
      tool_body "search_and_summarize_news" arguments st
      = _search_and_summarize_news self session_get messages_create json_dumps_news
          json_dumps_keywords now (str_list_value (arg "keywords"))
          (int_value (arg "num_articles")) (bool_value (arg "include_keyword_curation")) st).
Proof.
  split; [reflexivity|].
  split; [apply search_news_valid|].
  split; [apply get_category_news_valid|].
  split; [reflexivity|].
  split; [apply generate_news_report_valid|apply search_and_summarize_news_valid].
Qed.

Lemma accepts_false parameters (arguments : gmap string pyval) key :
  is_Some (arguments !! key) -> key ∉ parameters -> accepts parameters arguments = false.
Proof.
  intros Hk Hn. unfold accepts. apply bool_decide_eq_false_2. intros Hsub.
  apply Hn. apply elem_of_dom in Hk. apply Hsub in Hk. now apply elem_of_list_to_set in Hk.
Qed.

(** X4: a call of a tool that takes arguments, with an argument the tool
    does not declare or without one it requires, is answered with the one
    text ["Error: "] and the message of the [TypeError] of the call; nothing
    is sent and the state is as before. *)
Theorem call_with_bad_arguments_rejected t arguments st :
  t ∈ handle_list_tools ->
  tool_name t <> "list_categories" ->
  (exists key, is_Some (arguments !! key) /\ key ∉ map property_name (properties t))
  \/ (exists key, key ∈ required_properties t /\ arguments !! key = None) ->
  call_tool (tool_name t) arguments st
  = (Ok [text_content ("Error: " +:+ call_error_text ("_" +:+ tool_name t) arguments)], st).
Proof.
  unfold handle_list_tools. intros Ht Hname Hbad.
  repeat (apply elem_of_cons in Ht; destruct Ht as [->|Ht]); [ | | exfalso; now apply Hname | | |inversion Ht].
  all: unfold handle_call_tool, try_except;
    cbn [tool_name search_news_tool get_category_news_tool generate_news_report_tool
         search_and_summarize_news_tool properties required_properties map property_name]
      in Hbad |- *.
  all: match goal with
       | |- context [call_tool_body _ _ _ _ _ _ _ _ ?n ?a ?s] =>
           let b := eval cbv beta iota delta [call_tool_body String.eqb Ascii.eqb Bool.eqb]
                    in (call_tool_body self session_get py_repr messages_create json_dumps_news
                          json_dumps_keywords now call_error_text n a s) in
           change (call_tool_body self session_get py_repr messages_create json_dumps_news
                     json_dumps_keywords now call_error_text n a s) with b
       end.
  all: unfold call_search_news, call_get_category_news, call_generate_news_report,
         call_search_and_summarize_news.
  all: destruct Hbad as [(key & Hk & Hn)|(key & Hk & Hn)].
  all: try (rewrite (accepts_false _ arguments key Hk Hn); reflexivity).
  all: apply list_elem_of_singleton in Hk; subst key.
  all: destruct (accepts _ arguments); cbn [negb]; [|reflexivity].
  all: unfold bind, lift, required; now rewrite Hn.
Qed.

End Catalogue.

(** A search for a word, with nothing else given, and a report with two
    extra keywords. *)
Lemma schema_valid_call_binds_witness :
  schema_valid search_news_tool {[ "query" := PStr "경제" ]} = true
  /\ call_tool_body Demo.server_ (Demo.serve Demo.shared_title) Demo.repr (Demo.complete "요약")
                    (fun _ => "[]") (fun _ => "[]") "오늘" (fun f _ => f)
                    "search_news" {[ "query" := PStr "경제" ]} initial_state
     = _search_news Demo.server_ (Demo.serve Demo.shared_title) Demo.repr "경제" 10 1 "sim"
                    initial_state.
Proof.
  assert (Hv : schema_valid search_news_tool {[ "query" := PStr "경제" ]} = true)
    by (vm_compute; reflexivity).
  split; [exact Hv|].
  pose proof (proj1 (proj2 (schema_valid_call_binds Demo.server_
                (Demo.serve Demo.shared_title) Demo.repr (Demo.complete "요약")
                (fun _ => "[]") (fun _ => "[]") "오늘" (fun f _ => f)
                {[ "query" := PStr "경제" ]} initial_state)) Hv) as H.
  cbv zeta in H. rewrite H. f_equal.
Defined.

(** A search with an argument [limit], which [search_news] does not have. *)
Lemma call_with_bad_arguments_rejected_witness :
  let arguments : gmap string pyval := {[ "query" := PStr "경제"; "limit" := PInt 3 ]} in
  search_news_tool ∈ handle_list_tools
  /\ tool_name search_news_tool <> "list_categories"
  /\ (is_Some (arguments !! "limit")
      /\ "limit" ∉ map property_name (properties search_news_tool))
  /\ handle_call_tool Demo.server_ (Demo.serve Demo.shared_title) Demo.repr (Demo.complete "요약")
                      (fun _ => "[]") (fun _ => "[]") "오늘"
                      (fun f _ => f +:+ "() got an unexpected keyword argument")
                      "search_news" arguments initial_state
     = (Ok [text_content "Error: _search_news() got an unexpected keyword argument"],
        initial_state).
Proof.
  cbv zeta.
  assert (H1 : search_news_tool ∈ handle_list_tools) by (apply elem_of_cons; now left).
  assert (H2 : tool_name search_news_tool <> "list_categories") by discriminate.
  assert (H3 : is_Some (({[ "query" := PStr "경제"; "limit" := PInt 3 ]}
                         : gmap string pyval) !! "limit")
               /\ "limit" ∉ map property_name (properties search_news_tool)).
  { split; [vm_compute; eauto|].
    cbn. rewrite !not_elem_of_cons. repeat split; try discriminate. intros H; inversion H. }
  split; [exact H1|]. split; [exact H2|]. split; [exact H3|].
  exact (call_with_bad_arguments_rejected Demo.server_ (Demo.serve Demo.shared_title) Demo.repr
           (Demo.complete "요약") (fun _ => "[]") (fun _ => "[]") "오늘"
           (fun f _ => f +:+ "() got an unexpected keyword argument")
           search_news_tool _ initial_state H1 H2 (or_introl (ex_intro _ "limit" H3))).
Defined.

(** ** More on text cleaning *)

(** Removing the matches of a pattern leaves a subsequence of the text. *)
Lemma subst_matches_sublist match_len k s :
  list_ascii_of_string (Str.subst_matches match_len EmptyString k s)
  `sublist_of` list_ascii_of_string s.
Proof.
  revert k. induction s as [|c s IH]; intros k; cbn [Str.subst_matches list_ascii_of_string].
  - constructor.
  - destruct k as [|k]; [|apply sublist_cons, IH].
    destruct (match_len (String c s)) as [[|j]|]; cbn [String.append list_ascii_of_string].
    + apply sublist_skip, IH.
    + apply sublist_cons, IH.
    + apply sublist_skip, IH.
Qed.

Lemma has_tag_needs_lt s : Str.mem "<" s = false -> Str.has_tag s = false.
Proof.
  unfold Str.has_tag. induction s as [|c s IH]; cbn [Str.mem Str.matches_somewhere Str.match_tag];
    [reflexivity|].
  destruct (Ascii.eqb c "<"); [discriminate|]. exact IH.
Qed.

Lemma has_tag_needs_gt s : Str.mem ">" s = false -> Str.has_tag s = false.
Proof.
  unfold Str.has_tag. induction s as [|c s IH]; cbn [Str.mem Str.matches_somewhere Str.match_tag];
    [reflexivity|].
  destruct (Ascii.eqb c ">") eqn:E; [discriminate|]. intros H.
  rewrite (proj2 (span_until_mem ">" s) H).
  destruct (Ascii.eqb c "<"); now apply IH.
Qed.

(** X5: [re.sub] with the tag pattern only takes characters away: what it
    returns is a subsequence of the text; a text that has no ["<"] or no
    [">"] comes back unchanged, and so does all of the cleaning for a text
    with neither ["<"] nor ["&"]. *)
Theorem re_sub_tags_keeps_rest (s : string) :
  list_ascii_of_string (Str.re_sub_tags s) `sublist_of` list_ascii_of_string s
  /\ (Str.mem "<" s = false \/ Str.mem ">" s = false -> Str.re_sub_tags s = s)
  /\ (Str.mem "<" s = false -> Str.mem "&" s = false -> _clean_html_tags s = s).
Proof.
  split; [apply subst_matches_sublist|]. split.
  - intros [H|H]; apply re_sub_tags_none; [now apply has_tag_needs_lt|now apply has_tag_needs_gt].
  - intros Hlt Hamp. destruct (clean_no_ampersand s Hamp) as [-> _].
    apply re_sub_tags_none. now apply has_tag_needs_lt.
Qed.

Lemma re_sub_tags_keeps_rest_witness :
  (Str.mem "<" "3 < 5 이면 참" = false \/ Str.mem ">" "3 < 5 이면 참" = false)
  /\ Str.re_sub_tags "3 < 5 이면 참" = "3 < 5 이면 참".
Proof.
  assert (H : Str.mem "<" "3 < 5 이면 참" = false \/ Str.mem ">" "3 < 5 이면 참" = false)
    by (right; reflexivity).
  split; [exact H|]. exact (proj1 (proj2 (re_sub_tags_keeps_rest _)) H).
Defined.

Lemma clean_same_length_is_clean (x : string) :
  String.length (_clean_html_tags x) = String.length x -> is_clean x = true.
Proof.
  unfold is_clean, _clean_html_tags; simpl forallb. intros H.
  remember (Str.re_sub_tags x) as y0 eqn:Y0.
  remember (Str.replace "&quot;" Str.dquote y0) as y1 eqn:Y1.
  remember (Str.replace "&amp;" "&" y1) as y2 eqn:Y2.
  remember (Str.replace "&lt;" "<" y2) as y3 eqn:Y3.
  remember (Str.replace "&gt;" ">" y3) as y4 eqn:Y4.
  pose proof (re_sub_tags_length x) as L0. rewrite <- Y0 in L0.
  pose proof (replace_length "&quot;" Str.dquote ltac:(shorter) y0) as L1.
  rewrite <- Y1 in L1.
  pose proof (replace_length "&amp;" "&" ltac:(shorter) y1) as L2. rewrite <- Y2 in L2.
  pose proof (replace_length "&lt;" "<" ltac:(shorter) y2) as L3. rewrite <- Y3 in L3.
  pose proof (replace_length "&gt;" ">" ltac:(shorter) y3) as L4. rewrite <- Y4 in L4.
  pose proof (replace_length "&apos;" "'" ltac:(shorter) y4) as L5.
  destruct (Str.has_tag x) eqn:T.
  { apply re_sub_tags_shrinks in T. rewrite <- Y0 in T. lia. }
  rewrite (re_sub_tags_none _ T) in Y0. subst y0.
  destruct (Str.occurs "&quot;" x) eqn:O1.
  { apply (replace_shrinks "&quot;" Str.dquote ltac:(shorter)) in O1.
    rewrite <- Y1 in O1. lia. }
  rewrite (replace_none _ _ _ O1) in Y1. subst y1.
  destruct (Str.occurs "&amp;" x) eqn:O2.
  { apply (replace_shrinks "&amp;" "&" ltac:(shorter)) in O2. rewrite <- Y2 in O2. lia. }
  rewrite (replace_none _ _ _ O2) in Y2. subst y2.
  destruct (Str.occurs "&lt;" x) eqn:O3.
  { apply (replace_shrinks "&lt;" "<" ltac:(shorter)) in O3. rewrite <- Y3 in O3. lia. }
  rewrite (replace_none _ _ _ O3) in Y3. subst y3.
  destruct (Str.occurs "&gt;" x) eqn:O4.
  { apply (replace_shrinks "&gt;" ">" ltac:(shorter)) in O4. rewrite <- Y4 in O4. lia. }
  rewrite (replace_none _ _ _ O4) in Y4. subst y4.
  destruct (Str.occurs "&apos;" x) eqn:O5.
  { apply (replace_shrinks "&apos;" "'" ltac:(shorter)) in O5. lia. }
  reflexivity.
Qed.

Lemma clean_length (x : string) :
  (String.length (_clean_html_tags x) <= String.length x)%nat.
Proof.
  unfold _clean_html_tags.
  pose proof (re_sub_tags_length x).
  pose proof (replace_length "&quot;" Str.dquote ltac:(shorter) (Str.re_sub_tags x)).
  pose proof (replace_length "&amp;" "&" ltac:(shorter)
                (Str.replace "&quot;" Str.dquote (Str.re_sub_tags x))).
  pose proof (replace_length "&lt;" "<" ltac:(shorter)
                (Str.replace "&amp;" "&"
                   (Str.replace "&quot;" Str.dquote (Str.re_sub_tags x)))).
  pose proof (replace_length "&gt;" ">" ltac:(shorter)
                (Str.replace "&lt;" "<"
                   (Str.replace "&amp;" "&"
                      (Str.replace "&quot;" Str.dquote (Str.re_sub_tags x))))).
  pose proof (replace_length "&apos;" "'" ltac:(shorter)
                (Str.replace "&gt;" ">"
                   (Str.replace "&lt;" "<"
                      (Str.replace "&amp;" "&"
                         (Str.replace "&quot;" Str.dquote (Str.re_sub_tags x)))))).
  lia.
Qed.

(** X6: cleaning never makes a text longer, and it makes the text shorter
    whenever it changes it: every tag it removes and every entity it decodes
    costs at least one character. *)
Theorem clean_html_tags_shortens (x : string) :
  (String.length (_clean_html_tags x) <= String.length x)%nat
  /\ (String.length (_clean_html_tags x) = String.length x <-> _clean_html_tags x = x)
  /\ (_clean_html_tags x <> x <->
      (String.length (_clean_html_tags x) < String.length x)%nat).
Proof.
  pose proof (clean_length x) as Hle.
  assert (Hiff : String.length (_clean_html_tags x) = String.length x
                 <-> _clean_html_tags x = x).
  { split; [|now intros ->]. intros H. apply clean_fixed_iff. now apply clean_same_length_is_clean. }
  split; [exact Hle|]. split; [exact Hiff|].
  split.
  - intros Hne. destruct (Nat.eq_dec (String.length (_clean_html_tags x)) (String.length x))
      as [He|Hn]; [|lia]. apply Hiff in He. contradiction.
  - intros Hlt Heq. rewrite Heq in Hlt. lia.
Qed.

(** ** The links of the summary report, by keyword *)

Lemma str_in_cons k x l : str_in k (x :: l) = String.eqb k x || str_in k l.
Proof. reflexivity. Qed.

Lemma distinct_in_order_snoc seen l k :
  distinct_in_order seen (l ++ [k])
  = distinct_in_order seen l ++ (if str_in k seen || str_in k l then [] else [k]).
Proof.
  revert seen. induction l as [|x l IH]; intros seen; cbn [app distinct_in_order].
  - change (str_in k []) with false. rewrite orb_false_r. now destruct (str_in k seen).
  - destruct (str_in x seen) eqn:Ex.
    + rewrite IH. f_equal. rewrite str_in_cons.
      destruct (String.eqb k x) eqn:Ek; [|reflexivity].
      apply String.eqb_eq in Ek. subst x. now rewrite Ex.
    + rewrite IH. cbn [app]. do 2 f_equal. rewrite !str_in_cons.
      destruct (String.eqb k x), (str_in k seen), (str_in k l); reflexivity.
Qed.

Lemma distinct_in_order_elem_of seen l k :
  k ∈ distinct_in_order seen l <-> k ∈ l /\ k ∉ seen.
Proof.
  revert seen. induction l as [|x l IH]; intros seen; cbn [distinct_in_order].
  - split; [intros H; inversion H|intros [H _]; inversion H].
  - destruct (str_in x seen) eqn:Ex.
    + apply str_in_elem_of in Ex. rewrite IH, elem_of_cons. split; [tauto|].
      intros [[->|H] Hn]; [contradiction|tauto].
    + apply str_in_not_elem_of in Ex. rewrite !elem_of_cons, IH, not_elem_of_cons.
      split.
      * intros [->|(H1 & H2 & H3)]; tauto.
      * intros [[->|H] Hn]; [now left|].
        destruct (decide (k = x)) as [->|Hne]; [now left|right; tauto].
Qed.

(** The groups for the keywords [keys]: each keyword with its items. *)
Local Abbreviation groups_of keys news :=
  (map (fun k => (k, items_of_keyword k news)) keys).

Lemma group_append_present k x keys news :
  k ∈ keys -> NoDup keys ->
  group_append k x (groups_of keys news)
  = map (fun k' => (k', items_of_keyword k' news ++ if decide (k = k') then [x] else [])) keys.
Proof.
  induction keys as [|k0 keys IH]; cbn [map group_append]; [intros H; inversion H|].
  intros Hin Hnd. apply NoDup_cons in Hnd. destruct Hnd as [Hn0 Hnd].
  destruct (String.eqb k0 k) eqn:E.
  - apply String.eqb_eq in E. subst k0. rewrite decide_True by reflexivity. f_equal.
    apply map_ext_in. intros k' Hk'. apply list_elem_of_In in Hk'.
    rewrite decide_False by (intros ->; contradiction). now rewrite app_nil_r.
  - apply String.eqb_neq in E. rewrite decide_False by congruence. rewrite app_nil_r.
    f_equal. apply IH; [|exact Hnd].
    apply elem_of_cons in Hin. destruct Hin as [->|Hin]; [congruence|exact Hin].
Qed.

Lemma group_append_absent k x keys news :
  k ∉ keys ->
  group_append k x (groups_of keys news) = groups_of keys news ++ [(k, [x])].
Proof.
  induction keys as [|k0 keys IH]; cbn [map group_append app]; [reflexivity|].
  rewrite not_elem_of_cons. intros [Hne Hn].
  destruct (String.eqb k0 k) eqn:E; [apply String.eqb_eq in E; congruence|].
  f_equal. now apply IH.
Qed.

Lemma distinct_in_order_NoDup seen l : NoDup (distinct_in_order seen l).
Proof.
  revert seen. induction l as [|x l IH]; intros seen; cbn [distinct_in_order];
    [constructor|].
  destruct (str_in x seen); [apply IH|]. constructor; [|apply IH].
  rewrite distinct_in_order_elem_of. intros [_ H]. apply H. now apply elem_of_cons; left.
Qed.

Lemma items_of_keyword_snoc k news x :
  items_of_keyword k (news ++ [x])
  = items_of_keyword k news ++ if decide (nd_keyword x = k) then [x] else [].
Proof.
  unfold items_of_keyword. now rewrite filter_app.
Qed.

Lemma items_of_keyword_absent k news :
  k ∉ map nd_keyword news -> items_of_keyword k news = [].
Proof.
  unfold items_of_keyword. induction news as [|x news IH]; [reflexivity|].
  cbn [map]. rewrite not_elem_of_cons. intros [Hne Hn].
  rewrite filter_cons. rewrite decide_False by congruence. now apply IH.
Qed.

(** X7: the links section of the summary report has one group for each
    keyword that has items, the keywords in the order in which they are first
    seen and each keyword once, and a group holds the items of its keyword,
    all of them, in the order of the news. *)
Theorem group_by_keyword_spec (original_news : list news_datum) :
  group_by_keyword original_news
  = map (fun k => (k, items_of_keyword k original_news))
        (distinct_in_order [] (map nd_keyword original_news)).
Proof.
  unfold group_by_keyword.
  induction original_news as [|x news IH] using rev_ind; [reflexivity|].
  rewrite fold_left_app. cbn [fold_left]. rewrite IH.
  rewrite map_app. cbn [map]. rewrite distinct_in_order_snoc.
  change (str_in (nd_keyword x) []) with false. cbn [orb].
  destruct (str_in (nd_keyword x) (map nd_keyword news)) eqn:E.
  - apply str_in_elem_of in E. rewrite app_nil_r.
    rewrite group_append_present.
    + apply map_ext_in. intros k _. now rewrite items_of_keyword_snoc.
    + apply distinct_in_order_elem_of. split; [exact E|]. intros H; inversion H.
    + apply distinct_in_order_NoDup.
  - apply str_in_not_elem_of in E.
    rewrite group_append_absent
      by (rewrite distinct_in_order_elem_of; intros [H _]; contradiction).
    rewrite map_app. cbn [map]. f_equal.
    + apply map_ext_in. intros k Hk. apply list_elem_of_In in Hk.
      apply distinct_in_order_elem_of in Hk. destruct Hk as [Hk _].
      rewrite items_of_keyword_snoc.
      rewrite decide_False by (intros Heq; apply E; now rewrite Heq). now rewrite app_nil_r.
    + rewrite items_of_keyword_snoc, items_of_keyword_absent by exact E.
      now rewrite decide_True by reflexivity.
Qed.

(** ** The requests of a report *)

Section ReportRequests.

Context (self : server)
        (session_get : list event -> string -> headers -> params -> result response)
        (py_repr : list string -> string)
        (now : string).

Local Abbreviation sent_get p := (HttpGet NAVER_API_BASE_URL (naver_headers self) p).

(** The loop over the queries sends one request for each query, in their
    order, until an error ends it. *)
Lemma report_loop_calls apq qs acc st :
  exists sent_for,
    sent_for `prefix_of` qs
    /\ calls (for_each qs (report_query self session_get apq) acc st).2
       = calls st ++ map (fun q => sent_get (report_params apq q)) sent_for
    /\ (forall r, (for_each qs (report_query self session_get apq) acc st).1 = Ok r ->
                  sent_for = qs).
Proof.
  revert acc st. induction qs as [|q qs IH]; intros acc st.
  - exists []. cbn [for_each ret snd fst map]. rewrite app_nil_r. repeat split; auto.
  - cbn [for_each]. unfold bind. rewrite report_query_spec.
    destruct (returned_items _) as [items|e].
    + destruct (IH (fold_left (add_article q) items acc)
                   {| session := session st;
                      calls := calls st ++ [sent_get (report_params apq q)] |})
        as (sent_for & Hp & Hc & Hall).
      exists (q :: sent_for). split; [now apply prefix_cons|].
      split; [rewrite Hc; cbn [calls map]; now rewrite <- app_assoc|].
      intros r Hr. f_equal. now apply (Hall r).
    + exists [q]. split; [apply prefix_cons, prefix_nil|].
      split; [reflexivity|discriminate].
Qed.

Lemma report_search_queries_length topic kws :
  (1 <= length (report_search_queries topic kws) <= 4)%nat.
Proof.
  unfold report_search_queries, report_keywords. cbn [length]. rewrite length_map.
  destruct kws as [[|k ks]|]; cbn [length]; try lia.
  pose proof (length_take (k :: ks) 3). cbn [length] in *. lia.
Qed.

Lemma report_articles_per_query_bounds n qs :
  (1 <= length qs)%nat ->
  5 <= report_articles_per_query (report_num_articles n) qs <= 50.
Proof.
  intros Hq. unfold report_articles_per_query, report_num_articles.
  assert (Z.max 5 (Z.min n 50) / Z.of_nat (length qs) <= 50).
  { apply Z.div_le_upper_bound; nia. }
  lia.
Qed.

(** X8: a report sends at most four searches and nothing else: one for the
    topic and one for each of the first three extra keywords, in this order,
    each for [max(5, num_articles // len(queries))] results with the clamped
    [num_articles], a number between 5 and 50, from the first result and
    sorted by date; all of them are sent whenever the handler returns with
    credentials, and none without credentials. *)
Theorem generate_news_report_requests (topic : string) (kws : option (list string))
    (n : Z) (links : bool) st :
  let queries := report_search_queries topic kws in
  let per_query := Z.max 5 (Z.max 5 (Z.min n 50) / Z.of_nat (length queries)) in
  queries = map PStr (topic :: take 3 (default [] kws))
  /\ (length queries <= 4)%nat
  /\ 5 <= per_query <= 50
  /\ exists sent_for,
       sent_for `prefix_of` queries
       /\ calls (_generate_news_report self session_get py_repr now topic kws n links st).2
          = calls st
            ++ map (fun q => sent_get {| query := q; display := per_query;
                                         start := 1; sort := "date" |}) sent_for
       /\ (credentials_missing self = true -> sent_for = [])
       /\ (credentials_missing self = false ->
           forall out,
             (_generate_news_report self session_get py_repr now topic kws n links st).1 = Ok out ->
             sent_for = queries).
Proof.
  cbv zeta.
  pose proof (report_search_queries_length topic kws) as Hlen.
  pose proof (report_articles_per_query_bounds n (report_search_queries topic kws)
                ltac:(lia)) as Hb.
  unfold report_articles_per_query, report_num_articles in Hb.
  split; [now destruct kws as [[|k ks]|]|].
  split; [lia|]. split; [exact Hb|].
  destruct (credentials_missing self) eqn:Hc.
  - exists []. split; [apply prefix_nil|].
    rewrite generate_news_report_missing by exact Hc.
    cbn [snd map]. rewrite app_nil_r, ensure_session_calls.
    repeat split; auto. discriminate.
  - rewrite generate_news_report_unfold by exact Hc.
    unfold report_collect.
    destruct (report_loop_calls
                (report_articles_per_query (report_num_articles n)
                   (report_search_queries topic kws))
                (report_search_queries topic kws) ([], ∅) (_ensure_session st).2)
      as (sent_for & Hp & Hcalls & Hall).
    exists sent_for. split; [exact Hp|].
    rewrite ensure_session_calls in Hcalls.
    assert (Hd : forall q,
               report_params (report_articles_per_query (report_num_articles n)
                                (report_search_queries topic kws)) q
               = {| query := q;
                    display := Z.max 5 (Z.max 5 (Z.min n 50)
                                        / Z.of_nat (length (report_search_queries topic kws)));
                    start := 1; sort := "date" |}).
    { intros q. unfold report_params, report_articles_per_query, report_num_articles.
      f_equal. lia. }
    rewrite (map_ext _ _ (fun q => f_equal _ (Hd q))) in Hcalls.
    destruct (for_each _ _ _ _) as [[acc|e] st'] eqn:E; cbn [snd fst] in *.
    + split; [exact Hcalls|]. split; [discriminate|]. intros _ out _. now apply (Hall acc).
    + split; [exact Hcalls|]. split; [discriminate|]. intros _ out Hout. discriminate.
Qed.



End ReportRequests.


(** ** What the handlers answer *)

Lemma format_news_results_single data q :
  exists t, _format_news_results data q = [text_content t].
Proof.
  unfold _format_news_results. destruct (default [] (j_items data)); eexists; reflexivity.
Qed.

Lemma returned_items_raise r e : returned_items r = Raise e -> is_ClientError e = false.
Proof.
  unfold returned_items. destruct r as [resp|e'].
  - destruct (status resp =? 200); [|discriminate].
    destruct (body_json resp) as [data|e']; [discriminate|].
    destruct (is_ClientError e') eqn:E; [discriminate|]. now intros [= <-].
  - destruct (is_ClientError e') eqn:E; [discriminate|]. now intros [= <-].
Qed.

Section Outcomes.

Context (self : server)
        (session_get : list event -> string -> headers -> params -> result response)
        (py_repr : list string -> string)
        (messages_create : list event -> completion_request -> result (list string))
        (json_dumps_news : list (string * string * string) -> string)
        (json_dumps_keywords : pyval -> string)
        (now : string).

(** X10: [_search_news] answers with exactly one text whenever it returns,
    and it raises only an error that is not a client error: a client error
    of the request becomes the network-error text, a status other than 200
    the API-error text with the status and the body, and a response without
    items the text that says nothing was found for the query. *)
Theorem search_news_outcomes (q : string) (d s : Z) (so : string) st :
  let run := _search_news self session_get py_repr q d s so st in
  let answer := session_get (calls st) NAVER_API_BASE_URL (naver_headers self)
                            (search_params q d s so) in
  match run.1 with
  | Ok out => exists t, out = [text_content t]
  | Raise e => is_ClientError e = false /\ credentials_missing self = false
  end
  /\ (credentials_missing self = false ->
      (forall m, answer = Raise (ClientError m) ->
                 run.1 = Ok [text_content ("네트워크 오류: " +:+ m)])
      /\ (forall resp, answer = Ok resp -> status resp <> 200 ->
                       run.1 = Ok [text_content ("API 오류 (상태 코드: "
                                                 +:+ str_of_Z (status resp) +:+ "): "
                                                 +:+ body_text resp)])
      /\ (forall resp data,
             answer = Ok resp -> status resp = 200 -> body_json resp = Ok data ->
             default [] (j_items data) = [] ->
             run.1 = Ok [text_content ("'" +:+ q +:+ "'에 대한 검색 결과가 없습니다.")])).
Proof.
  cbv zeta. destruct (credentials_missing self) eqn:Hc.
  - rewrite search_news_missing by exact Hc. cbn [fst].
    split; [eexists; reflexivity|discriminate].
  - rewrite search_news_unfold by exact Hc. cbn [fst]. split.
    + destruct (session_get _ _ _ _) as [resp|e].
      * destruct (negb (status resp =? 200)); [eexists; reflexivity|].
        destruct (body_json resp) as [data|e]; [apply format_news_results_single|].
        destruct (is_ClientError e) eqn:E; [eexists; reflexivity|now split].
      * destruct (is_ClientError e) eqn:E; [eexists; reflexivity|now split].
    + intros _. split; [|split].
      * intros m ->. reflexivity.
      * intros resp -> Hs. apply Z.eqb_neq in Hs. now rewrite Hs.
      * intros resp data -> Hs Hj Hi. apply Z.eqb_eq in Hs. rewrite Hs, Hj. cbn [negb].
        unfold _format_news_results. now rewrite Hi.
Qed.

Lemma summary_loop_raise n ks acc st e :
  (for_each ks (summary_query self session_get n) acc st).1 = Raise e ->
  is_ClientError e = false.
Proof.
  revert acc st. induction ks as [|k ks IH]; intros acc st; cbn [for_each].
  - discriminate.
  - unfold bind. rewrite summary_query_spec.
    destruct (returned_items _) as [items|e'] eqn:E.
    + apply IH.
    + cbn [fst]. intros [= <-]. now apply returned_items_raise in E.
Qed.

(** X11: with the credentials and the completion client,
    [_search_and_summarize_news] raises only what a search raises that is not
    a client error; when the searches return no item it answers that no news
    was found for the first five keywords and sends no completion request;
    otherwise it sends one completion request, with the fixed model, a budget
    of 20000 tokens and the summary prompt of the server, and answers with
    the formatted summary, or with the one text that reports the error when
    the completion fails with an [Exception] or comes back empty; what the
    completion raises that is not an [Exception] is raised. *)
Theorem search_and_summarize_news_outcomes (kws : list string) (n : Z) (curation : bool) st :
  credentials_missing self = false ->
  claude_client self <> None ->
  let run := _search_and_summarize_news self session_get messages_create json_dumps_news
               json_dumps_keywords now kws n curation st in
  match summary_collect self session_get kws n (_ensure_session st).2 with
  | (Raise e, st') => run = (Raise e, st') /\ is_ClientError e = false
  | (Ok [], st') =>
      run = (Ok [text_content ("검색된 뉴스가 없습니다. 키워드: "
                               +:+ Str.join ", " (take 5 kws))], st')
  | (Ok news, st') =>
      exists r,
        run.2 = {| session := session st'; calls := calls st' ++ [MessagesCreate r] |}
        /\ model r = "claude-haiku-4-5-20251001"
        /\ max_tokens r = 20000
        /\ system r = summary_prompt self
        /\ run.1 = match messages_create (calls st') r with
                   | Ok (result_text :: _) =>
                       Ok [text_content (_format_summary_result now result_text news)]
                   | Ok [] =>
                       Ok [text_content ("요약 생성 중 오류가 발생했습니다: "
                                         +:+ "list index out of range")]
                   | Raise e =>
                       if is_Exception e
                       then Ok [text_content ("요약 생성 중 오류가 발생했습니다: "
                                              +:+ str_exn e)]
                       else Raise e
                   end
  end.
Proof.
  intros Hc Hk. cbv zeta.
  unfold _search_and_summarize_news, bind, lift. cbn [py_number py_sequence py_take]. rewrite Hc.
  assert (He : _ensure_session st = (Ok tt, (_ensure_session st).2)).
  { unfold _ensure_session. now destruct (session st). }
  set (st1 := (_ensure_session st).2) in *. clearbody st1.
  rewrite He. destruct (claude_client self) as [client|]; [|now exfalso; apply Hk].
  destruct (summary_collect self session_get kws n st1) as [[news|e] st'] eqn:E.
  - destruct news as [|d news]; cbv beta iota; [reflexivity|].
    unfold try_except, _summarize_with_claude, bind, create, ret, summary_keywords.
    cbn [calls session].
    match goal with |- context [messages_create (calls st') ?req] => exists req end.
    destruct (messages_create _ _) as [[|t ts]|e]; [| |destruct (is_Exception e)];
      cbn [fst snd]; repeat split; reflexivity.
  - cbv beta iota. split; [reflexivity|].
    unfold summary_collect in E.
    apply (summary_loop_raise (summary_num_articles n) (summary_keywords kws) [] st1).
    now rewrite E.
Qed.

End Outcomes.

(** Two keywords, of which the search returns titles, and a completion API
    that is down. *)
Lemma search_and_summarize_news_outcomes_witness :
  let down := fun (_ : list event) (_ : completion_request) =>
                @Raise (list string) (OtherError "overloaded") in
  credentials_missing Demo.server_ = false
  /\ claude_client Demo.server_ <> None
  /\ (_search_and_summarize_news Demo.server_ (Demo.serve Demo.shared_title) down
        (fun _ => "[]") (fun _ => "[]") "오늘" ["주식"] 5 true initial_state).1
     = Ok [text_content "요약 생성 중 오류가 발생했습니다: overloaded"].
Proof.
  cbv zeta.
  assert (Hc : credentials_missing Demo.server_ = false) by (vm_compute; reflexivity).
  assert (Hk : claude_client Demo.server_ <> None) by (vm_compute; discriminate).
  split; [exact Hc|]. split; [exact Hk|].
  pose proof (search_and_summarize_news_outcomes Demo.server_ (Demo.serve Demo.shared_title)
                (fun _ _ => Raise (OtherError "overloaded")) (fun _ => "[]") (fun _ => "[]")
                "오늘" ["주식"] 5 true initial_state Hc Hk) as H.
  cbv zeta in H.
  destruct (summary_collect Demo.server_ (Demo.serve Demo.shared_title) ["주식"] 5
              (_ensure_session initial_state).2) as [[[|d news]|e] st'] eqn:E.
  - vm_compute in E. discriminate.
  - destruct H as (r & _ & _ & _ & _ & H). exact H.
  - vm_compute in E. discriminate.
Defined.

(** ** The entries of a summary and their identifiers *)

Lemma str_app_nil (b : string) : EmptyString +:+ b = b.
Proof. reflexivity. Qed.

Lemma str_app_cons c (a b : string) : String c a +:+ b = String c (a +:+ b).
Proof. reflexivity. Qed.

Lemma str_mem_app c a b : Str.mem c (a +:+ b) = Str.mem c a || Str.mem c b.
Proof.
  induction a as [|d a IH]; rewrite ?str_app_nil, ?str_app_cons; cbn [Str.mem];
    [reflexivity|].
  destruct (Ascii.eqb d c); [reflexivity|exact IH].
Qed.

(** A keyword and a number are read back from the identifier made of them. *)
Lemma id_parts_unique k1 k2 d1 d2 :
  Str.mem "_" d1 = false -> Str.mem "_" d2 = false ->
  k1 +:+ "_" +:+ d1 = k2 +:+ "_" +:+ d2 -> k1 = k2 /\ d1 = d2.
Proof.
  intros H1 H2. revert k2. induction k1 as [|c k1 IH]; intros [|c2 k2] H;
    rewrite ?str_app_nil, ?str_app_cons, ?str_app_nil in H.
  - injection H as ->. now split.
  - injection H as <- ->. rewrite str_mem_app in H1. cbn [Str.mem] in H1.
    rewrite Ascii.eqb_refl, orb_true_r in H1. discriminate.
  - injection H as -> <-. rewrite str_mem_app in H2. cbn [Str.mem] in H2.
    rewrite Ascii.eqb_refl, orb_true_r in H2. discriminate.
  - injection H as <- H. destruct (IH _ H) as [-> ->]. now split.
Qed.

Lemma string_of_uint_no_underscore d : Str.mem "_" (NilEmpty.string_of_uint d) = false.
Proof. induction d; simpl; auto. Qed.

Lemma str_of_Z_no_underscore n : Str.mem "_" (str_of_Z n) = false.
Proof.
  unfold str_of_Z, NilZero.string_of_int, NilZero.string_of_uint.
  destruct (Z.to_int n) as [d|d]; destruct d; try reflexivity;
    try apply string_of_uint_no_underscore;
    simpl; apply string_of_uint_no_underscore.
Qed.

Lemma to_int_not_nil n : Z.to_int n <> Decimal.Pos Decimal.Nil /\ Z.to_int n <> Decimal.Neg Decimal.Nil.
Proof.
  destruct n as [|p|p]; cbn; split; try discriminate;
    intros [= H]; now apply Stdlib.Numbers.DecimalPos.Unsigned.to_uint_nonnil in H.
Qed.

Lemma str_of_Z_inj a b : str_of_Z a = str_of_Z b -> a = b.
Proof.
  unfold str_of_Z. intros H.
  apply Stdlib.Numbers.DecimalZ.to_int_inj.
  destruct (to_int_not_nil a) as [Ha1 Ha2], (to_int_not_nil b) as [Hb1 Hb2].
  pose proof (NilZero.isi _ Ha1 Ha2) as Ia. pose proof (NilZero.isi _ Hb1 Hb2) as Ib.
  rewrite H in Ia. rewrite Ia in Ib. now injection Ib.
Qed.

Lemma enumerate_map_ids k first items :
  map nd_id (enumerate_map (news_entry k) first items)
  = map (fun j => k +:+ "_" +:+ str_of_Z (first + Z.of_nat j)) (seq 0 (length items)).
Proof.
  revert first. induction items as [|it items IH]; intros first; [reflexivity|].
  cbn [enumerate_map map length seq]. f_equal.
  - cbn [news_entry nd_id]. now rewrite Z.add_0_r.
  - rewrite IH, <- seq_shift, map_map. apply map_ext. intros j. do 3 f_equal. lia.
Qed.

Lemma enumerate_map_ids_NoDup k first items :
  NoDup (map nd_id (enumerate_map (news_entry k) first items)).
Proof.
  rewrite enumerate_map_ids. change (map ?f ?l) with (f <$> l).
  apply NoDup_fmap_2; [|apply NoDup_seq].
  intros i j H.
  apply id_parts_unique in H; try apply str_of_Z_no_underscore.
  destruct H as [_ H]. apply str_of_Z_inj in H. lia.
Qed.

Lemma enumerate_map_entry k first items d :
  d ∈ enumerate_map (news_entry k) first items ->
  nd_keyword d = k
  /\ exists i, first <= i /\ nd_id d = k +:+ "_" +:+ str_of_Z i.
Proof.
  revert first. induction items as [|it items IH]; intros first; cbn [enumerate_map].
  - intros H. inversion H.
  - intros [->|H]%elem_of_cons.
    + split; [reflexivity|]. exists first. split; [lia|reflexivity].
    + destruct (IH _ H) as (Hk & i & Hi & Hid). split; [exact Hk|].
      exists i. split; [lia|exact Hid].
Qed.

Lemma collected_entries_entry ans l d :
  collected_entries ans = Ok l -> d ∈ l ->
  nd_keyword d ∈ map fst ans
  /\ exists i, 1 <= i /\ nd_id d = nd_keyword d +:+ "_" +:+ str_of_Z i.
Proof.
  revert l. induction ans as [|[k r] ans IH]; intros l; cbn [collected_entries map fst].
  - intros [= <-] H. inversion H.
  - destruct (returned_items r) as [items|e]; [|discriminate].
    destruct (collected_entries ans) as [more|e]; [|discriminate].
    intros [= <-] [H|H]%elem_of_app.
    + apply enumerate_map_entry in H. destruct H as (-> & i & Hi & Hid).
      split; [now apply elem_of_cons; left|]. now exists i.
    + destruct (IH _ eq_refl H) as [Hk Hi]. split; [now apply elem_of_cons; right|exact Hi].
Qed.

Lemma collected_entries_ids_NoDup ans l :
  NoDup (map fst ans) -> collected_entries ans = Ok l -> NoDup (map nd_id l).
Proof.
  revert l. induction ans as [|[k r] ans IH]; intros l; cbn [collected_entries map fst].
  - intros _ [= <-]. constructor.
  - intros [Hk Hnd]%NoDup_cons.
    destruct (returned_items r) as [items|e]; [|discriminate].
    destruct (collected_entries ans) as [more|e] eqn:E; [|discriminate].
    intros [= <-]. rewrite map_app. apply NoDup_app.
    split; [apply enumerate_map_ids_NoDup|]. split; [|now apply IH].
    intros x Hx Hx'.
    change (map ?f ?l) with (f <$> l) in Hx, Hx'.
    apply list_elem_of_fmap in Hx, Hx'.
    destruct Hx as (d & -> & Hd), Hx' as (d' & Heq & Hd').
    apply enumerate_map_entry in Hd. destruct Hd as (Hkd & i & _ & Hid).
    destruct (collected_entries_entry _ _ _ E Hd') as (Hin & i' & _ & Hid').
    rewrite Hid, Hid' in Heq.
    apply id_parts_unique in Heq; try apply str_of_Z_no_underscore.
    destruct Heq as [Heq _]. apply Hk. now rewrite Heq.
Qed.

Section SummaryEntries.

Context (self : server)
        (session_get : list event -> string -> headers -> params -> result response).

Lemma summary_loop_spec n ks acc st :
  (for_each ks (summary_query self session_get n) acc st).1
  = match collected_entries (answers self session_get (summary_params n) (calls st) ks) with
    | Ok more => Ok (acc ++ more)
    | Raise e => Raise e
    end.
Proof.
  revert acc st. induction ks as [|k ks IH]; intros acc st;
    cbn [for_each answers collected_entries].
  - cbn [ret fst]. now rewrite app_nil_r.
  - unfold bind. rewrite summary_query_spec.
    destruct (returned_items _) as [items|e]; [|reflexivity].
    rewrite IH. cbn [calls].
    destruct (collected_entries _) as [more|e]; [|reflexivity].
    now rewrite app_assoc.
Qed.

(** X12: the entries [_search_and_summarize_news] collects are those of the
    first five keywords, keyword after keyword and, for a keyword, in the
    order of the response; the entry number [j] of a keyword, counted from 1,
    has the identifier made of the keyword, ["_"] and [j]; when the first
    five keywords are all different, no two entries have the same
    identifier. *)
Theorem summary_entries_spec kws n st :
  (summary_collect self session_get kws n st).1
  = collected_entries (answers self session_get (summary_params (Z.max 1 (Z.min n 10)))
                               (calls st) (take 5 kws))
  /\ (forall k items,
         map nd_id (enumerate_map (news_entry k) 1 items)
         = map (fun j => k +:+ "_" +:+ str_of_Z (Z.of_nat j)) (seq 1 (length items)))
  /\ (forall all_news_data st',
         summary_collect self session_get kws n st = (Ok all_news_data, st') ->
         NoDup (take 5 kws) -> NoDup (map nd_id all_news_data)).
Proof.
  assert (Hspec : (summary_collect self session_get kws n st).1
                  = collected_entries
                      (answers self session_get (summary_params (Z.max 1 (Z.min n 10)))
                               (calls st) (take 5 kws))).
  { unfold summary_collect. rewrite summary_loop_spec.
    unfold summary_num_articles, summary_keywords.
    now destruct (collected_entries _). }
  split; [exact Hspec|]. split.
  - intros k items. rewrite enumerate_map_ids, <- seq_shift, map_map.
    apply map_ext. intros j. do 3 f_equal. lia.
  - intros all st' H Hnd. rewrite H in Hspec. cbn [fst] in Hspec. symmetry in Hspec.
    assert (Hfst : forall mk cs (qs : list string),
               map fst (answers self session_get mk cs qs) = qs).
    { intros mk cs qs. revert cs. induction qs as [|q qs IH]; intros cs; [reflexivity|].
      cbn [answers map fst]. now rewrite IH. }
    eapply collected_entries_ids_NoDup; [|exact Hspec]. now rewrite Hfst.
Qed.

End SummaryEntries.

(** ** Which links are shown *)

Lemma truthy_iff s : Str.truthy s = true <-> s <> EmptyString.
Proof. destruct s; cbn; split; congruence. Qed.

(** Two lines that begin differently are different. *)
Ltac different_lines :=
  let H := fresh in
  intros H; cbv beta iota delta [String.append] in H; fold String.append in H;
  repeat (discriminate H || injection H as H).

Ltac line_in_list :=
  repeat match goal with
         | H : _ ∈ _ ++ _ |- _ => apply elem_of_app in H; destruct H as [H|H]
         | H : _ ∈ _ :: _ |- _ => apply elem_of_cons in H; destruct H as [H|H]
         | H : _ ∈ [] |- _ => inversion H
         | H : _ ∈ (if ?b then _ else _) |- _ => destruct b eqn:?
         end.

(** X13: a search result shows the line of the original link exactly when
    the item has one, and the line of the Naver link exactly when the item
    has one that differs from the original link; a report shows the two
    links of an article by the same rule when links are asked for, and none
    otherwise. *)
Theorem link_lines_rule :
  (forall i it,
      let original_link := item_get it "originallink" EmptyString in
      let naver_link := item_get it "link" EmptyString in
      ("**원문 링크:** " +:+ original_link ∈ format_news_item i it
       <-> original_link <> EmptyString)
      /\ ("**네이버 뉴스:** " +:+ naver_link ∈ format_news_item i it
          <-> naver_link <> EmptyString /\ naver_link <> original_link))
  /\ (forall include_links i a,
         ("🔗 [원문 보기](" +:+ originallink a +:+ ")" ∈ report_article_lines include_links i a
          <-> include_links = true /\ originallink a <> EmptyString)
         /\ ("🔗 [네이버 뉴스](" +:+ link a +:+ ")" ∈ report_article_lines include_links i a
             <-> include_links = true /\ link a <> EmptyString
                 /\ link a <> originallink a)).
Proof.
  split.
  - intros i it. cbv zeta. unfold format_news_item.
    split; split.
    + intros H. line_in_list; try (revert H; different_lines).
      now apply truthy_iff.
    + intros H%truthy_iff. rewrite H.
      apply elem_of_app; right. apply elem_of_app; left. now apply elem_of_cons; left.
    + intros H. line_in_list; try (revert H; different_lines).
      all: match goal with
           | E : Str.truthy ?x && negb (String.eqb ?x ?y) = true |- _ =>
               apply andb_true_iff in E; destruct E as [E1 E2];
               apply truthy_iff in E1; apply negb_true_iff, String.eqb_neq in E2; now split
           end.
    + intros [H1%truthy_iff H2%String.eqb_neq]. rewrite H1, H2. cbn [negb andb].
      apply elem_of_app; right. apply elem_of_app; right.
      apply elem_of_app; left. now apply elem_of_cons; left.
  - intros include_links i a. unfold report_article_lines.
    split; split.
    + intros H. line_in_list; try (revert H; different_lines).
      all: split; [reflexivity|now apply truthy_iff].
    + intros [-> H%truthy_iff]. rewrite H.
      apply elem_of_app; right. apply elem_of_app; left.
      apply elem_of_app; left. now apply elem_of_cons; left.
    + intros H. line_in_list; try (revert H; different_lines).
      all: match goal with
           | E : Str.truthy ?x && negb (String.eqb ?x ?y) = true |- _ =>
               apply andb_true_iff in E; destruct E as [E1 E2];
               apply truthy_iff in E1; apply negb_true_iff, String.eqb_neq in E2;
               now repeat split
           end.
    + intros (-> & H1%truthy_iff & H2%String.eqb_neq). rewrite H1, H2. cbn [negb andb].
      apply elem_of_app; right. apply elem_of_app; left.
      apply elem_of_app; right. now apply elem_of_cons; left.
Qed.

(** ** How much a tool call sends *)

Section CallBudget.

Context (self : server)
        (session_get : list event -> string -> headers -> params -> result response)
        (py_repr : list string -> string)
        (messages_create : list event -> completion_request -> result (list string))
        (json_dumps_news : list (string * string * string) -> string)
        (json_dumps_keywords : pyval -> string)
        (now : string)
        (call_error_text : string -> gmap string pyval -> string).

(** The calls of a dispatcher are those of the body of its [try]. *)
Lemma call_tool_body_cases name arguments st :
  let tool_body := call_tool_body self session_get py_repr messages_create json_dumps_news
                                  json_dumps_keywords now call_error_text name arguments st in
  tool_body.2 = st
  \/ (name = "search_news"
      /\ exists q d s so, tool_body = _search_news self session_get py_repr q d s so st)
  \/ (name = "get_category_news"
      /\ exists c d so, tool_body = _get_category_news self session_get py_repr c d so st)
  \/ (name = "generate_news_report"
      /\ exists topic kws n links,
           tool_body = _generate_news_report self session_get py_repr now topic kws n links st)
  \/ (name = "search_and_summarize_news"
      /\ exists kws n curation,
           tool_body = _search_and_summarize_news self session_get messages_create
                         json_dumps_news json_dumps_keywords now kws n curation st).
Proof.
  cbv zeta. unfold call_tool_body.
  destruct (String.eqb name "search_news") eqn:E1.
  { apply String.eqb_eq in E1. subst name. unfold call_search_news.
    destruct (accepts _ _); cbn [negb]; [|now left].
    unfold bind, lift, required.
    destruct (arguments !! "query"); cbn [call_error]; [|now left].
    right; left; split; [reflexivity|]; eauto 10. }
  destruct (String.eqb name "get_category_news") eqn:E2.
  { apply String.eqb_eq in E2. subst name. unfold call_get_category_news.
    destruct (accepts _ _); cbn [negb]; [|now left].
    unfold bind, lift, required.
    destruct (arguments !! "category"); cbn [call_error]; [|now left].
    right; right; left; split; [reflexivity|]; eauto 10. }
  destruct (String.eqb name "list_categories") eqn:E3; [now left|].
  destruct (String.eqb name "generate_news_report") eqn:E4.
  { apply String.eqb_eq in E4. subst name. unfold call_generate_news_report.
    destruct (accepts _ _); cbn [negb]; [|now left].
    unfold bind, lift, required.
    destruct (arguments !! "topic"); cbn [call_error]; [|now left].
    right; right; right; left; split; [reflexivity|]; eauto 10. }
  destruct (String.eqb name "search_and_summarize_news") eqn:E5; [|now left].
  apply String.eqb_eq in E5. subst name. unfold call_search_and_summarize_news.
  destruct (accepts _ _); cbn [negb]; [|now left].
  unfold bind, lift, required.
  destruct (arguments !! "keywords"); cbn [call_error]; [|now left].
  right; right; right; right; split; [reflexivity|]; eauto 10.
Qed.

(** X14: a tool call leaves the calls made before as they are and adds few:
    at most five searches, followed by at most one completion request; a
    search or a category search adds at most one search, a report at most
    four searches, and only [search_and_summarize_news] ever asks for a
    completion. *)
Theorem handle_call_tool_budget name arguments st :
  let run := handle_call_tool self session_get py_repr messages_create json_dumps_news
                              json_dumps_keywords now call_error_text name arguments st in
  exists gets rest,
    calls run.2 = calls st ++ gets ++ rest
    /\ Forall (fun e => is_HttpGet e = true) gets
    /\ (length gets <= 5)%nat
    /\ (rest = [] \/ exists r, rest = [MessagesCreate r])
    /\ (name = "search_news" \/ name = "get_category_news" -> (length gets <= 1)%nat)
    /\ (name = "generate_news_report" -> (length gets <= 4)%nat)
    /\ (name <> "search_and_summarize_news" -> rest = []).
Proof.
  cbv zeta. rewrite handle_call_tool_calls.
  destruct (call_tool_body_cases name arguments st)
    as [H|[(-> & q & d & s & so & ->)|[(-> & c & d & so & ->)|
        [(-> & topic & kws & n & links & ->)|(-> & kws & n & curation & ->)]]]].
  - exists [], []. rewrite H. cbn [app length]. rewrite app_nil_r.
    repeat split; auto; intros; lia.
  - destruct (search_news_run self session_get py_repr q d s so st)
      as (gets & (_ & Hc & Hf) & Hl).
    exists gets, []. repeat split; auto; intros; try lia; try discriminate.
  - destruct (get_category_news_run self session_get py_repr c d so st) as [H|[q H]].
    + exists [], []. rewrite H. cbn [app length]. rewrite app_nil_r.
      repeat split; auto; intros; lia.
    + rewrite H.
      destruct (search_news_run self session_get py_repr q d 1 so st)
        as (gets & (_ & Hc & Hf) & Hl).
      exists gets, []. repeat split; auto; intros; try lia; try discriminate.
  - destruct (generate_news_report_run self session_get py_repr now topic kws n links st)
      as (gets & (_ & Hc & Hf) & Hl).
    exists gets, []. repeat split; auto; intros; try lia;
      try match goal with H : _ \/ _ |- _ => destruct H; discriminate end.
  - destruct (search_and_summarize_news_run self session_get messages_create json_dumps_news
                json_dumps_keywords now kws n curation st)
      as (gets & rest & (_ & Hc & Hf) & Hl & Hr).
    exists gets, rest. repeat split; auto; intros; try lia; try congruence;
      try discriminate;
      try match goal with H : _ \/ _ |- _ => destruct H; discriminate end.
Qed.

End CallBudget.

(** ** The session *)

Section Session.

Context (self : server)
        (session_get : list event -> string -> headers -> params -> result response)
        (py_repr : list string -> string)
        (messages_create : list event -> completion_request -> result (list string))
        (json_dumps_news : list (string * string * string) -> string)
        (json_dumps_keywords : pyval -> string)
        (now : string)
        (call_error_text : string -> gmap string pyval -> string).


(** X15: the handlers that may send a request leave the session open,
    whatever it was before, and a tool call never closes or drops a session:
    after the call the session is as before or open. *)
Theorem session_stays_open :
  (forall q d s so st,
      session (_search_news self session_get py_repr q d s so st).2 = SessionOpen)
  /\ (forall topic kws n links st,
         session (_generate_news_report self session_get py_repr now topic kws n links st).2
         = SessionOpen)
  /\ (forall kws n curation st,
         session (_search_and_summarize_news self session_get messages_create
                    json_dumps_news json_dumps_keywords now kws n curation st).2
         = SessionOpen)
  /\ (forall name arguments st,
         let st' := (handle_call_tool self session_get py_repr messages_create json_dumps_news
                       json_dumps_keywords now call_error_text name arguments st).2 in
         session st' = session st \/ session st' = SessionOpen).
Proof.
  assert (Hsearch : forall q d s so st,
             session (_search_news self session_get py_repr q d s so st).2 = SessionOpen).
  { intros q d s so st.
    now destruct (search_news_run self session_get py_repr q d s so st) as (gets & (H & _) & _). }
  assert (Hreport : forall topic kws n links st,
             session (_generate_news_report self session_get py_repr now topic kws n links st).2
             = SessionOpen).
  { intros topic kws n links st.
    now destruct (generate_news_report_run self session_get py_repr now topic kws n links st)
      as (gets & (H & _) & _). }
  assert (Hsummary : forall kws n curation st,
             session (_search_and_summarize_news self session_get messages_create
                        json_dumps_news json_dumps_keywords now kws n curation st).2
             = SessionOpen).
  { intros kws n curation st.
    now destruct (search_and_summarize_news_run self session_get messages_create
                    json_dumps_news json_dumps_keywords now kws n curation st)
      as (gets & rest & (H & _) & _). }
  split; [exact Hsearch|]. split; [exact Hreport|]. split; [exact Hsummary|].
  intros name arguments st. cbv zeta.
  assert (Hst : (handle_call_tool self session_get py_repr messages_create json_dumps_news
                   json_dumps_keywords now call_error_text name arguments st).2
                = (call_tool_body self session_get py_repr messages_create json_dumps_news
                     json_dumps_keywords now call_error_text name arguments st).2).
  { unfold handle_call_tool, try_except.
    destruct (call_tool_body _ _ _ _ _ _ _ _ _ _ _) as [[out|e] st']; [reflexivity|].
    now destruct (is_Exception e). }
  rewrite Hst.
  destruct (call_tool_body_cases self session_get py_repr messages_create json_dumps_news
              json_dumps_keywords now call_error_text name arguments st)
    as [H|[(_ & q & d & s & so & ->)|[(_ & c & d & so & ->)|
        [(_ & topic & kws & n & links & ->)|(_ & kws & n & curation & ->)]]]].
  - left. now rewrite H.
  - right. apply Hsearch.
  - destruct (get_category_news_run self session_get py_repr c d so st) as [H|[q H]].
    + left. now rewrite H.
    + right. rewrite H. apply Hsearch.
  - right. apply Hreport.
  - right. apply Hsummary.
Qed.

End Session.

(** ** Values of other types *)

Section OtherTypes.

Context (self : server)
        (session_get : list event -> string -> headers -> params -> result response)
        (py_repr : list string -> string).

(** X16: [_search_news] works on the values it is given, of whatever type.
    A sort value that is not a string is replaced by [sim], like a string
    that is neither [sim] nor [date]; a truth value given for [display] or
    for [start] counts as the number 0 or 1, so that 1 is sent; [None], a
    string or a list given for [display] or for [start] makes the
    comparison with the bound raise [TypeError], which happens after the
    session is opened and the credentials are checked: without
    credentials the answer is the credentials text, with them the error is
    raised and nothing is sent. *)
Theorem search_news_values (q d s so : pyval) st :
  ((forall x : string, so <> PStr x) ->
   _search_news self session_get py_repr q d s so st
   = _search_news self session_get py_repr q d s "sim" st)
  /\ (forall b : bool,
         _search_news self session_get py_repr q (PBool b) s so st
         = _search_news self session_get py_repr q 1 s so st
         /\ _search_news self session_get py_repr q d (PBool b) so st
            = _search_news self session_get py_repr q d 1 so st)
  /\ ((forall n : Z, d <> PInt n) -> (forall b : bool, d <> PBool b) ->
      let e := TypeError ("'<' not supported between instances of 'int' and '"
                          +:+ type_name d +:+ "'") in
      _search_news self session_get py_repr q d s so st
      = (if credentials_missing self then Ok [text_content credentials_missing_text]
         else Raise e,
         {| session := SessionOpen; calls := calls st |}))
  /\ (forall d' : Z, py_number d = Ok d' ->
      (forall n : Z, s <> PInt n) -> (forall b : bool, s <> PBool b) ->
      let e := TypeError ("'<' not supported between instances of 'int' and '"
                          +:+ type_name s +:+ "'") in
      _search_news self session_get py_repr q d s so st
      = (if credentials_missing self then Ok [text_content credentials_missing_text]
         else Raise e,
         {| session := SessionOpen; calls := calls st |})).
Proof.
  split; [|split; [|split]].
  - intros Hso. destruct so as [| | |x|]; try reflexivity. now destruct (Hso x).
  - intros b. split.
    + unfold _search_news, bind, lift. now destruct b.
    + unfold _search_news, bind, lift. now destruct b.
  - intros Hn Hb. cbv zeta. unfold _search_news, bind, lift. rewrite ensure_session_run.
    destruct (credentials_missing self); [reflexivity|].
    destruct d as [|b|n| |]; try reflexivity; [now destruct (Hb b)|now destruct (Hn n)].
  - intros d' Hd Hn Hb. cbv zeta. unfold _search_news, bind, lift.
    rewrite ensure_session_run, Hd.
    destruct (credentials_missing self); [reflexivity|].
    destruct s as [|b|n| |]; try reflexivity; [now destruct (Hb b)|now destruct (Hn n)].
Qed.

End OtherTypes.

(** A search sorted by the number 5, and a search for the string ["10"] of
    results on a server without credentials. *)
Lemma search_news_values_witness :
  let search := _search_news Demo.server_ (Demo.serve Demo.shared_title) Demo.repr in
  search "경제" 10 1 (PInt 5) initial_state = search "경제" 10 1 "sim" initial_state
  /\ _search_news Demo.bare_server (Demo.serve Demo.shared_title) Demo.repr
                  "경제" (PStr "10") 1 "sim" initial_state
     = (Ok [text_content credentials_missing_text],
        {| session := SessionOpen; calls := [] |}).
Proof.
  cbv zeta. split.
  - apply (proj1 (search_news_values Demo.server_ (Demo.serve Demo.shared_title) Demo.repr
                    "경제" 10 1 (PInt 5) initial_state)).
    discriminate.
  - apply (proj1 (proj2 (proj2 (search_news_values Demo.bare_server
                    (Demo.serve Demo.shared_title) Demo.repr
                    "경제" (PStr "10") 1 "sim" initial_state)))); discriminate.
Defined.
